(** * Mailchimp newsletter exporters: a shallow embedding

    The repository holds three scripts that talk to the Mailchimp REST API:
    - [mailchimp_csv_generator.py]         (module [Basic] below),
    - [mailchimp_csv_generator_robust.py]  (module [Robust] below),
    - [mailchimp_downloader.py]            (module [Downloader] below).

    Every method is embedded as a function in a small state-and-exception
    monad.  The state ([World]) carries the number of HTTP requests issued so
    far, a log of the observable actions (requests, sleeps, method entries)
    and the contents of the output CSV file; the downloader has a state of
    its own ([Downloader.Store]) with the text files it writes.  The remote
    API is an oracle ([Net]) that answers the n-th request of the run: an
    answer is what the [get] call returns or raises, which for the robust
    generator is [session.get] with the retries of its adapter done.  A
    [str] is kept as its UTF-8 bytes, lengths and slices counting code
    points ([py_len], [py_prefix]); console output ([print]) is not
    modelled. *)

From Stdlib Require Import ZArith QArith_base Lia List String Ascii.
From stdpp Require Import base option gmap strings list pretty.

Close Scope Q_scope.
Open Scope Z_scope.
Open Scope nat_scope.
Open Scope string_scope.
Open Scope list_scope.

(** ** Python values *)

(** A JSON number: an [int], or a [float] given by its binary64 bit pattern. *)
Inductive pynum :=
| PInt (z : Z)
| PFloat (bits : Z).

(** A value stored in a CSV row dictionary. *)
Inductive pyval :=
| VStr (s : string)
| VNum (n : pynum).

(** The exceptions that matter to the scripts.  [Timeout] is
    [requests.exceptions.Timeout]; every constructor is a subclass of
    Python's [Exception]. *)
Inductive exn :=
| Timeout
| ConnectionError
| JSONDecodeError
| ZeroDivisionError.

Inductive result (A : Type) :=
| Ret (a : A)
| Raise (e : exn).
Arguments Ret {A} a.
Arguments Raise {A} e.

(** ** Data model: the JSON objects of the API, with optional keys *)

Record Settings := {
  subject_line : option string;
  preview_text : option string }.

(** [segment_opts] is a JSON object, kept here as the list of its keys: a
    [dict] is truthy exactly when it has a key. *)
Record Recipients := {
  list_id : option string;
  segment_opts : option (list string) }.

Record Campaign := {
  c_id : option string;
  c_settings : option Settings;
  c_send_time : option string;
  c_recipients : option Recipients }.

Record Opens := { unique_opens : option pynum; open_rate : option pynum }.
Record Clicks := { unique_clicks : option pynum; click_rate : option pynum }.
Record Bounces := { hard_bounces : option pynum; soft_bounces : option pynum }.

Record Report := {
  emails_sent : option pynum;
  opens : option Opens;
  clicks : option Clicks;
  bounces : option Bounces;
  unsubscribed : option pynum }.

(** Body of [GET /campaigns]: the key ['campaigns'] may be absent. *)
Record CampaignsPage := { campaigns_key : option (list Campaign) }.

(** Body of [GET /lists/{id}]: the key ['name'] may be absent. *)
Record ListInfo := { name_key : option string }.

(** ** The network *)

(** A response: its status code and what [response.json()] gives ([None]
    when decoding raises). *)
Record Response (A : Type) := {
  status_code : Z;
  json : option A }.
Arguments status_code {A} r.
Arguments json {A} r.

Inductive Request :=
| ReqCampaigns (offset count : nat)
| ReqReport (campaign_id : string)
| ReqList (lid : string).

(** The remote API.  The first argument of each endpoint is the number of
    requests the run has issued before this one, so an answer may depend on
    the whole history of the (deterministic) run.  [Raise e] is an exception
    raised by the [get] call itself. *)
Record Net := {
  campaigns_endpoint : nat -> nat -> nat -> result (Response CampaignsPage);
  reports_endpoint : nat -> string -> result (Response Report);
  lists_endpoint : nat -> string -> result (Response ListInfo) }.

(** ** Observable actions and the world *)

Inductive Event :=
| EvGet (r : Request) (timeout : option Z)
| EvSleep (seconds : Q)
| EvEnter (method : string) (arg : string).

(** The output file as [csv.DictWriter] leaves it: the header line and one
    record per row, each record listing the cells in header order. *)
Record CsvFile := {
  header : list string;
  records : list (list pyval) }.

(** [disk] maps the path of an output file to its contents. *)
Record World := {
  requests : nat;
  log : list Event;
  disk : gmap string CsvFile }.

(** ** The monad: state passing with exceptions *)

Definition M (A : Type) : Type := World -> result A * World.

Definition ret {A} (a : A) : M A := fun w => (Ret a, w).

Definition raise {A} (e : exn) : M A := fun w => (Raise e, w).

Definition bind {A B} (m : M A) (k : A -> M B) : M B :=
  fun w => match m w with
           | (Ret a, w') => k a w'
           | (Raise e, w') => (Raise e, w')
           end.

#[global] Instance M_ret : MRet M := @ret.
#[global] Instance M_bind : MBind M := fun A B k m => bind m k.

(** [try: m except Exception as e: h e] *)
Definition try_except {A} (m : M A) (h : exn -> M A) : M A :=
  fun w => match m w with
           | (Ret a, w') => (Ret a, w')
           | (Raise e, w') => h e w'
           end.

Definition emit (e : Event) : M unit :=
  fun w => (Ret tt, {| requests := requests w; log := log w ++ [e]; disk := disk w |}).

(** [time.sleep(seconds)] *)
Definition sleep (seconds : Q) : M unit := emit (EvSleep seconds).

(** One HTTP GET: logged, counted, answered by the oracle. *)
Definition http_get {A} (r : Request) (timeout : option Z)
    (answer : nat -> result (Response A)) : M (Response A) :=
  fun w => (answer (requests w),
            {| requests := S (requests w);
               log := log w ++ [EvGet r timeout];
               disk := disk w |}).

(** [response.json()] *)
Definition response_json {A} (r : Response A) : M A :=
  match json r with
  | Some a => ret a
  | None => raise JSONDecodeError
  end.

(** Control flow of a [while True:] body. *)
Inductive ctl (S R : Type) :=
| Continue (s : S)
| Break (r : R).
Arguments Continue {S R} s.
Arguments Break {S R} r.

(** [while True: body], run for at most [fuel] iterations; [None] when the
    fuel runs out before the loop is left. *)
Fixpoint while_true {S R} (fuel : nat) (body : S -> M (ctl S R)) (s : S)
    : M (option R) :=
  match fuel with
  | O => ret None
  | Datatypes.S fuel' =>
      c ← body s;
      match c with
      | Continue s' => while_true fuel' body s'
      | Break r => ret (Some r)
      end
  end.

(** Python's [a % b] on integers: floor modulo, [ZeroDivisionError] at 0. *)
Definition py_mod (a b : Z) : M Z :=
  if (b =? 0)%Z then raise ZeroDivisionError else ret (a mod b)%Z.

(** ** Python strings

    A [str] is kept as the bytes of its UTF-8 encoding (a lone surrogate
    encoded like any other code point): every code point is a lead byte
    followed by its continuation bytes, the bytes of the form 10xxxxxx.
    The characters the scripts search for and put in are ASCII, which
    UTF-8 encodes as themselves and uses in no other code point, so a
    search or replacement on characters is one on bytes; [len] and the
    slices count code points. *)

Definition is_continuation (c : ascii) : bool :=
  match c with
  | Ascii _ _ _ _ _ _ b6 b7 => b7 && negb b6
  end.

(** [len(s)]: the number of code points. *)
Fixpoint py_len (s : string) : nat :=
  match s with
  | EmptyString => 0
  | String c r => if is_continuation c then py_len r else S (py_len r)
  end.

(** [s[:n]]: the first [n] code points. *)
Fixpoint py_prefix (n : nat) (s : string) : string :=
  match s with
  | EmptyString => EmptyString
  | String c r =>
      if is_continuation c then String c (py_prefix n r)
      else match n with
           | O => EmptyString
           | S n' => String c (py_prefix n' r)
           end
  end.

(** Truthiness of a [str]. *)
Definition truthy_str (s : string) : bool :=
  match s with
  | EmptyString => false
  | String _ _ => true
  end.

(** ** What the scripts take from the Python runtime and the file system *)

Class Platform := {
  datetime : Type;
  (** [datetime.strptime(s, '%Y-%m-%dT%H:%M:%S%z')]; [None] when it raises *)
  strptime : string -> option datetime;
  (** [dt.strftime(format)] *)
  strftime : datetime -> string -> string;
  (** [dir / filename] on [pathlib.Path] *)
  path_join : string -> string -> string;
  (** [path.exists()] for the newsletters directory and the files looked
      up in it, as they are during the run; the file a generator writes is
      taken not to be one of them, which is a hypothesis of the theorems
      that compare two runs *)
  path_exists : string -> bool;
  (** [str(path.absolute())] *)
  path_absolute : string -> string;
  (** [x * 100] on a [float] *)
  float_times_100 : Z -> Z;
  (** [f"{x:.2f}"] *)
  format_2f : pynum -> string;
  (** [f"{0:.2f}" == "0.00"] *)
  format_2f_zero : format_2f (PInt 0) = "0.00" }.

(** [x * 100]: exact on [int], a binary64 multiplication on [float]. *)
Definition times_100 `{Platform} (x : pynum) : pynum :=
  match x with
  | PInt z => PInt (z * 100)
  | PFloat b => PFloat (float_times_100 b)
  end.

(** ** Filename sanitization (the three scripts carry the same method) *)

(** The character class of the pattern handed to [re.sub], by code point:
    less-than, greater-than, colon, double quote, slash, backslash, bar,
    question mark and star. *)
Definition illegal_chars : list ascii :=
  map ascii_of_nat [60; 62; 58; 34; 47; 92; 124; 63; 42].

Definition is_illegal (c : ascii) : bool :=
  existsb (Ascii.eqb c) illegal_chars.

(** [re.sub(pattern, '', s)]: every character of the class is dropped. *)
Fixpoint re_sub_illegal (s : string) : string :=
  match s with
  | EmptyString => EmptyString
  | String c r =>
      if is_illegal c then re_sub_illegal r else String c (re_sub_illegal r)
  end.

(** [s.replace(' ', '_')] *)
Fixpoint replace_space (s : string) : string :=
  match s with
  | EmptyString => EmptyString
  | String c r =>
      String (if Ascii.eqb c " " then "_"%char else c) (replace_space r)
  end.

(** ** Pieces shared by the embeddings of the two CSV generators *)

(** A row dictionary, in the order of the dict literal. *)
Definition Row : Type := list (string * pyval).

(** [row.get(key)] *)
Fixpoint row_get (key : string) (row : Row) : option pyval :=
  match row with
  | [] => None
  | (k, v) :: rest => if String.eqb k key then Some v else row_get key rest
  end.

(** [csv.DictWriter.writerow]: the cells of the row in the order of
    [fieldnames], the empty string for a missing key. *)
Definition writerow (fieldnames : list string) (row : Row) : list pyval :=
  map (fun key => default (VStr "") (row_get key row)) fieldnames.

(** [open(path, 'w')] followed by [writeheader] and [writerows]: whatever
    was at [path] is replaced. *)
Definition write_csv (path : string) (fieldnames : list string)
    (csv_data : list Row) : M unit :=
  fun w => (Ret tt,
            {| requests := requests w;
               log := log w;
               disk := <[path := {| header := fieldnames;
                                    records := map (writerow fieldnames) csv_data |}]>
                         (disk w) |}).

(** [for i, campaign in enumerate(campaigns, i): st = body(i, campaign, st)] *)
Fixpoint for_enumerate {S} (body : nat -> Campaign -> S -> M S) (i : nat)
    (campaigns : list Campaign) (st : S) : M S :=
  match campaigns with
  | [] => mret st
  | campaign :: rest =>
      st' ← body i campaign st;
      for_enumerate body (Datatypes.S i) rest st'
  end.

(** The eight metric variables of the loop body of [generate_csv]. *)
Record Metrics := {
  m_emails_sent : pynum;
  m_unique_opens : pynum;
  m_open_rate : pynum;
  m_unique_clicks : pynum;
  m_click_rate : pynum;
  m_hard_bounces : pynum;
  m_soft_bounces : pynum;
  m_unsubscribed : pynum }.

(** The mutable locals of [generate_csv] that live across iterations. *)
Record LoopState := {
  list_cache : gmap string string;
  csv_data : list Row }.

(** The empty dict [{}] used as the default of [dict.get]. *)
Definition no_settings : Settings :=
  {| subject_line := None; preview_text := None |}.
Definition no_recipients : Recipients :=
  {| list_id := None; segment_opts := None |}.
Definition no_opens : Opens := {| unique_opens := None; open_rate := None |}.
Definition no_clicks : Clicks := {| unique_clicks := None; click_rate := None |}.
Definition no_bounces : Bounces := {| hard_bounces := None; soft_bounces := None |}.

Module Downloader.

Definition sanitize_filename (filename : string) : string :=
  let filename := re_sub_illegal filename in
  let filename := replace_space filename in
  if (200 <? py_len filename)%nat then py_prefix 200 filename
  else filename.

(** *** What the downloader reads *)

(** A campaign as this script reads it: the keys of [Campaign], and the
    key ['title'] of its ['settings'] object. *)
Record Newsletter := {
  as_campaign : Campaign;
  settings_title : option string }.

(** Body of [GET /campaigns]: the key ['campaigns'] may be absent. *)
Record Listing := { listed : option (list Newsletter) }.

(** Body of [GET /campaigns/{id}/content]: the key ['html'] and the names
    of the other keys. *)
Record Content := {
  html : option string;
  other_content_keys : list string }.

(** Body of [GET /reports/{id}]: the keys the script reads and the names
    of the other keys. *)
Record ReportBody := {
  metrics_of : Report;
  other_report_keys : list string }.

Definition present {A} (o : option A) : bool :=
  match o with Some _ => true | None => false end.

Definition has_keys (keys : list string) : bool :=
  match keys with [] => false | _ :: _ => true end.

(** Truthiness of what [get_campaign_content] returns: [None] and the
    empty [dict] are false. *)
Definition truthy_content (content : option Content) : bool :=
  match content with
  | None => false
  | Some c => present (html c) || has_keys (other_content_keys c)
  end.

(** Truthiness of what [get_campaign_report] returns. *)
Definition truthy_report (report : option ReportBody) : bool :=
  match report with
  | None => false
  | Some r =>
      let m := metrics_of r in
      present (emails_sent m) || present (opens m) || present (clicks m)
      || present (bounces m) || present (unsubscribed m)
      || has_keys (other_report_keys r)
  end.

(** *** The network, the file system and the runtime of the downloader *)

Inductive Call :=
| GetCampaigns (offset count : nat)
| GetContent (campaign_id : string)
| GetReport (campaign_id : string).

(** The remote API, indexed like [Net] by the number of requests issued
    before the one answered. *)
Record Api := {
  list_campaigns : nat -> nat -> nat -> result (Response Listing);
  campaign_content : nat -> string -> result (Response Content);
  campaign_report : nat -> string -> result (Response ReportBody) }.

(** What the script takes from its libraries and the operating system.
    The clock and the file system are asked when the run has issued a
    given number of requests. *)
Class Runtime := {
  (** [self.html_converter.handle], configured as in [__init__] *)
  html2text_handle : string -> string;
  (** [f"{x:.1f}"] *)
  format_1f : pynum -> string;
  (** [str(x)] on a number, as an f-string interpolates it *)
  str_num : pynum -> string;
  (** [datetime.now().strftime('%Y-%m-%d')] *)
  today : nat -> string;
  (** whether [Path(dir).mkdir(exist_ok=True)] succeeds *)
  mkdir_succeeds : string -> bool;
  (** whether [open(path, 'w', encoding='utf-8')] and the write succeed *)
  open_succeeds : nat -> string -> bool }.

(** The state of a run: the requests issued, the directories made and the
    text files written, by path. *)
Record Store := {
  requests_made : nat;
  calls : list Call;
  directories : list string;
  files : gmap string string }.

(** An exception of the [requests] library or of the operating system. *)
Inductive failure :=
| RequestFailure (e : exn)
| OSError.

Inductive outcome (A : Type) :=
| Done (a : A)
| Fail (e : failure).
Arguments Done {A} a.
Arguments Fail {A} e.

Definition D (A : Type) : Type := Store -> outcome A * Store.

Definition done {A} (a : A) : D A := fun w => (Done a, w).

Definition fail {A} (e : failure) : D A := fun w => (Fail e, w).

Definition and_then {A B} (m : D A) (k : A -> D B) : D B :=
  fun w => match m w with
           | (Done a, w') => k a w'
           | (Fail e, w') => (Fail e, w')
           end.

#[local] Instance D_ret : MRet D := @done.
#[local] Instance D_bind : MBind D := fun A B k m => and_then m k.

(** [try: m except Exception as e: h e] *)
Definition try_except {A} (m : D A) (h : failure -> D A) : D A :=
  fun w => match m w with
           | (Done a, w') => (Done a, w')
           | (Fail e, w') => h e w'
           end.

(** [requests.get(url, headers=self.headers, ...)] *)
Definition http_get {A} (c : Call) (answer : nat -> result (Response A))
    : D (Response A) :=
  fun w => (match answer (requests_made w) with
            | Ret r => Done r
            | Raise e => Fail (RequestFailure e)
            end,
            {| requests_made := S (requests_made w);
               calls := calls w ++ [c];
               directories := directories w;
               files := files w |}).

(** [response.json()] *)
Definition response_json {A} (r : Response A) : D A :=
  match json r with
  | Some a => mret a
  | None => fail (RequestFailure JSONDecodeError)
  end.

Fixpoint while_true {S R} (fuel : nat) (body : S -> D (ctl S R)) (s : S)
    : D (option R) :=
  match fuel with
  | O => mret None
  | Datatypes.S fuel' =>
      c ← body s;
      match c with
      | Continue s' => while_true fuel' body s'
      | Break r => mret (Some r)
      end
  end.

(** [for i, campaign in enumerate(campaigns, 1): st = body(campaign, st)] *)
Fixpoint for_each {S} (body : Newsletter -> S -> D S)
    (campaigns : list Newsletter) (st : S) : D S :=
  match campaigns with
  | [] => mret st
  | campaign :: rest => st' ← body campaign st; for_each body rest st'
  end.

(** [chr(10)] *)
Definition newline : string := String (ascii_of_nat 10) EmptyString.

Section WithEnvironment.
Context `{Platform} `{Runtime} (api : Api).

(** [Path(output_dir).mkdir(exist_ok=True)] *)
Definition mkdir (path : string) : D unit :=
  fun w => if mkdir_succeeds path
           then (Done tt, {| requests_made := requests_made w;
                             calls := calls w;
                             directories := directories w ++ [path];
                             files := files w |})
           else (Fail OSError, w).

(** [with open(path, 'w', encoding='utf-8') as f: f.write(text)] *)
Definition write_file (path text : string) : D unit :=
  fun w => if open_succeeds (requests_made w) path
           then (Done tt, {| requests_made := requests_made w;
                             calls := calls w;
                             directories := directories w;
                             files := <[path := text]> (files w) |})
           else (Fail OSError, w).

Definition now_date : D string :=
  fun w => (Done (today (requests_made w)), w).

(** One iteration of the [while True:] of [get_all_campaigns]; the loop
    state is [(campaigns, offset)]. *)
Definition page_body (count : nat) (s : list Newsletter * nat)
    : D (ctl (list Newsletter * nat) (list Newsletter)) :=
  let '(campaigns, offset) := s in
  response ← http_get (GetCampaigns offset count)
               (fun n => list_campaigns api n offset count);
  if negb (status_code response =? 200)%Z then mret (Break campaigns)
  else
    data ← response_json response;
    let batch_campaigns := default [] (listed data) in
    match batch_campaigns with
    | [] => mret (Break campaigns)
    | _ :: _ =>
        let campaigns := campaigns ++ batch_campaigns in
        if (length batch_campaigns <? count)%nat then mret (Break campaigns)
        else mret (Continue (campaigns, offset + count))
    end.

(** [get_all_campaigns], with [count = 1000]; [None] when the fuel runs
    out before the loop is left. *)
Definition get_all_campaigns (fuel : nat) : D (option (list Newsletter)) :=
  while_true fuel (page_body 1000) ([], 0).

(** The text an f-string puts for [campaign_id]: the id, or [None]. *)
Definition id_text (campaign_id : option string) : string :=
  default "None" campaign_id.

Definition get_campaign_content (campaign_id : option string)
    : D (option Content) :=
  response ← http_get (GetContent (id_text campaign_id))
               (fun n => campaign_content api n (id_text campaign_id));
  if (status_code response =? 200)%Z then
    content ← response_json response; mret (Some content)
  else mret None.

Definition get_campaign_report (campaign_id : option string)
    : D (option ReportBody) :=
  response ← http_get (GetReport (id_text campaign_id))
               (fun n => campaign_report api n (id_text campaign_id));
  if (status_code response =? 200)%Z then
    report ← response_json response; mret (Some report)
  else mret None.

Definition html_to_markdown (html_content : string) : string :=
  if truthy_str html_content then html2text_handle html_content
  else EmptyString.

(** [dict.get(key, 'N/A')] inside an f-string. *)
Definition num_or_na (x : option pynum) : string :=
  match x with Some n => str_num n | None => "N/A" end.

(** [f"{d.get(key, 0) * 100:.1f}"] *)
Definition percent_1f (x : option pynum) : string :=
  format_1f (times_100 (default (PInt 0) x)).

(** The list [metrics] of [create_markdown_file]. *)
Definition metrics_lines (report : option ReportBody) : list string :=
  match report with
  | Some r =>
      if truthy_report report then
        let report := metrics_of r in
        let opens := default no_opens (opens report) in
        let clicks := default no_clicks (clicks report) in
        [ "**Emails Sent:** " +:+ num_or_na (emails_sent report);
          "**Opens:** " +:+ num_or_na (unique_opens opens) +:+ " ("
            +:+ percent_1f (open_rate opens) +:+ "%)";
          "**Clicks:** " +:+ num_or_na (unique_clicks clicks) +:+ " ("
            +:+ percent_1f (click_rate clicks) +:+ "%)";
          "**Bounces:** "
            +:+ num_or_na (hard_bounces (default no_bounces (bounces report)));
          "**Unsubscribes:** " +:+ num_or_na (unsubscribed report) ]
      else []
  | None => []
  end.

Definition create_markdown_file (campaign : Newsletter)
    (content : option Content) (report : option ReportBody)
    (output_dir : string) : D string :=
  let campaign_id := default "unknown" (c_id (as_campaign campaign)) in
  let subject :=
    default "No Subject"
      (subject_line
         (default no_settings (c_settings (as_campaign campaign)))) in
  let send_time := default "" (c_send_time (as_campaign campaign)) in
  let '(date_str, formatted_date) :=
    if truthy_str send_time then
      match strptime send_time with
      | Some dt =>
          (strftime dt "%Y-%m-%d", strftime dt "%B %d, %Y at %I:%M %p")
      | None =>
          (if (10 <=? py_len send_time)%nat
           then py_prefix 10 send_time else "unknown",
           send_time)
      end
    else ("unknown", "Unknown") in
  let filename := date_str +:+ "_" +:+ sanitize_filename subject +:+ ".md" in
  let filepath := path_join output_dir filename in
  let html_content :=
    match content with
    | Some c => if truthy_content content then default "" (html c) else ""
    | None => ""
    end in
  let markdown_content := html_to_markdown html_content in
  let metrics := metrics_lines report in
  let list_title :=
    match c_settings (as_campaign campaign) with
    | Some _ => default "N/A" (settings_title campaign)
    | None => "N/A"
    end in
  downloaded_on ← now_date;
  let md_content :=
    "# " +:+ subject +:+ newline
    +:+ newline
    +:+ "---" +:+ newline
    +:+ newline
    +:+ "**Campaign ID:** " +:+ campaign_id +:+ "  " +:+ newline
    +:+ "**Sent:** " +:+ formatted_date +:+ "  " +:+ newline
    +:+ "**List:** " +:+ list_title +:+ newline
    +:+ newline
    +:+ "## Performance Metrics" +:+ newline
    +:+ newline
    +:+ match metrics with
        | [] => "No metrics available"
        | _ :: _ => String.concat newline metrics
        end +:+ newline
    +:+ newline
    +:+ "---" +:+ newline
    +:+ newline
    +:+ "## Content" +:+ newline
    +:+ newline
    +:+ markdown_content +:+ newline
    +:+ newline
    +:+ "---" +:+ newline
    +:+ newline
    +:+ "*Downloaded from Mailchimp on " +:+ downloaded_on +:+ "*" +:+ newline in
  write_file filepath md_content;;
  mret filepath.

(** The body of [for i, campaign in enumerate(campaigns, 1):]; the loop
    state is [(successful, failed)]. *)
Definition download_campaign (output_path : string) (campaign : Newsletter)
    (counts : nat * nat) : D (nat * nat) :=
  let '(successful, failed) := counts in
  let campaign_id := c_id (as_campaign campaign) in
  content ← get_campaign_content campaign_id;
  report ← get_campaign_report campaign_id;
  if truthy_content content then
    try_except
      (create_markdown_file campaign content report output_path;;
       mret (successful + 1, failed))
      (fun e => mret (successful, failed + 1))
  else mret (successful, failed + 1).

(** [download_all_newsletters]: the result is the pair of counters the
    method prints at its end, [Some None] when it returns early for want
    of campaigns, [None] when the listing loop ran out of fuel. *)
Definition download_all_newsletters (fuel : nat) (output_dir : string)
    : D (option (option (nat * nat))) :=
  mkdir output_dir;;
  fetched ← get_all_campaigns fuel;
  match fetched with
  | None => mret None
  | Some campaigns =>
      match campaigns with
      | [] => mret (Some None)
      | _ :: _ =>
          counts ← for_each (download_campaign output_dir) campaigns (0, 0);
          mret (Some (Some counts))
      end
  end.

End WithEnvironment.

End Downloader.

(** ** [mailchimp_csv_generator.py] *)

Module Basic.
Section WithEnvironment.
Context `{Platform} (net : Net).

(** One iteration of the [while True:] of [get_all_campaigns]; the loop
    state is [(campaigns, offset)]. *)
Definition page_body (count : nat) (s : list Campaign * nat)
    : M (ctl (list Campaign * nat) (list Campaign)) :=
  let '(campaigns, offset) := s in
  response ← http_get (ReqCampaigns offset count) None
               (fun n => campaigns_endpoint net n offset count);
  if negb (status_code response =? 200)%Z then mret (Break campaigns)
  else
    data ← response_json response;
    let batch_campaigns := default [] (campaigns_key data) in
    match batch_campaigns with
    | [] => mret (Break campaigns)
    | _ :: _ =>
        let campaigns := campaigns ++ batch_campaigns in
        if (length batch_campaigns <? count)%nat then mret (Break campaigns)
        else mret (Continue (campaigns, offset + count))
    end.

Definition get_all_campaigns_with (count fuel : nat)
    : M (option (list Campaign)) :=
  while_true fuel (page_body count) ([], 0).

(** [count = 1000  # Max per request] *)
Definition get_all_campaigns (fuel : nat) : M (option (list Campaign)) :=
  get_all_campaigns_with 1000 fuel.

Definition get_campaign_report (campaign_id : string) : M (option Report) :=
  response ← http_get (ReqReport campaign_id) None
               (fun n => reports_endpoint net n campaign_id);
  if (status_code response =? 200)%Z then
    report ← response_json response; mret (Some report)
  else mret None.

Definition get_list_name (lid : string) : M string :=
  emit (EvEnter "get_list_name" lid);;
  response ← http_get (ReqList lid) None
               (fun n => lists_endpoint net n lid);
  if (status_code response =? 200)%Z then
    info ← response_json response; mret (default "Unknown" (name_key info))
  else mret "Unknown".

Definition sanitize_filename (filename : string) : string :=
  let filename := re_sub_illegal filename in
  let filename := replace_space filename in
  if (200 <? py_len filename)%nat then py_prefix 200 filename
  else filename.

Definition find_local_file (campaign : Campaign) (newsletters_dir : string)
    : string :=
  let send_time := default "" (c_send_time campaign) in
  let subject :=
    default "No Subject"
      (subject_line (default no_settings (c_settings campaign))) in
  let date_str :=
    if truthy_str send_time then
      match strptime send_time with
      | Some dt => strftime dt "%Y-%m-%d"
      | None =>
          if (10 <=? py_len send_time)%nat then py_prefix 10 send_time
          else "unknown"
      end
    else "unknown" in
  let filename := date_str +:+ "_" +:+ sanitize_filename subject +:+ ".md" in
  let filepath := path_join newsletters_dir filename in
  if path_exists filepath then path_absolute filepath else "File not found".

Definition fieldnames : list string :=
  [ "Campaign ID"; "Subject Line"; "Preheader"; "Audience/List"; "Send Date";
    "Emails Sent"; "Unique Opens"; "Open Rate (%)"; "Unique Clicks";
    "Click Rate (%)"; "Hard Bounces"; "Soft Bounces"; "Unsubscribes";
    "Local File Path" ].

(** The body of [for i, campaign in enumerate(campaigns, 1):]. *)
Definition process_campaign (newsletters_path : option string) (i : nat)
    (campaign : Campaign) (st : LoopState) : M LoopState :=
  let campaign_id := default "N/A" (c_id campaign) in
  let settings := default no_settings (c_settings campaign) in
  let subject := default "No Subject" (subject_line settings) in
  let preheader := default "" (preview_text settings) in
  let send_time := default "" (c_send_time campaign) in
  let formatted_date :=
    if truthy_str send_time then
      match strptime send_time with
      | Some dt => strftime dt "%Y-%m-%d %H:%M:%S"
      | None => send_time
      end
    else "Unknown" in
  let lid := list_id (default no_recipients (c_recipients campaign)) in
  '(audience, cache) ←
    match lid with
    | Some (String a l) =>
        let lid := String a l in
        match list_cache st !! lid with
        | None =>
            name ← get_list_name lid;
            mret (name, <[lid := name]> (list_cache st))
        | Some name => mret (name, list_cache st)
        end
    | _ => mret ("Unknown", list_cache st)
    end;
  let audience :=
    match segment_opts (default no_recipients (c_recipients campaign)) with
    | Some (_ :: _) => audience +:+ " (Segmented)"
    | _ => audience
    end in
  report ← get_campaign_report campaign_id;
  let metrics :=
    match report with
    | Some report =>
        let opens := default no_opens (opens report) in
        let clicks := default no_clicks (clicks report) in
        let bounces := default no_bounces (bounces report) in
        {| m_emails_sent := default (PInt 0) (emails_sent report);
           m_unique_opens := default (PInt 0) (unique_opens opens);
           m_open_rate := times_100 (default (PInt 0) (open_rate opens));
           m_unique_clicks := default (PInt 0) (unique_clicks clicks);
           m_click_rate := times_100 (default (PInt 0) (click_rate clicks));
           m_hard_bounces := default (PInt 0) (hard_bounces bounces);
           m_soft_bounces := default (PInt 0) (soft_bounces bounces);
           m_unsubscribed := default (PInt 0) (unsubscribed report) |}
    | None =>
        {| m_emails_sent := PInt 0; m_unique_opens := PInt 0;
           m_open_rate := PInt 0; m_unique_clicks := PInt 0;
           m_click_rate := PInt 0; m_hard_bounces := PInt 0;
           m_soft_bounces := PInt 0; m_unsubscribed := PInt 0 |}
    end in
  let local_file :=
    match newsletters_path with
    | Some dir => find_local_file campaign dir
    | None => "Directory not found"
    end in
  let row : Row :=
    [ ("Campaign ID", VStr campaign_id);
      ("Subject Line", VStr subject);
      ("Preheader", VStr preheader);
      ("Audience/List", VStr audience);
      ("Send Date", VStr formatted_date);
      ("Emails Sent", VNum (m_emails_sent metrics));
      ("Unique Opens", VNum (m_unique_opens metrics));
      ("Open Rate (%)", VStr (format_2f (m_open_rate metrics)));
      ("Unique Clicks", VNum (m_unique_clicks metrics));
      ("Click Rate (%)", VStr (format_2f (m_click_rate metrics)));
      ("Hard Bounces", VNum (m_hard_bounces metrics));
      ("Soft Bounces", VNum (m_soft_bounces metrics));
      ("Unsubscribes", VNum (m_unsubscribed metrics));
      ("Local File Path", VStr local_file) ] in
  mret {| list_cache := cache; csv_data := csv_data st ++ [row] |}.

(** [generate_csv]: the outer [option] is [None] when the listing loop ran
    out of fuel; the inner one is Python's return value ([None] when there
    is no campaign, the output path otherwise). *)
Definition generate_csv (fuel : nat) (newsletters_dir output_file : string)
    : M (option (option string)) :=
  let newsletters_path :=
    if path_exists newsletters_dir then Some newsletters_dir else None in
  fetched ← get_all_campaigns fuel;
  match fetched with
  | None => mret None
  | Some [] => mret (Some None)
  | Some campaigns =>
      st ← for_enumerate (process_campaign newsletters_path) 1 campaigns
             {| list_cache := ∅; csv_data := [] |};
      write_csv output_file fieldnames (csv_data st);;
      mret (Some (Some output_file))
  end.

End WithEnvironment.
End Basic.

(** ** [mailchimp_csv_generator_robust.py] *)

(** [for attempt in attempts: body(attempt)], where the body either goes on
    to the next attempt or returns; [after] is the code behind the loop. *)
Fixpoint for_range {R} (attempts : list nat) (body : nat -> M (ctl unit R))
    (after : M R) : M R :=
  match attempts with
  | [] => after
  | attempt :: rest =>
      c ← body attempt;
      match c with
      | Continue _ => for_range rest body after
      | Break r => mret r
      end
  end.

Module Robust.
Section WithEnvironment.
Context `{Platform} (net : Net).

(** One iteration of the [while True:] of [get_all_campaigns]; the loop
    state is [(campaigns, offset)]. *)
Definition page_body (count : nat) (s : list Campaign * nat)
    : M (ctl (list Campaign * nat) (list Campaign)) :=
  let '(campaigns, offset) := s in
  try_except
    (response ← http_get (ReqCampaigns offset count) (Some 30%Z)
                  (fun n => campaigns_endpoint net n offset count);
     if negb (status_code response =? 200)%Z then mret (Break campaigns)
     else
       data ← response_json response;
       let batch_campaigns := default [] (campaigns_key data) in
       match batch_campaigns with
       | [] => mret (Break campaigns)
       | _ :: _ =>
           let campaigns := campaigns ++ batch_campaigns in
           if (length batch_campaigns <? count)%nat then mret (Break campaigns)
           else mret (Continue (campaigns, offset + count))
       end)
    (fun e =>
       match e with
       | Timeout => sleep 2;; mret (Continue (campaigns, offset))
       | _ => mret (Break campaigns)
       end).

Definition get_all_campaigns_with (count fuel : nat)
    : M (option (list Campaign)) :=
  while_true fuel (page_body count) ([], 0).

(** [count = 1000  # Max per request] *)
Definition get_all_campaigns (fuel : nat) : M (option (list Campaign)) :=
  get_all_campaigns_with 1000 fuel.

(** The body of [for attempt in range(3):] in [get_campaign_report]. *)
Definition report_attempt (campaign_id : string) (attempt : nat)
    : M (ctl unit (option Report)) :=
  try_except
    (response ← http_get (ReqReport campaign_id) (Some 15%Z)
                  (fun n => reports_endpoint net n campaign_id);
     if (status_code response =? 200)%Z then
       report ← response_json response; mret (Break (Some report))
     else if (status_code response =? 404)%Z then mret (Break None)
     else mret (Break None))
    (fun e =>
       match e with
       | Timeout =>
           if (attempt <? 2)%nat then sleep 2;; mret (Continue tt)
           else mret (Break None)
       | _ => mret (Break None)
       end).

Definition get_campaign_report (campaign_id : string) : M (option Report) :=
  for_range (seq 0 3) (report_attempt campaign_id) (mret None).

(** The body of [for attempt in range(3):] in [get_list_name]. *)
Definition list_attempt (lid : string) (attempt : nat)
    : M (ctl unit string) :=
  try_except
    (response ← http_get (ReqList lid) (Some 15%Z)
                  (fun n => lists_endpoint net n lid);
     if (status_code response =? 200)%Z then
       info ← response_json response;
       mret (Break (default "Unknown" (name_key info)))
     else mret (Break "Unknown"))
    (fun e =>
       match e with
       | Timeout =>
           if (attempt <? 2)%nat then sleep 2;; mret (Continue tt)
           else mret (Break "Unknown")
       | _ => mret (Break "Unknown")
       end).

Definition get_list_name (lid : string) : M string :=
  emit (EvEnter "get_list_name" lid);;
  for_range (seq 0 3) (list_attempt lid) (mret "Unknown").

Definition sanitize_filename (filename : string) : string :=
  let filename := re_sub_illegal filename in
  let filename := replace_space filename in
  if (200 <? py_len filename)%nat then py_prefix 200 filename
  else filename.

Definition find_local_file (campaign : Campaign) (newsletters_dir : string)
    : string :=
  let send_time := default "" (c_send_time campaign) in
  let subject :=
    default "No Subject"
      (subject_line (default no_settings (c_settings campaign))) in
  let date_str :=
    if truthy_str send_time then
      match strptime send_time with
      | Some dt => strftime dt "%Y-%m-%d"
      | None =>
          if (10 <=? py_len send_time)%nat then py_prefix 10 send_time
          else "unknown"
      end
    else "unknown" in
  let filename := date_str +:+ "_" +:+ sanitize_filename subject +:+ ".md" in
  let filepath := path_join newsletters_dir filename in
  if path_exists filepath then path_absolute filepath else "File not found".

Definition save_progress (csv_data : list Row) (output_file : string)
    (fieldnames : list string) : M unit :=
  write_csv output_file fieldnames csv_data.

Definition fieldnames : list string :=
  [ "Campaign ID"; "Subject Line"; "Preheader"; "Audience/List"; "Send Date";
    "Emails Sent"; "Unique Opens"; "Open Rate (%)"; "Unique Clicks";
    "Click Rate (%)"; "Hard Bounces"; "Soft Bounces"; "Unsubscribes";
    "Local File Path" ].

(** The row dictionary built for one campaign, given its audience and its
    report. *)
Definition make_row (newsletters_path : option string) (campaign : Campaign)
    (audience : string) (report : option Report) : Row :=
  let campaign_id := default "N/A" (c_id campaign) in
  let settings := default no_settings (c_settings campaign) in
  let subject := default "No Subject" (subject_line settings) in
  let preheader := default "" (preview_text settings) in
  let send_time := default "" (c_send_time campaign) in
  let formatted_date :=
    if truthy_str send_time then
      match strptime send_time with
      | Some dt => strftime dt "%Y-%m-%d %H:%M:%S"
      | None => send_time
      end
    else "Unknown" in
  let metrics :=
    match report with
    | Some report =>
        let opens := default no_opens (opens report) in
        let clicks := default no_clicks (clicks report) in
        let bounces := default no_bounces (bounces report) in
        {| m_emails_sent := default (PInt 0) (emails_sent report);
           m_unique_opens := default (PInt 0) (unique_opens opens);
           m_open_rate := times_100 (default (PInt 0) (open_rate opens));
           m_unique_clicks := default (PInt 0) (unique_clicks clicks);
           m_click_rate := times_100 (default (PInt 0) (click_rate clicks));
           m_hard_bounces := default (PInt 0) (hard_bounces bounces);
           m_soft_bounces := default (PInt 0) (soft_bounces bounces);
           m_unsubscribed := default (PInt 0) (unsubscribed report) |}
    | None =>
        {| m_emails_sent := PInt 0; m_unique_opens := PInt 0;
           m_open_rate := PInt 0; m_unique_clicks := PInt 0;
           m_click_rate := PInt 0; m_hard_bounces := PInt 0;
           m_soft_bounces := PInt 0; m_unsubscribed := PInt 0 |}
    end in
  let local_file :=
    match newsletters_path with
    | Some dir => find_local_file campaign dir
    | None => "Directory not found"
    end in
  [ ("Campaign ID", VStr campaign_id);
    ("Subject Line", VStr subject);
    ("Preheader", VStr preheader);
    ("Audience/List", VStr audience);
    ("Send Date", VStr formatted_date);
    ("Emails Sent", VNum (m_emails_sent metrics));
    ("Unique Opens", VNum (m_unique_opens metrics));
    ("Open Rate (%)", VStr (format_2f (m_open_rate metrics)));
    ("Unique Clicks", VNum (m_unique_clicks metrics));
    ("Click Rate (%)", VStr (format_2f (m_click_rate metrics)));
    ("Hard Bounces", VNum (m_hard_bounces metrics));
    ("Soft Bounces", VNum (m_soft_bounces metrics));
    ("Unsubscribes", VNum (m_unsubscribed metrics));
    ("Local File Path", VStr local_file) ].

(** The audience lookup of the loop body: the name and the updated cache. *)
Definition resolve_audience (campaign : Campaign)
    (cache : gmap string string) : M (string * gmap string string) :=
  let recipients := default no_recipients (c_recipients campaign) in
  '(audience, cache) ←
    match list_id recipients with
    | Some (String a l) =>
        let lid := String a l in
        match cache !! lid with
        | None =>
            name ← get_list_name lid;
            mret (name, <[lid := name]> cache)
        | Some name => mret (name, cache)
        end
    | _ => mret ("Unknown", cache)
    end;
  match segment_opts recipients with
  | Some (_ :: _) => mret (audience +:+ " (Segmented)", cache)
  | _ => mret (audience, cache)
  end.

(** The body of [for i, campaign in enumerate(campaigns, 1):]. *)
Definition process_campaign (newsletters_path : option string)
    (output_file : string) (save_interval : Z) (i : nat)
    (campaign : Campaign) (st : LoopState) : M LoopState :=
  '(audience, cache) ← resolve_audience campaign (list_cache st);
  report ← get_campaign_report (default "N/A" (c_id campaign));
  let row := make_row newsletters_path campaign audience report in
  let csv_data := csv_data st ++ [row] in
  r ← py_mod (Z.of_nat i) save_interval;
  (if (r =? 0)%Z then save_progress csv_data output_file fieldnames
   else mret tt);;
  r10 ← py_mod (Z.of_nat i) 10;
  (if (r10 =? 0)%Z then sleep (1 # 2) else mret tt);;
  mret {| list_cache := cache; csv_data := csv_data |}.

(** [generate_csv]: the outer [option] is [None] when the listing loop ran
    out of fuel; the inner one is Python's return value ([None] when there
    is no campaign, the output path otherwise). *)
Definition generate_csv (fuel : nat) (newsletters_dir output_file : string)
    (save_interval : Z) : M (option (option string)) :=
  let newsletters_path :=
    if path_exists newsletters_dir then Some newsletters_dir else None in
  fetched ← get_all_campaigns fuel;
  match fetched with
  | None => mret None
  | Some [] => mret (Some None)
  | Some campaigns =>
      st ← for_enumerate
             (process_campaign newsletters_path output_file save_interval)
             1 campaigns {| list_cache := ∅; csv_data := [] |};
      save_progress (csv_data st) output_file fieldnames;;
      mret (Some (Some output_file))
  end.

End WithEnvironment.
End Robust.

(** ** Definitions used to state the properties *)

(** What [str.replace(' ', '_')] does to one character. *)
Definition underscore_for_space (c : ascii) : ascii :=
  if Ascii.eqb c " " then "_"%char else c.

(** The code points of a [str], each as the string of its bytes, after
    the bytes that come before the first lead byte (a well-formed string
    has none). *)
Fixpoint split_code_points (s : string) : string * list string :=
  match s with
  | EmptyString => (EmptyString, [])
  | String c r =>
      let '(before, points) := split_code_points r in
      if is_continuation c then (String c before, points)
      else (EmptyString, String c before :: points)
  end.

Definition code_points (s : string) : list string :=
  snd (split_code_points s).

(** The three bytes of U+65E5 in UTF-8, and a name made of seventy of
    them. *)
Definition u65e5 : string :=
  String (ascii_of_nat 230)
    (String (ascii_of_nat 151) (String (ascii_of_nat 165) EmptyString)).

Definition seventy_u65e5 : string :=
  fold_right String.append EmptyString (repeat u65e5 70).

(** The world after one more request. *)
Definition after_get (r : Request) (timeout : option Z) (w : World) : World :=
  {| requests := S (requests w);
     log := log w ++ [EvGet r timeout];
     disk := disk w |}.

(** The world after a sleep. *)
Definition after_sleep (seconds : Q) (w : World) : World :=
  {| requests := requests w;
     log := log w ++ [EvSleep seconds];
     disk := disk w |}.

(** A successful answer: status 200 and a body that decodes to [a]. *)
Definition ok {A} (a : A) : result (Response A) :=
  Ret {| status_code := 200; json := Some a |}.

(** The page a server holding [db] answers to [offset] and [count]. *)
Definition page_of (db : list Campaign) (offset count : nat) : list Campaign :=
  firstn count (skipn offset db).

(** The campaigns endpoint of [net] holds exactly [db] and always succeeds. *)
Definition serves (net : Net) (db : list Campaign) : Prop :=
  forall n offset count,
    campaigns_endpoint net n offset count =
    ok {| campaigns_key := Some (page_of db offset count) |}.

(** What one iteration of the listing loop decides once the page [page]
    came back with status 200. *)
Definition decide_page (count : nat) (acc : list Campaign) (offset : nat)
    (page : list Campaign) : ctl (list Campaign * nat) (list Campaign) :=
  match page with
  | [] => Break acc
  | _ :: _ =>
      if (length page <? count)%nat then Break (acc ++ page)
      else Continue (acc ++ page, offset + count)
  end.

(** The [n] page requests that start at [offset] and advance by [count]. *)
Definition page_requests (count : nat) (timeout : option Z) (offset n : nat)
    : list Event :=
  map (fun j => EvGet (ReqCampaigns (offset + j * count) count) timeout)
      (seq 0 n).

(** The number of [GET /campaigns] requests in a log. *)
Definition is_page_request (e : Event) : bool :=
  match e with
  | EvGet (ReqCampaigns _ _) _ => true
  | _ => false
  end.

Definition count_page_requests (l : list Event) : nat :=
  length (List.filter is_page_request l).

(** [ceil(k / p)] *)
Definition ceil_div (k p : nat) : nat := (k + p - 1) / p.

(** A server that holds [db], has no report and knows no list. *)
Definition static_net (db : list Campaign) : Net :=
  {| campaigns_endpoint := fun _ offset count =>
       ok {| campaigns_key := Some (page_of db offset count) |};
     reports_endpoint := fun _ _ => Ret {| status_code := 404; json := None |};
     lists_endpoint := fun _ _ => Ret {| status_code := 404; json := None |} |}.

(** A campaign that has only an id. *)
Definition bare_campaign (cid : string) : Campaign :=
  {| c_id := Some cid; c_settings := None; c_send_time := None;
     c_recipients := None |}.

(** The world before a run: nothing requested, logged or written. *)
Definition fresh_world : World := {| requests := 0; log := []; disk := ∅ |}.

(** A thousand campaigns with distinct ids: one full page. *)
Definition thousand_campaigns : list Campaign :=
  map (fun i => bare_campaign ("c" +:+ pretty i)) (seq 0 1000).

(** [res] is the [requests.exceptions.Timeout] exception. *)
Definition timed_out {A} (res : result A) : Prop := res = Raise Timeout.

(** The value [get_campaign_report] draws from the answer that ends its
    attempts: the decoded body of a 200, [None] for anything else. *)
Definition report_of (res : result (Response Report)) : option Report :=
  match res with
  | Ret response =>
      if (status_code response =? 200)%Z then json response else None
  | Raise _ => None
  end.

(** The value [get_list_name] draws from the answer that ends its attempts:
    the name in the body of a 200, ['Unknown'] for anything else. *)
Definition list_name_of (res : result (Response ListInfo)) : string :=
  match res with
  | Ret response =>
      if (status_code response =? 200)%Z then
        match json response with
        | Some info => default "Unknown" (name_key info)
        | None => "Unknown"
        end
      else "Unknown"
  | Raise _ => "Unknown"
  end.

(** The log of [j] timed-out attempts, each followed by a sleep of 2, and of
    the attempt that ends the call. *)
Definition attempts_log (r : Request) (timeout : option Z) (j : nat)
    : list Event :=
  concat (repeat [EvGet r timeout; EvSleep 2] j) ++ [EvGet r timeout].

(** The number of requests in a log. *)
Definition is_request (e : Event) : bool :=
  match e with
  | EvGet _ _ => true
  | _ => false
  end.

Definition count_requests (l : list Event) : nat :=
  length (List.filter is_request l).

(** What a call with retries did when it took the world [w] to the outcome
    [out]: its first [j <= 2] requests timed out and were each followed by a
    sleep of 2; request [j] ended the call, either because it did not time
    out or because it was the third one; the call returned (it did not
    raise) the value of that last answer. *)
Definition bounded_retries {A R} (answer : nat -> result (Response A))
    (value : result (Response A) -> R) (r : Request) (w : World)
    (out : result R * World) : Prop :=
  exists j,
    j <= 2 /\
    (forall i, i < j -> timed_out (answer (requests w + i))) /\
    (j < 2 -> ~ timed_out (answer (requests w + j))) /\
    fst out = Ret (value (answer (requests w + j))) /\
    requests (snd out) = requests w + j + 1 /\
    log (snd out) = log w ++ attempts_log r (Some 15%Z) j /\
    disk (snd out) = disk w.

(** The world after the entry of a method was logged. *)
Definition after_enter (method arg : string) (w : World) : World :=
  {| requests := requests w;
     log := log w ++ [EvEnter method arg];
     disk := disk w |}.

(** A request that completed with a status other than 200. *)
Definition bad_status {A} (res : result (Response A)) : Prop :=
  exists response, res = Ret response /\ status_code response <> 200%Z.

(** A request that raised an exception other than a timeout. *)
Definition other_exception {A} (res : result A) : Prop :=
  exists e, res = Raise e /\ e <> Timeout.

(** The world after [n] timed-out requests for [r], each followed by a
    sleep of 2. *)
Definition after_timeouts (r : Request) (timeout : option Z) (n : nat)
    (w : World) : World :=
  {| requests := requests w + n;
     log := log w ++ concat (repeat [EvGet r timeout; EvSleep 2] n);
     disk := disk w |}.

(** A server that holds [db], except that [script] fixes the answer to the
    listing requests it is defined on (by request number). *)
Definition scripted_net (db : list Campaign)
    (script : nat -> option (result (Response CampaignsPage))) : Net :=
  {| campaigns_endpoint := fun n offset count =>
       match script n with
       | Some res => res
       | None => ok {| campaigns_key := Some (page_of db offset count) |}
       end;
     reports_endpoint := fun _ _ => Ret {| status_code := 404; json := None |};
     lists_endpoint := fun _ _ => Ret {| status_code := 404; json := None |} |}.

(** The first two listing requests time out. *)
Definition two_timeouts (n : nat) : option (result (Response CampaignsPage)) :=
  if (n <? 2)%nat then Some (Raise Timeout) else None.

(** The second listing request meets a server error. *)
Definition second_is_500 (n : nat) : option (result (Response CampaignsPage)) :=
  if (n =? 1)%nat then Some (Ret {| status_code := 500; json := None |}) else None.

(** The second listing request loses its connection. *)
Definition second_is_dropped (n : nat) : option (result (Response CampaignsPage)) :=
  if (n =? 1)%nat then Some (Raise ConnectionError) else None.

(** The file [csv.DictWriter] writes for [rows]. *)
Definition csv_file_of (fieldnames : list string) (rows : list Row) : CsvFile :=
  {| header := fieldnames; records := map (writerow fieldnames) rows |}.

(** The disk after iteration [i] of the robust loop, whose rows so far are
    [rows]: rewritten at a multiple of the interval, untouched otherwise. *)
Definition checkpoint (output_file : string) (save_interval : Z) (i : nat)
    (rows : list Row) (d : gmap string CsvFile) : gmap string CsvFile :=
  if (Z.of_nat i mod save_interval =? 0)%Z
  then <[output_file := csv_file_of Robust.fieldnames rows]> d
  else d.

(** The pause of the robust loop after every tenth campaign. *)
Definition pacing (i : nat) : list Event :=
  if (Z.of_nat i mod 10 =? 0)%Z then [EvSleep (1 # 2)] else [].

(** The number of entries of [method] with argument [arg] in a log. *)
Definition is_enter (method arg : string) (e : Event) : bool :=
  match e with
  | EvEnter m a => String.eqb m method && String.eqb a arg
  | _ => false
  end.

Definition count_enters (method arg : string) (l : list Event) : nat :=
  length (List.filter (is_enter method arg) l).

(** [campaign.get('id', 'N/A')] *)
Definition campaign_id_of (campaign : Campaign) : string :=
  default "N/A" (c_id campaign).

(** The [Campaign ID] cell of a row. *)
Definition row_campaign_id (row : Row) : option pyval :=
  row_get "Campaign ID" row.

(** [Path(newsletters_dir)] when it exists, [None] otherwise. *)
Definition newsletters_path_of `{Platform} (newsletters_dir : string)
    : option string :=
  if path_exists newsletters_dir then Some newsletters_dir else None.

(** The locals of [generate_csv] before the first iteration. *)
Definition initial_state : LoopState := {| list_cache := ∅; csv_data := [] |}.

(** A platform to run examples on: no send time parses, only the directory
    [mailchimp_newsletters] exists, and only the integer 0 is ever
    formatted. *)
Definition test_platform : Platform := {|
  datetime := unit;
  strptime := fun _ => None;
  strftime := fun _ _ => "";
  path_join := fun dir name => dir +:+ "/" +:+ name;
  path_exists := fun path => String.eqb path "mailchimp_newsletters";
  path_absolute := fun path => "/home/user/" +:+ path;
  float_times_100 := fun bits => bits;
  format_2f := fun x => match x with PInt 0 => "0.00" | _ => "?" end;
  format_2f_zero := eq_refl |}.

(** Three campaigns with distinct ids. *)
Definition three_campaigns : list Campaign :=
  [bare_campaign "c1"; bare_campaign "c2"; bare_campaign "c3"].

(** The eight metric cells of a written record (columns 6 to 13). *)
Definition metric_cells (record : list pyval) : list pyval :=
  firstn 8 (skipn 5 record).

(** What the metric cells hold when there is no report: the integer 0 in
    the six count columns, the text [0.00] in the two rate columns. *)
Definition zero_metric_cells : list pyval :=
  [ VNum (PInt 0); VNum (PInt 0); VStr "0.00"; VNum (PInt 0); VStr "0.00";
    VNum (PInt 0); VNum (PInt 0); VNum (PInt 0) ].

(** The [Campaign ID] cell of a written record: its first cell. *)
Definition record_campaign_id (record : list pyval) : option pyval :=
  head record.

(** The [Campaign ID] column of a file. *)
Definition campaign_id_column (file : CsvFile) : list (option pyval) :=
  map record_campaign_id (records file).

(** A server on which a campaign is sent between the first and the second
    page request: the first page is [thousand_campaigns]; the list then has
    a new first element, so offset 1000 answers the campaign that closed the
    first page. *)
Definition drifting_net : Net :=
  {| campaigns_endpoint := fun n offset count =>
       if (n =? 0)%nat
       then ok {| campaigns_key := Some (page_of thousand_campaigns offset count) |}
       else ok {| campaigns_key :=
                    Some (page_of (bare_campaign "new" :: thousand_campaigns)
                            offset count) |};
     reports_endpoint := fun _ _ => Ret {| status_code := 404; json := None |};
     lists_endpoint := fun _ _ => Ret {| status_code := 404; json := None |} |}.

(** The number of events of a log that satisfy [p]. *)
Definition tally (p : Event -> bool) (l : list Event) : nat :=
  length (List.filter p l).

(** A request to [GET /lists/{lid}]. *)
Definition is_list_request (lid : string) (e : Event) : bool :=
  match e with
  | EvGet (ReqList l) _ => String.eqb l lid
  | _ => false
  end.

(** What a list id may have cost so far: [k] once it is in the cache. *)
Definition cache_weight (k : nat) (cache : gmap string string) (lid : string)
    : nat :=
  match cache !! lid with
  | Some _ => k
  | None => 0
  end.

(** Every request the server may get is answered with status 200 and a body
    that decodes: no timeout, no other exception, no HTTP error. *)
Definition all_ok (net : Net) : Prop :=
  (forall n offset count, exists page,
     campaigns_endpoint net n offset count = ok page) /\
  (forall n campaign_id, exists report,
     reports_endpoint net n campaign_id = ok report) /\
  (forall n lid, exists info, lists_endpoint net n lid = ok info).

(** Two worlds that issued as many requests and hold the same files, the
    file at [path] apart. *)
Definition agree_off (path : string) (w1 w2 : World) : Prop :=
  requests w1 = requests w2 /\
  delete path (disk w1) = delete path (disk w2).

(** A campaign sent to the list [lid]. *)
Definition listed_campaign (cid lid : string) : Campaign :=
  {| c_id := Some cid;
     c_settings := Some {| subject_line := Some "Hello"; preview_text := None |};
     c_send_time := Some "2024-01-05T10:00:00+0000";
     c_recipients := Some {| list_id := Some lid; segment_opts := None |} |}.

(** A server that holds [db] and answers every report and list request. *)
Definition complete_net (db : list Campaign) : Net :=
  {| campaigns_endpoint := fun _ offset count =>
       ok {| campaigns_key := Some (page_of db offset count) |};
     reports_endpoint := fun _ _ =>
       ok {| emails_sent := Some (PInt 100);
             opens := Some {| unique_opens := Some (PInt 50); open_rate := None |};
             clicks := None; bounces := None; unsubscribed := None |};
     lists_endpoint := fun _ _ => ok {| name_key := Some "Subscribers" |} |}.

(** Two campaigns sent to the same list. *)
Definition two_listed_campaigns : list Campaign :=
  [listed_campaign "c1" "L1"; listed_campaign "c2" "L1"].

(** ** Definitions used by the further properties *)

(** A report object without any of the metric keys (the empty dict among
    them). *)
Definition empty_report : Report :=
  {| emails_sent := None; opens := None; clicks := None; bounces := None;
     unsubscribed := None |}.

(** The keys of a row dictionary, in order. *)
Definition row_keys (row : Row) : list string := map fst row.

(** A name [sanitize_filename] has nothing to do on: none of the nine
    characters, no space, at most 200 code points. *)
Definition safe_filename (s : string) : Prop :=
  (forall c, In c (list_ascii_of_string s) ->
             is_illegal c = false /\ c <> " "%char) /\
  py_len s <= 200.

(** ** [__init__] and the key check of [main] (the same in the three
    scripts) *)

(** [s.split(sep)] for a one-character separator: the pieces between the
    separators, never an empty list. *)
Fixpoint split_on (sep : ascii) (s : string) : list string :=
  match s with
  | EmptyString => [EmptyString]
  | String c r =>
      if Ascii.eqb c sep then EmptyString :: split_on sep r
      else match split_on sep r with
           | piece :: pieces => String c piece :: pieces
           | [] => [String c EmptyString]
           end
  end.

(** [sep.join(pieces)] *)
Fixpoint join_with (sep : string) (pieces : list string) : string :=
  match pieces with
  | [] => EmptyString
  | [piece] => piece
  | piece :: rest => piece +:+ sep +:+ join_with sep rest
  end.

(** [c in s] for a character [c] *)
Definition contains_char (c : ascii) (s : string) : bool :=
  existsb (Ascii.eqb c) (list_ascii_of_string s).

(** The attributes [__init__] sets. *)
Record Client := {
  api_key : string;
  server_prefix : string;
  base_url : string;
  headers : list (string * string) }.

(** [__init__(self, api_key)]; the robust class also mounts its retrying
    session here, which is part of the request oracle in this development. *)
Definition init (key : string) : Client :=
  let prefix := List.last (split_on "-" key) EmptyString in
  {| api_key := key;
     server_prefix := prefix;
     base_url := "https://" +:+ prefix +:+ ".api.mailchimp.com/3.0";
     headers := [ ("Authorization", "Bearer " +:+ key);
                  ("Content-Type", "application/json") ] |}.

(** The test of [main]: [not api_key or '-' not in api_key]. *)
Definition key_rejected (key : string) : bool :=
  negb (truthy_str key) || negb (contains_char "-" key).

(** [status_forcelist] of the [Retry] that [__init__] of the robust
    generator mounts on its session: a response with one of these statuses
    is retried inside [session.get], which ends by raising, and is never
    returned by it. *)
Definition status_forcelist : list Z := [429; 500; 502; 503; 504]%Z.

(** An answer that [requests.get] and the robust [session.get] both return:
    no exception, a response whose status is not one the session retries,
    and whose body decodes when the status is 200 (the other HTTP error
    statuses are allowed). *)
Definition answered {A} (res : result (Response A)) : Prop :=
  exists response,
    res = Ret response /\
    ~ In (status_code response) status_forcelist /\
    (status_code response = 200%Z -> json response <> None).

Definition never_raises (net : Net) : Prop :=
  (forall n offset count, answered (campaigns_endpoint net n offset count)) /\
  (forall n campaign_id, answered (reports_endpoint net n campaign_id)) /\
  (forall n lid, answered (lists_endpoint net n lid)).

(** A server that holds [db], refuses every report request (403) and knows
    no list (404). *)
Definition failing_details_net (db : list Campaign) : Net :=
  {| campaigns_endpoint := fun _ offset count =>
       ok {| campaigns_key := Some (page_of db offset count) |};
     reports_endpoint := fun _ _ => Ret {| status_code := 403; json := None |};
     lists_endpoint := fun _ _ => Ret {| status_code := 404; json := None |} |}.

(** The list id of a campaign when it is truthy ([if list_id:]). *)
Definition campaign_list_id (campaign : Campaign) : option string :=
  match list_id (default no_recipients (c_recipients campaign)) with
  | Some (String a l) => Some (String a l)
  | _ => None
  end.

(** [if segment_opts:] *)
Definition segmented (campaign : Campaign) : bool :=
  match segment_opts (default no_recipients (c_recipients campaign)) with
  | Some (_ :: _) => true
  | _ => false
  end.

(** The audience cell of a campaign whose list is called [name]. *)
Definition audience_label (name : string) (campaign : Campaign) : string :=
  if segmented campaign then name +:+ " (Segmented)" else name.

(** The list name a cache gives to a campaign: the cached name of its list,
    ['Unknown'] for a campaign without list id. *)
Definition cached_name (cache : gmap string string) (campaign : Campaign)
    (name : string) : Prop :=
  match campaign_list_id campaign with
  | Some lid => cache !! lid = Some name
  | None => name = "Unknown"
  end.

(** The [Audience/List] cell of a row. *)
Definition row_audience (row : Row) : option pyval :=
  row_get "Audience/List" row.

(** A server whose lists change their name at every request. *)
Definition renaming_net (db : list Campaign) : Net :=
  {| campaigns_endpoint := fun _ offset count =>
       ok {| campaigns_key := Some (page_of db offset count) |};
     reports_endpoint := fun _ _ => Ret {| status_code := 404; json := None |};
     lists_endpoint := fun n _ => ok {| name_key := Some ("List " +:+ pretty n) |} |}.

(** The pause of the loop: a sleep of half a second (the retries sleep 2). *)
Definition is_pacing (e : Event) : bool :=
  match e with
  | EvSleep seconds => Qeq_bool seconds (1 # 2)
  | _ => false
  end.

(** *** The downloader *)

(** The file name that [create_markdown_file] and [find_local_file] build
    for a campaign. *)
Definition markdown_name `{Platform} (campaign : Campaign) : string :=
  let send_time := default "" (c_send_time campaign) in
  let subject :=
    default "No Subject"
      (subject_line (default no_settings (c_settings campaign))) in
  let date_str :=
    if truthy_str send_time then
      match strptime send_time with
      | Some dt => strftime dt "%Y-%m-%d"
      | None =>
          if (10 <=? py_len send_time)%nat then py_prefix 10 send_time
          else "unknown"
      end
    else "unknown" in
  date_str +:+ "_" +:+ Downloader.sanitize_filename subject +:+ ".md".

(** The platform of a generator that is started on the files and
    directories a run of the downloader has left: a path exists when the
    run made it. *)
Definition browsing (P : Platform) (w : Downloader.Store) : Platform :=
  {| datetime := @datetime P;
     strptime := @strptime P;
     strftime := @strftime P;
     path_join := @path_join P;
     path_exists := fun path =>
       bool_decide (is_Some (Downloader.files w !! path))
       || bool_decide (path ∈ Downloader.directories w);
     path_absolute := @path_absolute P;
     float_times_100 := @float_times_100 P;
     format_2f := @format_2f P;
     format_2f_zero := @format_2f_zero P |}.

(** Both generators find the file of [campaign] under [dir], at a path the
    run that led to [w] has written. *)
Definition found_after `{P : Platform} (w : Downloader.Store)
    (dir : string) (campaign : Campaign) : Prop :=
  exists path,
    is_Some (Downloader.files w !! path) /\
    @Robust.find_local_file (browsing P w) campaign dir = path_absolute path /\
    @Basic.find_local_file (browsing P w) campaign dir = path_absolute path.

(** The store after one more request. *)
Definition called (w : Downloader.Store) (c : Downloader.Call)
    : Downloader.Store :=
  {| Downloader.requests_made := S (Downloader.requests_made w);
     Downloader.calls := Downloader.calls w ++ [c];
     Downloader.directories := Downloader.directories w;
     Downloader.files := Downloader.files w |}.

(** The store after [mkdir] of [dir]. *)
Definition made (w : Downloader.Store) (dir : string) : Downloader.Store :=
  {| Downloader.requests_made := Downloader.requests_made w;
     Downloader.calls := Downloader.calls w;
     Downloader.directories := Downloader.directories w ++ [dir];
     Downloader.files := Downloader.files w |}.

(** The path under which [campaign] is saved in [dir]. *)
Definition saved_path `{Platform} (dir : string)
    (campaign : Downloader.Newsletter) : string :=
  path_join dir (markdown_name (Downloader.as_campaign campaign)).

(** From [w] to [w'] no directory is made, no file is removed, and the
    files that differ are those of [campaigns] under [dir]. *)
Definition saved_under `{Platform} (dir : string)
    (campaigns : list Downloader.Newsletter) (w w' : Downloader.Store)
    : Prop :=
  Downloader.directories w' = Downloader.directories w /\
  (forall path, is_Some (Downloader.files w !! path) ->
                is_Some (Downloader.files w' !! path)) /\
  (forall path, Downloader.files w' !! path <> Downloader.files w !! path ->
                exists campaign,
                  In campaign campaigns /\ path = saved_path dir campaign).

(** The store before a run of the downloader. *)
Definition empty_store : Downloader.Store :=
  {| Downloader.requests_made := 0;
     Downloader.calls := [];
     Downloader.directories := [];
     Downloader.files := ∅ |}.

(** A runtime on which every directory can be made and every file
    written. *)
Definition test_runtime : Downloader.Runtime :=
  {| Downloader.html2text_handle := fun html => html;
     Downloader.format_1f := fun _ => "0.0";
     Downloader.str_num := fun _ => "0";
     Downloader.today := fun _ => "2024-06-01";
     Downloader.mkdir_succeeds := fun _ => true;
     Downloader.open_succeeds := fun _ _ => true |}.

(** A newsletter sent on the first of May 2024. *)
Definition issue (cid subject : string) : Downloader.Newsletter :=
  {| Downloader.as_campaign :=
       {| c_id := Some cid;
          c_settings := Some {| subject_line := Some subject;
                                preview_text := None |};
          c_send_time := Some "2024-05-01T10:00:00+00:00";
          c_recipients := None |};
     Downloader.settings_title := None |}.

(** A server that holds the newsletters [db], has content for each of
    them and no report. *)
Definition archive_api (db : list Downloader.Newsletter) : Downloader.Api :=
  {| Downloader.list_campaigns := fun _ offset count =>
       ok {| Downloader.listed := Some (firstn count (skipn offset db)) |};
     Downloader.campaign_content := fun _ _ =>
       ok {| Downloader.html := Some "<p>Hello</p>";
             Downloader.other_content_keys := [] |};
     Downloader.campaign_report := fun _ _ =>
       Ret {| status_code := 404; json := None |} |}.

(** A newsletter whose send time is no date. *)
Definition odd_issue : Downloader.Newsletter :=
  {| Downloader.as_campaign :=
       {| c_id := Some "c9";
          c_settings := Some {| subject_line := Some "Spring news";
                                preview_text := None |};
          c_send_time := Some "../escape/";
          c_recipients := None |};
     Downloader.settings_title := None |}.

(** Two newsletters with different subjects, and two that share theirs. *)
Definition two_issues : list Downloader.Newsletter :=
  [issue "c1" "Spring news"; issue "c2" "Summer news"].
Definition resent_issue : list Downloader.Newsletter :=
  [issue "c1" "Weekly update"; issue "c2" "Weekly update"].

(** *** One account, seen by the downloader and by a generator *)

(** What a generator reads of a listing the downloader reads. *)
Definition page_view (data : Downloader.Listing) : CampaignsPage :=
  {| campaigns_key :=
       option_map (map Downloader.as_campaign) (Downloader.listed data) |}.

Definition response_view (r : Response Downloader.Listing)
    : Response CampaignsPage :=
  {| status_code := status_code r; json := option_map page_view (json r) |}.

Definition answer_view (res : result (Response Downloader.Listing))
    : result (Response CampaignsPage) :=
  match res with
  | Ret r => Ret (response_view r)
  | Raise e => Raise e
  end.

(** [net] and [api] give the same answer to every listing request. *)
Definition same_catalogue (net : Net) (api : Downloader.Api) : Prop :=
  forall n offset count,
    campaigns_endpoint net n offset count =
    answer_view (Downloader.list_campaigns api n offset count).

(** The two listings end alike: with the same campaigns, or with the same
    exception. *)
Definition same_listing (b : result (option (list Campaign)))
    (d : Downloader.outcome (option (list Downloader.Newsletter))) : Prop :=
  match b, d with
  | Ret campaigns, Downloader.Done newsletters =>
      campaigns = option_map (map Downloader.as_campaign) newsletters
  | Raise e, Downloader.Fail e' => e' = Downloader.RequestFailure e
  | _, _ => False
  end.

(** The listing requests for the pages [(offset, count)], as each script
    records them. *)
Definition generator_requests (pages : list (nat * nat)) : list Event :=
  map (fun page => EvGet (ReqCampaigns (fst page) (snd page)) None) pages.
Definition downloader_requests (pages : list (nat * nat))
    : list Downloader.Call :=
  map (fun page => Downloader.GetCampaigns (fst page) (snd page)) pages.

(** The account of [api] as a generator sees it (no report, no list). *)
Definition generator_view (api : Downloader.Api) : Net :=
  {| campaigns_endpoint := fun n offset count =>
       answer_view (Downloader.list_campaigns api n offset count);
     reports_endpoint := fun _ _ => Ret {| status_code := 404; json := None |};
     lists_endpoint := fun _ _ => Ret {| status_code := 404; json := None |} |}.

(** The loop states of the two listings: the same offset, the same
    campaigns so far. *)
Definition ctl_view
    (c : ctl (list Downloader.Newsletter * nat) (list Downloader.Newsletter))
    : ctl (list Campaign * nat) (list Campaign) :=
  match c with
  | Continue (acc, offset) => Continue (map Downloader.as_campaign acc, offset)
  | Break r => Break (map Downloader.as_campaign r)
  end.

(** * Properties *)


(** ** Filename sanitization *)

Section Sanitize.

Lemma re_sub_illegal_chars (s : string) :
  list_ascii_of_string (re_sub_illegal s) =
  List.filter (fun c => negb (is_illegal c)) (list_ascii_of_string s).
Proof.
  induction s as [|c r IH]; simpl; [reflexivity|].
  destruct (is_illegal c); simpl; now rewrite IH.
Qed.

Lemma replace_space_chars (s : string) :
  list_ascii_of_string (replace_space s) =
  map underscore_for_space (list_ascii_of_string s).
Proof.
  induction s as [|c r IH]; simpl; [reflexivity|]. now rewrite IH.
Qed.

Lemma cleaned_chars (s : string) :
  list_ascii_of_string (replace_space (re_sub_illegal s)) =
  map underscore_for_space
    (List.filter (fun c => negb (is_illegal c)) (list_ascii_of_string s)).
Proof. now rewrite replace_space_chars, re_sub_illegal_chars. Qed.

Lemma py_prefix_chars (n : nat) (s : string) (c : ascii) :
  In c (list_ascii_of_string (py_prefix n s)) ->
  In c (list_ascii_of_string s).
Proof.
  revert n. induction s as [|x r IH]; intros n; cbn; [tauto|].
  destruct (is_continuation x).
  - cbn. intros [->|Hin]; [now left | right; now apply (IH n)].
  - destruct n as [|n]; cbn; [tauto|].
    intros [->|Hin]; [now left | right; now apply (IH n)].
Qed.

Lemma py_len_prefix (n : nat) (s : string) : py_len (py_prefix n s) <= n.
Proof.
  revert n. induction s as [|x r IH]; intros n; cbn; [lia|].
  destruct (is_continuation x) eqn:E.
  - cbn. rewrite E. apply IH.
  - destruct n as [|n]; cbn; [lia|]. rewrite E. specialize (IH n). lia.
Qed.

Lemma py_prefix_all (n : nat) (s : string) :
  py_len s <= n -> py_prefix n s = s.
Proof.
  revert n. induction s as [|x r IH]; intros n; cbn; [reflexivity|].
  destruct (is_continuation x).
  - intros Hlen. f_equal. now apply IH.
  - destruct n as [|n]; [lia|]. intros Hlen. f_equal. apply IH. lia.
Qed.

Lemma py_len_code_points (s : string) : py_len s = length (code_points s).
Proof.
  unfold code_points. induction s as [|x r IH]; cbn; [reflexivity|].
  destruct (split_code_points r) as [before points]. cbn in IH.
  destruct (is_continuation x); cbn; congruence.
Qed.

Lemma split_code_points_prefix (n : nat) (s : string) :
  split_code_points (py_prefix n s) =
  (fst (split_code_points s), firstn n (snd (split_code_points s))).
Proof.
  revert n. induction s as [|x r IH]; intros n; cbn.
  - now rewrite firstn_nil.
  - destruct (is_continuation x) eqn:E.
    + cbn. rewrite E, IH. destruct (split_code_points r). reflexivity.
    + destruct n as [|n].
      * destruct (split_code_points r). reflexivity.
      * cbn. rewrite E, IH. destruct (split_code_points r). reflexivity.
Qed.

Lemma code_points_prefix (n : nat) (s : string) :
  code_points (py_prefix n s) = firstn n (code_points s).
Proof. unfold code_points. now rewrite split_code_points_prefix. Qed.

(** The method is a cut of the cleaned name after 200 code points. *)
Lemma sanitize_filename_cut (s : string) :
  Robust.sanitize_filename s = py_prefix 200 (replace_space (re_sub_illegal s)).
Proof.
  unfold Robust.sanitize_filename.
  destruct (200 <? py_len (replace_space (re_sub_illegal s)))%nat eqn:E;
    [reflexivity|].
  apply Nat.ltb_ge in E. symmetry. now apply py_prefix_all.
Qed.

Lemma In_firstn_inv {A} (n : nat) (l : list A) (x : A) :
  In x (firstn n l) -> In x l.
Proof.
  intros Hin. rewrite <- (firstn_skipn n l). apply in_or_app. now left.
Qed.

Lemma underscore_for_space_legal (c : ascii) :
  is_illegal c = false ->
  is_illegal (underscore_for_space c) = false /\
  underscore_for_space c <> " "%char.
Proof.
  intros Hc. unfold underscore_for_space.
  destruct (Ascii.eqb c " ") eqn:E.
  - split; [reflexivity | discriminate].
  - split; [exact Hc | now apply Ascii.eqb_neq].
Qed.

Lemma is_illegal_spec (c : ascii) : is_illegal c = false <-> ~ In c illegal_chars.
Proof.
  unfold is_illegal. split.
  - intros Hf Hin.
    assert (existsb (Ascii.eqb c) illegal_chars = true) as Ht.
    { apply existsb_exists. exists c. split; [exact Hin | apply Ascii.eqb_refl]. }
    congruence.
  - intros Hn. destruct (existsb (Ascii.eqb c) illegal_chars) eqn:E; [|reflexivity].
    apply existsb_exists in E as (x & Hin & Hx).
    apply Ascii.eqb_eq in Hx. subst x. contradiction.
Qed.

End Sanitize.

(** C5. For every input string, [sanitize_filename] (the same method in the
    three scripts) returns a string that holds none of the nine characters
    of the pattern (less-than, greater-than, colon, double quote, slash,
    backslash, bar, question mark, star), holds no space, and has length
    at most 200, the length being Python's: the number of code points.
    Its code points are the first 200 of the input with the nine
    characters dropped and every space turned into an underscore. *)
Theorem sanitize_filename_safe (filename : string) :
  let out := Robust.sanitize_filename filename in
  Basic.sanitize_filename filename = out /\
  Downloader.sanitize_filename filename = out /\
  (forall c, In c (list_ascii_of_string out) ->
             ~ In c illegal_chars /\ c <> " "%char) /\
  py_len out <= 200 /\
  code_points out =
    firstn 200
      (code_points
         (string_of_list_ascii
            (map underscore_for_space
               (List.filter (fun c => negb (is_illegal c))
                  (list_ascii_of_string filename))))).
Proof.
  cbv zeta. split; [reflexivity|]. split; [reflexivity|].
  rewrite sanitize_filename_cut.
  split; [|split].
  - intros c Hin. apply py_prefix_chars in Hin.
    rewrite cleaned_chars in Hin.
    apply in_map_iff in Hin as (c0 & <- & Hin0).
    apply filter_In in Hin0 as [_ Hlegal].
    apply negb_true_iff in Hlegal.
    destruct (underscore_for_space_legal c0 Hlegal) as [H1 H2].
    split; [now apply is_illegal_spec | exact H2].
  - apply py_len_prefix.
  - rewrite code_points_prefix, <- cleaned_chars.
    now rewrite string_of_list_ascii_of_string.
Qed.

(** The bound is in code points, not in bytes: a name of seventy three-byte
    characters (210 bytes) is within it and comes back unchanged. *)
Example sanitize_filename_counts_code_points :
  String.length seventy_u65e5 = 210 /\
  py_len seventy_u65e5 = 70 /\
  Robust.sanitize_filename seventy_u65e5 = seventy_u65e5 /\
  Downloader.sanitize_filename seventy_u65e5 = seventy_u65e5.
Proof. vm_compute. repeat split; reflexivity. Qed.

(** ** Paginated fetch against a server that always succeeds *)

Section Pagination.

Variable db : list Campaign.
Variable count : nat.
Hypothesis count_pos : 0 < count.

Lemma robust_page_answered (net : Net) (acc : list Campaign) (offset : nat)
    (data : CampaignsPage) (w : World) :
  campaigns_endpoint net (requests w) offset count = ok data ->
  Robust.page_body net count (acc, offset) w =
  (Ret (decide_page count acc offset (default [] (campaigns_key data))),
   after_get (ReqCampaigns offset count) (Some 30%Z) w).
Proof.
  intros Hnet. unfold Robust.page_body, try_except, mbind, M_bind, bind, http_get.
  rewrite Hnet. unfold ok, response_json. cbn -[Nat.ltb].
  unfold decide_page.
  destruct (default [] (campaigns_key data)) as [|c page]; [reflexivity|].
  cbn -[Nat.ltb]. destruct (S (length page) <? count)%nat; reflexivity.
Qed.

Lemma basic_page_answered (net : Net) (acc : list Campaign) (offset : nat)
    (data : CampaignsPage) (w : World) :
  campaigns_endpoint net (requests w) offset count = ok data ->
  Basic.page_body net count (acc, offset) w =
  (Ret (decide_page count acc offset (default [] (campaigns_key data))),
   after_get (ReqCampaigns offset count) None w).
Proof.
  intros Hnet. unfold Basic.page_body, mbind, M_bind, bind, http_get.
  rewrite Hnet. unfold ok, response_json. cbn -[Nat.ltb].
  unfold decide_page.
  destruct (default [] (campaigns_key data)) as [|c page]; [reflexivity|].
  cbn -[Nat.ltb]. destruct (S (length page) <? count)%nat; reflexivity.
Qed.

Lemma robust_page_ok (net : Net) (acc : list Campaign) (offset : nat)
    (page : list Campaign) (w : World) :
  campaigns_endpoint net (requests w) offset count =
    ok {| campaigns_key := Some page |} ->
  Robust.page_body net count (acc, offset) w =
  (Ret (decide_page count acc offset page),
   after_get (ReqCampaigns offset count) (Some 30%Z) w).
Proof. intros Hnet. now rewrite (robust_page_answered _ _ _ _ _ Hnet). Qed.

Lemma basic_page_ok (net : Net) (acc : list Campaign) (offset : nat)
    (page : list Campaign) (w : World) :
  campaigns_endpoint net (requests w) offset count =
    ok {| campaigns_key := Some page |} ->
  Basic.page_body net count (acc, offset) w =
  (Ret (decide_page count acc offset page),
   after_get (ReqCampaigns offset count) None w).
Proof. intros Hnet. now rewrite (basic_page_answered _ _ _ _ _ Hnet). Qed.

Variable timeout : option Z.
Variable body : list Campaign * nat -> M (ctl (list Campaign * nat) (list Campaign)).
Hypothesis body_ok : forall acc offset w,
  body (acc, offset) w =
  (Ret (decide_page count acc offset (page_of db offset count)),
   after_get (ReqCampaigns offset count) timeout w).

Lemma page_requests_succ (offset n : nat) :
  page_requests count timeout offset (S n) =
  EvGet (ReqCampaigns offset count) timeout ::
  page_requests count timeout (offset + count) n.
Proof.
  unfold page_requests. simpl. rewrite Nat.add_0_r. f_equal.
  rewrite <- seq_shift, map_map. apply map_ext. intros j. do 2 f_equal. lia.
Qed.

Lemma paginate_from (fuel : nat) : forall (offset : nat) (w : World),
  offset <= length db ->
  (length db - offset) / count < fuel ->
  while_true fuel body (firstn offset db, offset) w =
  (Ret (Some db),
   {| requests := requests w + S ((length db - offset) / count);
      log := log w ++
             page_requests count timeout offset (S ((length db - offset) / count));
      disk := disk w |}).
Proof.
  induction fuel as [|fuel IH]; intros offset w Hle Hfuel; [lia|].
  cbn [while_true]. unfold mbind, M_bind, bind. rewrite body_ok.
  unfold decide_page, page_of.
  assert (Hlen : length (firstn count (skipn offset db)) =
                 Nat.min count (length db - offset)).
  { now rewrite length_firstn, length_skipn. }
  destruct (firstn count (skipn offset db)) as [|c page] eqn:Hpage.
  - (* an empty page: everything was fetched already *)
    simpl in Hlen. assert (offset = length db) as -> by lia.
    rewrite firstn_all, Nat.sub_diag, Nat.Div0.div_0_l.
    rewrite page_requests_succ. unfold after_get. cbn.
    do 2 f_equal. lia.
  - destruct (length (c :: page) <? count)%nat eqn:Hshort.
    + (* a short page: the last one *)
      apply Nat.ltb_lt in Hshort.
      assert (Hsmall : length db - offset < count) by lia.
      rewrite (Nat.div_small _ _ Hsmall).
      rewrite <- Hpage.
      rewrite (firstn_all2 (skipn offset db) (n := count))
        by (rewrite length_skipn; lia).
      rewrite firstn_skipn. rewrite page_requests_succ. unfold after_get. cbn.
      do 2 f_equal. lia.
    + (* a full page: go on at the next offset *)
      apply Nat.ltb_ge in Hshort.
      assert (Hbig : count <= length db - offset) by lia.
      assert (Hdiv : (length db - offset) / count =
                     S ((length db - (offset + count)) / count)).
      { replace (length db - offset) with (length db - (offset + count) + 1 * count) by lia.
        rewrite Nat.div_add by lia. lia. }
      assert (Hacc : firstn offset db ++ c :: page = firstn (offset + count) db).
      { rewrite <- Hpage. rewrite <- (firstn_skipn offset db) at 3.
        rewrite firstn_app, length_firstn, firstn_firstn.
        replace (Nat.min (offset + count) offset) with offset by lia.
        f_equal. f_equal. lia. }
      rewrite Hacc, IH by lia.
      rewrite Hdiv. unfold after_get. cbn [requests log disk].
      rewrite (page_requests_succ offset). f_equal. f_equal; [lia|].
      rewrite <- app_assoc. reflexivity.
Qed.

End Pagination.

Lemma count_page_requests_app (l1 l2 : list Event) :
  count_page_requests (l1 ++ l2) = count_page_requests l1 + count_page_requests l2.
Proof. unfold count_page_requests. now rewrite List.filter_app, length_app. Qed.

Lemma count_page_requests_pages (count : nat) (timeout : option Z) (offset n : nat) :
  count_page_requests (page_requests count timeout offset n) = n.
Proof.
  unfold count_page_requests, page_requests.
  rewrite <- (length_seq n 0) at 2. generalize (seq 0 n) as js.
  induction js as [|j js IH]; simpl; [reflexivity | now rewrite IH].
Qed.

Lemma ceil_div_inexact (k p : nat) :
  0 < p -> k mod p <> 0 -> ceil_div k p = k / p + 1.
Proof.
  intros Hp Hr. unfold ceil_div.
  pose proof (Nat.div_mod_eq k p) as Hk.
  pose proof (Nat.mod_upper_bound k p ltac:(lia)) as Hlt.
  replace (k + p - 1) with ((k mod p - 1) + (k / p + 1) * p) by nia.
  rewrite Nat.div_add by lia. rewrite Nat.div_small by lia. lia.
Qed.

Lemma ceil_div_exact (k p : nat) :
  0 < p -> k mod p = 0 -> ceil_div k p = k / p.
Proof.
  intros Hp Hr. unfold ceil_div.
  pose proof (Nat.div_mod_eq k p) as Hk.
  replace (k + p - 1) with ((p - 1) + (k / p) * p) by nia.
  rewrite Nat.div_add by lia. rewrite Nat.div_small by lia. lia.
Qed.

Lemma page_of_length (db : list Campaign) (offset count : nat) :
  length (page_of db offset count) = Nat.min count (length db - offset).
Proof. unfold page_of. now rewrite length_firstn, length_skipn. Qed.

(** C1, as the code has it.  Against a server that holds the campaigns [db]
    and answers every request, the paginated fetch of both generators with
    page size [p > 0] (1000 in [get_all_campaigns]) returns exactly [db],
    given fuel for its [k / p + 1] iterations, where [k] is the size of
    [db].  It issues [floor(k / p) + 1] page requests, at the offsets
    [0, p, 2p, ...]: every page but the last comes back full, the last one
    holds the remaining [k mod p < p] campaigns (none when [p] divides [k])
    and ends the loop.  That number is [ceil(k / p)] exactly when [p] does
    not divide [k], and [ceil(k / p) + 1] when it does. *)
Theorem get_all_campaigns_pages (net : Net) (db : list Campaign)
    (p fuel : nat) (w : World) :
  0 < p ->
  serves net db ->
  length db / p < fuel ->
  let k := length db in
  let pages := k / p + 1 in
  let robust := Robust.get_all_campaigns_with net p fuel w in
  let basic := Basic.get_all_campaigns_with net p fuel w in
  Robust.get_all_campaigns net = Robust.get_all_campaigns_with net 1000 /\
  Basic.get_all_campaigns net = Basic.get_all_campaigns_with net 1000 /\
  fst robust = Ret (Some db) /\
  fst basic = Ret (Some db) /\
  log (snd robust) = log w ++ page_requests p (Some 30%Z) 0 pages /\
  log (snd basic) = log w ++ page_requests p None 0 pages /\
  count_page_requests (log (snd robust)) = count_page_requests (log w) + pages /\
  count_page_requests (log (snd basic)) = count_page_requests (log w) + pages /\
  (forall j, j < k / p -> length (page_of db (j * p) p) = p) /\
  length (page_of db (k / p * p) p) = k mod p /\
  k mod p < p /\
  (k mod p <> 0 -> pages = ceil_div k p) /\
  (k mod p = 0 -> pages = ceil_div k p + 1).
Proof.
  intros Hp Hnet Hfuel k pages robust basic.
  assert (Hr : robust =
    (Ret (Some db),
     {| requests := requests w + pages;
        log := log w ++ page_requests p (Some 30%Z) 0 pages;
        disk := disk w |})).
  { subst robust pages k. unfold Robust.get_all_campaigns_with.
    change (@nil Campaign) with (firstn 0 db).
    rewrite (paginate_from db p Hp (Some 30%Z) (Robust.page_body net p));
      [ rewrite Nat.sub_0_r, Nat.add_1_r; reflexivity
      | intros; apply robust_page_ok, Hnet | lia | rewrite Nat.sub_0_r; lia ]. }
  assert (Hb : basic =
    (Ret (Some db),
     {| requests := requests w + pages;
        log := log w ++ page_requests p None 0 pages;
        disk := disk w |})).
  { subst basic pages k. unfold Basic.get_all_campaigns_with.
    change (@nil Campaign) with (firstn 0 db).
    rewrite (paginate_from db p Hp None (Basic.page_body net p));
      [ rewrite Nat.sub_0_r, Nat.add_1_r; reflexivity
      | intros; apply basic_page_ok, Hnet | lia | rewrite Nat.sub_0_r; lia ]. }
  pose proof (Nat.div_mod_eq k p) as Hk.
  pose proof (Nat.mod_upper_bound k p ltac:(lia)) as Hlt.
  rewrite Hr, Hb. cbn [fst snd log].
  repeat split; try reflexivity.
  - now rewrite count_page_requests_app, count_page_requests_pages.
  - now rewrite count_page_requests_app, count_page_requests_pages.
  - intros j Hj. rewrite page_of_length. fold k. nia.
  - rewrite page_of_length. fold k. nia.
  - exact Hlt.
  - intros Hne. subst pages. now rewrite ceil_div_inexact.
  - intros He. subst pages. now rewrite ceil_div_exact.
Qed.

Lemma get_all_campaigns_pages_witness :
  let db := [bare_campaign "c1"; bare_campaign "c2"; bare_campaign "c3"] in
  fst (Robust.get_all_campaigns_with (static_net db) 2 5 fresh_world) = Ret (Some db) /\
  count_page_requests
    (log (snd (Robust.get_all_campaigns_with (static_net db) 2 5 fresh_world))) = 2.
Proof.
  pose (db := [bare_campaign "c1"; bare_campaign "c2"; bare_campaign "c3"]).
  assert (H2 : 0 < 2) by lia.
  assert (Hs : serves (static_net db) db) by (intros n offset count; reflexivity).
  assert (Hf : length db / 2 < 5) by (vm_compute; lia).
  pose proof (get_all_campaigns_pages (static_net db) db 2 5 fresh_world H2 Hs Hf)
    as (_ & _ & Hres & _ & _ & _ & Hcount & _).
  split; [exact Hres | exact Hcount].
Defined.

(** C1 as stated fails when the page size divides the number of campaigns:
    a server that holds exactly 1000 campaigns is asked for two pages (the
    full one and an empty one), while [ceil(1000 / 1000) = 1]. *)
Lemma get_all_campaigns_full_page_needs_two_requests :
  let db := thousand_campaigns in
  let run := Robust.get_all_campaigns (static_net db) 3 fresh_world in
  length db = 1000 /\
  fst run = Ret (Some db) /\
  count_page_requests (log (snd run)) = 2 /\
  ceil_div (length db) 1000 = 1 /\
  count_page_requests (log (snd run)) <> ceil_div (length db) 1000.
Proof. vm_compute. repeat split; congruence. Qed.

(** ** Per-item fetches of the robust generator *)

Section Retries.

Variable net : Net.

Lemma report_attempt_step (campaign_id : string) (attempt : nat) (w : World) :
  let res := reports_endpoint net (requests w) campaign_id in
  let w1 := after_get (ReqReport campaign_id) (Some 15%Z) w in
  Robust.report_attempt net campaign_id attempt w =
  match res with
  | Raise Timeout =>
      if (attempt <? 2)%nat then (Ret (Continue tt), after_sleep 2 w1)
      else (Ret (Break None), w1)
  | _ => (Ret (Break (report_of res)), w1)
  end.
Proof.
  cbv zeta. unfold Robust.report_attempt, try_except, mbind, M_bind, bind, http_get.
  destruct (reports_endpoint net (requests w) campaign_id) as [response|e].
  - unfold report_of, response_json.
    destruct (status_code response =? 200)%Z.
    + destruct (json response); reflexivity.
    + destruct (status_code response =? 404)%Z; reflexivity.
  - destruct e; try reflexivity.
    destruct (attempt <? 2)%nat; reflexivity.
Qed.

Lemma list_attempt_step (lid : string) (attempt : nat) (w : World) :
  let res := lists_endpoint net (requests w) lid in
  let w1 := after_get (ReqList lid) (Some 15%Z) w in
  Robust.list_attempt net lid attempt w =
  match res with
  | Raise Timeout =>
      if (attempt <? 2)%nat then (Ret (Continue tt), after_sleep 2 w1)
      else (Ret (Break "Unknown"), w1)
  | _ => (Ret (Break (list_name_of res)), w1)
  end.
Proof.
  cbv zeta. unfold Robust.list_attempt, try_except, mbind, M_bind, bind, http_get.
  destruct (lists_endpoint net (requests w) lid) as [response|e].
  - unfold list_name_of, response_json.
    destruct (status_code response =? 200)%Z; [|reflexivity].
    destruct (json response); reflexivity.
  - destruct e; try reflexivity.
    destruct (attempt <? 2)%nat; reflexivity.
Qed.

Lemma timed_out_dec {A} (res : result A) : {timed_out res} + {~ timed_out res}.
Proof.
  unfold timed_out. destruct res as [a|[]];
    solve [left; reflexivity | right; discriminate].
Defined.

Lemma for_range_three {A R} (answer : nat -> result (Response A))
    (value : result (Response A) -> R) (r : Request)
    (body : nat -> M (ctl unit R)) (dflt : R) (w : World) :
  (forall res, timed_out res -> value res = dflt) ->
  (forall attempt w,
     body attempt w =
     match answer (requests w) with
     | Raise Timeout =>
         if (attempt <? 2)%nat
         then (Ret (Continue tt), after_sleep 2 (after_get r (Some 15%Z) w))
         else (Ret (Break dflt), after_get r (Some 15%Z) w)
     | res => (Ret (Break (value res)), after_get r (Some 15%Z) w)
     end) ->
  bounded_retries answer value r w (for_range (seq 0 3) body (mret dflt) w).
Proof.
  intros Hdflt Hbody. unfold bounded_retries.
  assert (Hstep : forall attempt w0,
    ~ timed_out (answer (requests w0)) ->
    body attempt w0 =
    (Ret (Break (value (answer (requests w0)))), after_get r (Some 15%Z) w0)).
  { intros attempt w0 Hn. rewrite Hbody. unfold timed_out in Hn.
    destruct (answer (requests w0)) as [a|[]]; try reflexivity. congruence. }
  assert (Hretry : forall attempt w0,
    timed_out (answer (requests w0)) ->
    body attempt w0 =
    if (attempt <? 2)%nat
    then (Ret (Continue tt), after_sleep 2 (after_get r (Some 15%Z) w0))
    else (Ret (Break dflt), after_get r (Some 15%Z) w0)).
  { intros attempt w0 Ht. rewrite Hbody, Ht. reflexivity. }
  cbn [seq for_range]. unfold mbind, M_bind, bind.
  destruct (timed_out_dec (answer (requests w))) as [T0|N0].
  2:{ exists 0. rewrite (Hstep 0 w N0), !Nat.add_0_r. cbn.
      repeat split; try tauto; try lia. }
  rewrite (Hretry 0 w T0). cbn [Nat.ltb Nat.leb].
  set (w1 := after_sleep 2 (after_get r (Some 15%Z) w)).
  assert (R1 : requests w1 = requests w + 1) by (cbn; lia).
  destruct (timed_out_dec (answer (requests w1))) as [T1|N1].
  2:{ exists 1. rewrite (Hstep 1 w1 N1). rewrite R1 in *. cbn.
      rewrite <- !app_assoc. cbn.
      repeat split; try tauto; try lia.
      intros i Hi. assert (i = 0) as -> by lia. now rewrite Nat.add_0_r. }
  rewrite (Hretry 1 w1 T1). cbn [Nat.ltb Nat.leb].
  set (w2 := after_sleep 2 (after_get r (Some 15%Z) w1)).
  assert (R2 : requests w2 = requests w + 2) by (cbn; lia).
  assert (Hpre : forall i, i < 2 -> timed_out (answer (requests w + i))).
  { intros i Hi. destruct i as [|[|i]];
      [now rewrite Nat.add_0_r | now rewrite <- R1 | lia]. }
  exists 2.
  destruct (timed_out_dec (answer (requests w2))) as [T2|N2].
  - rewrite (Hretry 2 w2 T2). cbn. rewrite R2 in T2. rewrite (Hdflt _ T2).
    rewrite <- !app_assoc. cbn. repeat split; try lia; assumption.
  - rewrite (Hstep 2 w2 N2). rewrite R2. cbn.
    rewrite <- !app_assoc. cbn. repeat split; try lia; assumption.
Qed.

End Retries.

Lemma count_requests_app (l1 l2 : list Event) :
  count_requests (l1 ++ l2) = count_requests l1 + count_requests l2.
Proof. unfold count_requests. now rewrite List.filter_app, length_app. Qed.

Lemma count_requests_attempts (r : Request) (timeout : option Z) (j : nat) :
  count_requests (attempts_log r timeout j) = j + 1.
Proof.
  unfold attempts_log. rewrite count_requests_app.
  induction j as [|j IH]; [reflexivity|].
  cbn [repeat concat]. rewrite count_requests_app. cbn in *. lia.
Qed.

Lemma bounded_retries_at_most_three {A R} (answer : nat -> result (Response A))
    (value : result (Response A) -> R) (r : Request) (w : World)
    (out : result R * World) :
  bounded_retries answer value r w out ->
  (exists v, fst out = Ret v) /\
  count_requests (log (snd out)) <= count_requests (log w) + 3.
Proof.
  intros (j & Hj & _ & _ & Hv & _ & Hlog & _). split; [eauto|].
  rewrite Hlog, count_requests_app, count_requests_attempts. lia.
Qed.

Lemma robust_report_retries (net : Net) (campaign_id : string) (w : World) :
  bounded_retries (fun n => reports_endpoint net n campaign_id) report_of
    (ReqReport campaign_id) w (Robust.get_campaign_report net campaign_id w).
Proof.
  unfold Robust.get_campaign_report.
  apply (for_range_three (fun n => reports_endpoint net n campaign_id)
           report_of (ReqReport campaign_id) _ None w).
  - intros res ->. reflexivity.
  - intros attempt w0. rewrite report_attempt_step. cbv zeta.
    destruct (reports_endpoint net (requests w0) campaign_id) as [|[]];
      reflexivity.
Qed.

Lemma robust_list_name_retries (net : Net) (lid : string) (w : World) :
  bounded_retries (fun n => lists_endpoint net n lid) list_name_of
    (ReqList lid) (after_enter "get_list_name" lid w)
    (Robust.get_list_name net lid w).
Proof.
  unfold Robust.get_list_name.
  change ((emit (EvEnter "get_list_name" lid);;
           for_range (seq 0 3) (Robust.list_attempt net lid) (mret "Unknown")) w)
    with (for_range (seq 0 3) (Robust.list_attempt net lid) (mret "Unknown")
            (after_enter "get_list_name" lid w)).
  apply (for_range_three (fun n => lists_endpoint net n lid)
           list_name_of (ReqList lid) _ "Unknown").
  - intros res ->. reflexivity.
  - intros attempt w0. rewrite list_attempt_step. cbv zeta.
    destruct (lists_endpoint net (requests w0) lid) as [|[]]; reflexivity.
Qed.

(** C3. In the robust generator, [get_campaign_report] and [get_list_name]
    make at most 3 requests per call.  A request is repeated only after a
    timeout, and a sleep of 2 sits between a timed-out request and the next
    one (and nowhere else); the first answer that is not a timeout, or the
    third answer, ends the call.  An answer that is an exception or has a
    status other than 200 gives the default ([None] for the report,
    ['Unknown'] for the list name), and the call always returns: no
    exception reaches the caller. *)
Theorem per_item_fetches_retry_on_timeout_only (net : Net)
    (campaign_id lid : string) (w : World) :
  let report_run := Robust.get_campaign_report net campaign_id w in
  let name_run := Robust.get_list_name net lid w in
  bounded_retries (fun n => reports_endpoint net n campaign_id) report_of
    (ReqReport campaign_id) w report_run /\
  bounded_retries (fun n => lists_endpoint net n lid) list_name_of
    (ReqList lid) (after_enter "get_list_name" lid w) name_run /\
  (exists v, fst report_run = Ret v) /\
  (exists v, fst name_run = Ret v) /\
  count_requests (log (snd report_run)) <= count_requests (log w) + 3 /\
  count_requests (log (snd name_run)) <= count_requests (log w) + 3 /\
  (forall e, report_of (Raise e) = None /\ list_name_of (Raise e) = "Unknown") /\
  (forall response, status_code response <> 200%Z ->
     report_of (Ret response) = None) /\
  (forall response, status_code response <> 200%Z ->
     list_name_of (Ret response) = "Unknown").
Proof.
  cbv zeta.
  pose proof (robust_report_retries net campaign_id w) as Hreport.
  pose proof (robust_list_name_retries net lid w) as Hname.
  pose proof (bounded_retries_at_most_three _ _ _ _ _ Hreport) as [Hr1 Hr2].
  pose proof (bounded_retries_at_most_three _ _ _ _ _ Hname) as [Hn1 Hn2].
  repeat split; try assumption.
  - unfold after_enter in Hn2. cbn [log] in Hn2.
    rewrite (count_requests_app (log w)) in Hn2. cbn in Hn2. lia.
  - intros response Hs. unfold report_of.
    destruct (status_code response =? 200)%Z eqn:E; [|reflexivity].
    apply Z.eqb_eq in E. contradiction.
  - intros response Hs. unfold list_name_of.
    destruct (status_code response =? 200)%Z eqn:E; [|reflexivity].
    apply Z.eqb_eq in E. contradiction.
Qed.

(** ** The listing fetch when requests fail *)

Section ListingFailures.

Variable net : Net.
Variable count : nat.

Lemma robust_page_timeout (acc : list Campaign) (offset : nat) (w : World) :
  timed_out (campaigns_endpoint net (requests w) offset count) ->
  Robust.page_body net count (acc, offset) w =
  (Ret (Continue (acc, offset)),
   after_sleep 2 (after_get (ReqCampaigns offset count) (Some 30%Z) w)).
Proof.
  intros Ht. unfold Robust.page_body, try_except, mbind, M_bind, bind, http_get.
  rewrite Ht. reflexivity.
Qed.

Lemma robust_page_failed (acc : list Campaign) (offset : nat) (w : World) :
  let res := campaigns_endpoint net (requests w) offset count in
  bad_status res \/ other_exception res ->
  Robust.page_body net count (acc, offset) w =
  (Ret (Break acc), after_get (ReqCampaigns offset count) (Some 30%Z) w).
Proof.
  cbv zeta. unfold Robust.page_body, try_except, mbind, M_bind, bind, http_get.
  intros [(response & -> & Hs) | (e & -> & He)].
  - apply Z.eqb_neq in Hs. now rewrite Hs.
  - destruct e; try reflexivity. congruence.
Qed.

Lemma basic_page_bad_status (acc : list Campaign) (offset : nat) (w : World) :
  bad_status (campaigns_endpoint net (requests w) offset count) ->
  Basic.page_body net count (acc, offset) w =
  (Ret (Break acc), after_get (ReqCampaigns offset count) None w).
Proof.
  unfold Basic.page_body, mbind, M_bind, bind, http_get.
  intros (response & -> & Hs). apply Z.eqb_neq in Hs. now rewrite Hs.
Qed.

Lemma basic_page_raise (acc : list Campaign) (offset : nat) (w : World) (e : exn) :
  campaigns_endpoint net (requests w) offset count = Raise e ->
  Basic.page_body net count (acc, offset) w =
  (Raise e, after_get (ReqCampaigns offset count) None w).
Proof.
  unfold Basic.page_body, mbind, M_bind, bind, http_get.
  intros ->. reflexivity.
Qed.

Lemma after_timeouts_zero (r : Request) (timeout : option Z) (w : World) :
  after_timeouts r timeout 0 w = w.
Proof.
  destruct w as [n l d]. unfold after_timeouts. cbn.
  now rewrite Nat.add_0_r, app_nil_r.
Qed.

Lemma after_timeouts_succ (r : Request) (timeout : option Z) (n : nat) (w : World) :
  after_timeouts r timeout n (after_sleep 2 (after_get r timeout w)) =
  after_timeouts r timeout (S n) w.
Proof.
  unfold after_timeouts, after_sleep, after_get. cbn. f_equal; [lia|].
  now rewrite <- !app_assoc.
Qed.

Lemma robust_timeouts_repeat (n : nat) :
  forall (fuel : nat) (acc : list Campaign) (offset : nat) (w : World),
  (forall i, i < n ->
     timed_out (campaigns_endpoint net (requests w + i) offset count)) ->
  while_true (n + fuel) (Robust.page_body net count) (acc, offset) w =
  while_true fuel (Robust.page_body net count) (acc, offset)
    (after_timeouts (ReqCampaigns offset count) (Some 30%Z) n w).
Proof.
  induction n as [|n IH]; intros fuel acc offset w Ht.
  - now rewrite after_timeouts_zero.
  - cbn [Nat.add while_true]. unfold mbind, M_bind, bind.
    rewrite robust_page_timeout by (specialize (Ht 0 ltac:(lia)); now rewrite Nat.add_0_r in Ht).
    rewrite IH.
    + now rewrite after_timeouts_succ.
    + intros i Hi. specialize (Ht (S i) ltac:(lia)).
      cbn [after_sleep after_get requests].
      now replace (S (requests w) + i) with (requests w + S i) by lia.
Qed.

End ListingFailures.

(** C8. In the listing fetch of the robust generator, a page request that
    times out leaves the loop state as it was (same accumulated campaigns,
    same offset), is followed by a sleep of 2, and the next iteration asks
    for the same page again.  The number of such retries has no bound: after
    any number [n] of timeouts in a row the loop is where it was, with [n]
    requests for that page and [n] sleeps in the log, and against a server
    that always times out the loop never returns, however much fuel it is
    given. *)
Theorem listing_timeout_retries_same_page (net : Net) (count : nat)
    (acc : list Campaign) (offset : nat) (w : World) :
  (timed_out (campaigns_endpoint net (requests w) offset count) ->
   Robust.page_body net count (acc, offset) w =
   (Ret (Continue (acc, offset)),
    after_sleep 2 (after_get (ReqCampaigns offset count) (Some 30%Z) w))) /\
  (forall n fuel,
     (forall i, i < n ->
        timed_out (campaigns_endpoint net (requests w + i) offset count)) ->
     while_true (n + fuel) (Robust.page_body net count) (acc, offset) w =
     while_true fuel (Robust.page_body net count) (acc, offset)
       (after_timeouts (ReqCampaigns offset count) (Some 30%Z) n w)) /\
  ((forall i, timed_out (campaigns_endpoint net (requests w + i) offset count)) ->
   forall fuel,
     while_true fuel (Robust.page_body net count) (acc, offset) w =
     (Ret None, after_timeouts (ReqCampaigns offset count) (Some 30%Z) fuel w)).
Proof.
  split; [apply robust_page_timeout|]. split.
  - intros n fuel Ht. now apply robust_timeouts_repeat.
  - intros Ht fuel.
    rewrite <- (Nat.add_0_r fuel) at 1.
    rewrite robust_timeouts_repeat by (intros i _; apply Ht). reflexivity.
Qed.

Lemma listing_timeout_retries_same_page_witness :
  let net := scripted_net [bare_campaign "c1"] two_timeouts in
  while_true (2 + 1) (Robust.page_body net 1000) ([], 0) fresh_world =
  while_true 1 (Robust.page_body net 1000) ([], 0)
    (after_timeouts (ReqCampaigns 0 1000) (Some 30%Z) 2 fresh_world) /\
  Robust.get_all_campaigns net 3 fresh_world =
  (Ret (Some [bare_campaign "c1"]),
   {| requests := 3;
      log := [EvGet (ReqCampaigns 0 1000) (Some 30%Z); EvSleep 2;
              EvGet (ReqCampaigns 0 1000) (Some 30%Z); EvSleep 2;
              EvGet (ReqCampaigns 0 1000) (Some 30%Z)];
      disk := ∅ |}).
Proof.
  pose (net := scripted_net [bare_campaign "c1"] two_timeouts).
  assert (Ht : forall i, i < 2 ->
            timed_out (campaigns_endpoint net (requests fresh_world + i) 0 1000)).
  { intros i Hi. destruct i as [|[|i]]; [reflexivity | reflexivity | lia]. }
  destruct (listing_timeout_retries_same_page net 1000 [] 0 fresh_world)
    as (_ & Hrepeat & _).
  split; [exact (Hrepeat 2 1 Ht) | reflexivity].
Defined.

Section PartialListing.

Variable net : Net.
Variable db : list Campaign.
Variable p : nat.
Hypothesis p_pos : 0 < p.

Variable timeout : option Z.
Variable body : list Campaign * nat -> M (ctl (list Campaign * nat) (list Campaign)).
Hypothesis body_ok : forall acc offset page w,
  campaigns_endpoint net (requests w) offset p =
    ok {| campaigns_key := Some page |} ->
  body (acc, offset) w =
  (Ret (decide_page p acc offset page),
   after_get (ReqCampaigns offset p) timeout w).

Lemma full_page_continues (acc : list Campaign) (i : nat) :
  (i + 1) * p <= length db ->
  decide_page p (firstn (i * p) db) (i * p) (page_of db (i * p) p) =
  Continue (firstn ((i + 1) * p) db, (i + 1) * p).
Proof.
  intros Hle. unfold decide_page.
  assert (Hlen : length (page_of db (i * p) p) = p).
  { rewrite page_of_length. nia. }
  destruct (page_of db (i * p) p) as [|c page] eqn:Hpage; [simpl in Hlen; lia|].
  rewrite Hlen, Nat.ltb_irrefl. f_equal.
  replace ((i + 1) * p) with (i * p + p) by lia. f_equal.
  rewrite <- Hpage. unfold page_of.
  rewrite <- (firstn_skipn (i * p) db) at 3.
  rewrite firstn_app, length_firstn, firstn_firstn.
  replace (Nat.min (i * p + p) (i * p)) with (i * p) by lia.
  f_equal. f_equal. lia.
Qed.

(** [m] full pages in a row take the loop [m] offsets further. *)
Lemma paginate_prefix (m : nat) : forall (i fuel : nat) (w : World),
  (i + m) * p <= length db ->
  (forall j, j < m ->
     campaigns_endpoint net (requests w + j) ((i + j) * p) p =
       ok {| campaigns_key := Some (page_of db ((i + j) * p) p) |}) ->
  while_true (m + fuel) body (firstn (i * p) db, i * p) w =
  while_true fuel body (firstn ((i + m) * p) db, (i + m) * p)
    {| requests := requests w + m;
       log := log w ++ page_requests p timeout (i * p) m;
       disk := disk w |}.
Proof.
  induction m as [|m IH]; intros i fuel w Hle Hok.
  - rewrite !Nat.add_0_r. cbn. rewrite app_nil_r. now destruct w.
  - cbn [Nat.add while_true]. unfold mbind, M_bind, bind.
    rewrite (body_ok _ _ (page_of db (i * p) p))
      by (specialize (Hok 0 ltac:(lia)); now rewrite !Nat.add_0_r in Hok).
    rewrite (full_page_continues [] i) by lia.
    rewrite IH.
    + replace (i + 1 + m) with (i + S m) by lia.
      unfold after_get. cbn [requests log disk].
      rewrite page_requests_succ, <- app_assoc. cbn [app].
      replace (i * p + p) with ((i + 1) * p) by lia.
      f_equal. f_equal. lia. exact p_pos.
    + lia.
    + intros j Hj. specialize (Hok (S j) ltac:(lia)).
      cbn [after_get requests].
      replace (S (requests w) + j) with (requests w + S j) by lia.
      now replace (i + 1 + j) with (i + S j) by lia.
Qed.

End PartialListing.

(** C7, as the code has it.  Let the first [m] page requests come back full
    (the pages of [db] at the offsets [0, p, ..., (m-1)p]) and let the next
    one fail.  If it completes with a status other than 200, the listing
    fetch of both generators stops at once and returns exactly the [m * p]
    campaigns of the earlier pages.  If it raises an exception other than a
    timeout, the robust generator does the same, while the basic generator,
    which has no exception handler, lets the exception reach its caller. *)
Theorem listing_failure_keeps_earlier_pages (net : Net) (db : list Campaign)
    (p m fuel : nat) (w : World) :
  0 < p ->
  m * p <= length db ->
  m < fuel ->
  (forall j, j < m ->
     campaigns_endpoint net (requests w + j) (j * p) p =
       ok {| campaigns_key := Some (page_of db (j * p) p) |}) ->
  let res := campaigns_endpoint net (requests w + m) (m * p) p in
  let robust := Robust.get_all_campaigns_with net p fuel w in
  let basic := Basic.get_all_campaigns_with net p fuel w in
  (bad_status res \/ other_exception res ->
   fst robust = Ret (Some (firstn (m * p) db)) /\
   log (snd robust) = log w ++ page_requests p (Some 30%Z) 0 (m + 1)) /\
  (bad_status res ->
   fst basic = Ret (Some (firstn (m * p) db)) /\
   log (snd basic) = log w ++ page_requests p None 0 (m + 1)) /\
  (forall e, res = Raise e ->
   fst basic = Raise e /\
   log (snd basic) = log w ++ page_requests p None 0 (m + 1)).
Proof.
  intros Hp Hle Hfuel Hok res robust basic.
  assert (Hlog : forall timeout l,
    (l ++ page_requests p timeout 0 m) ++ [EvGet (ReqCampaigns (m * p) p) timeout] =
    l ++ page_requests p timeout 0 (m + 1)).
  { intros timeout l. unfold page_requests.
    rewrite <- app_assoc. f_equal.
    rewrite Nat.add_1_r, seq_S, map_app. reflexivity. }
  assert (Hrobust : robust =
    while_true (fuel - m) (Robust.page_body net p) (firstn (m * p) db, m * p)
      {| requests := requests w + m;
         log := log w ++ page_requests p (Some 30%Z) 0 m;
         disk := disk w |}).
  { subst robust. unfold Robust.get_all_campaigns_with.
    replace fuel with (m + (fuel - m)) at 1 by lia.
    change (@nil Campaign, 0) with (firstn (0 * p) db, 0 * p).
    rewrite (paginate_prefix net db p Hp (Some 30%Z) (Robust.page_body net p));
      [reflexivity | intros; now apply robust_page_ok | cbn; lia | exact Hok]. }
  assert (Hbasic : basic =
    while_true (fuel - m) (Basic.page_body net p) (firstn (m * p) db, m * p)
      {| requests := requests w + m;
         log := log w ++ page_requests p None 0 m;
         disk := disk w |}).
  { subst basic. unfold Basic.get_all_campaigns_with.
    replace fuel with (m + (fuel - m)) at 1 by lia.
    change (@nil Campaign, 0) with (firstn (0 * p) db, 0 * p).
    rewrite (paginate_prefix net db p Hp None (Basic.page_body net p));
      [reflexivity | intros; now apply basic_page_ok | cbn; lia | exact Hok]. }
  destruct (fuel - m) as [|fuel'] eqn:Hf; [lia|].
  rewrite Hrobust, Hbasic. cbn [while_true]. unfold mbind, M_bind, bind.
  split; [|split].
  - intros Hfail. rewrite robust_page_failed by exact Hfail.
    cbn. split; [reflexivity | apply Hlog].
  - intros Hfail. rewrite basic_page_bad_status by exact Hfail.
    cbn. split; [reflexivity | apply Hlog].
  - intros e He. rewrite (basic_page_raise net p _ _ _ e) by exact He.
    cbn. split; [reflexivity | apply Hlog].
Qed.

Lemma listing_failure_keeps_earlier_pages_witness :
  let db := [bare_campaign "c1"; bare_campaign "c2"; bare_campaign "c3"] in
  let net := scripted_net db second_is_500 in
  fst (Robust.get_all_campaigns_with net 2 3 fresh_world) =
    Ret (Some [bare_campaign "c1"; bare_campaign "c2"]) /\
  fst (Basic.get_all_campaigns_with net 2 3 fresh_world) =
    Ret (Some [bare_campaign "c1"; bare_campaign "c2"]).
Proof.
  pose (db := [bare_campaign "c1"; bare_campaign "c2"; bare_campaign "c3"]).
  pose (net := scripted_net db second_is_500).
  assert (Hp : 0 < 2) by lia.
  assert (Hle : 1 * 2 <= length db) by (cbn; lia).
  assert (Hfuel : 1 < 3) by lia.
  assert (Hok : forall j, j < 1 ->
            campaigns_endpoint net (requests fresh_world + j) (j * 2) 2 =
            ok {| campaigns_key := Some (page_of db (j * 2) 2) |}).
  { intros j Hj. destruct j as [|j]; [reflexivity | lia]. }
  assert (Hbad : bad_status (campaigns_endpoint net (requests fresh_world + 1) (1 * 2) 2)).
  { eexists. split; [reflexivity | cbn; lia]. }
  destruct (listing_failure_keeps_earlier_pages net db 2 1 3 fresh_world
              Hp Hle Hfuel Hok) as (Hrobust & Hbasic & _).
  split; [exact (proj1 (Hrobust (or_introl Hbad))) | exact (proj1 (Hbasic Hbad))].
Defined.

(** C7 as stated fails for the basic generator: after one full page of 1000
    campaigns, a connection error on the second page request is raised to
    the caller of [get_all_campaigns] and the 1000 campaigns are lost; the
    robust generator returns them. *)
Lemma basic_get_all_campaigns_raises_on_connection_error :
  let net := scripted_net thousand_campaigns second_is_dropped in
  fst (Basic.get_all_campaigns net 3 fresh_world) = Raise ConnectionError /\
  fst (Basic.get_all_campaigns net 3 fresh_world) <>
    Ret (Some thousand_campaigns) /\
  fst (Robust.get_all_campaigns net 3 fresh_world) =
    Ret (Some thousand_campaigns).
Proof. vm_compute. repeat split; congruence. Qed.

(** ** The loop of the robust generator *)

Section RobustLoop.

Context `{Platform} (net : Net).

Lemma robust_report_returns (campaign_id : string) (w : World) :
  exists report j,
    j <= 2 /\
    Robust.get_campaign_report net campaign_id w =
    (Ret report,
     {| requests := requests w + j + 1;
        log := log w ++ attempts_log (ReqReport campaign_id) (Some 15%Z) j;
        disk := disk w |}).
Proof.
  destruct (robust_report_retries net campaign_id w)
    as (j & Hj & _ & _ & Hv & Hr & Hl & Hd).
  destruct (Robust.get_campaign_report net campaign_id w) as [r [n l d]].
  cbn in *. subst. eauto.
Qed.

Lemma robust_list_name_returns (lid : string) (w : World) :
  exists name j,
    j <= 2 /\
    Robust.get_list_name net lid w =
    (Ret name,
     {| requests := requests w + j + 1;
        log := log w ++ EvEnter "get_list_name" lid ::
                        attempts_log (ReqList lid) (Some 15%Z) j;
        disk := disk w |}).
Proof.
  destruct (robust_list_name_retries net lid w)
    as (j & Hj & _ & _ & Hv & Hr & Hl & Hd).
  destruct (Robust.get_list_name net lid w) as [r [n l d]].
  cbn in *. subst. rewrite <- app_assoc. cbn. eauto.
Qed.

(** The audience lookup either leaves the cache and the world alone, or
    enters [get_list_name] once, for an id the cache did not hold, and
    stores the answer. *)
Lemma robust_resolve_audience_returns (campaign : Campaign)
    (cache : gmap string string) (w : World) :
  exists audience cache' w',
    Robust.resolve_audience net campaign cache w = (Ret (audience, cache'), w') /\
    disk w' = disk w /\
    ((cache' = cache /\ w' = w) \/
     (exists lid name j,
        j <= 2 /\
        cache !! lid = None /\
        cache' = <[lid := name]> cache /\
        log w' = log w ++ EvEnter "get_list_name" lid ::
                          attempts_log (ReqList lid) (Some 15%Z) j)).
Proof.
  unfold Robust.resolve_audience.
  destruct (list_id (default no_recipients (c_recipients campaign)))
    as [[|a l]|] eqn:Hlid.
  - unfold mbind, M_bind, bind, mret, M_ret, ret.
    destruct (segment_opts _) as [[|]|]; eauto 10.
  - destruct (cache !! String a l) as [name|] eqn:Hc.
    + unfold mbind, M_bind, bind, mret, M_ret, ret.
      destruct (segment_opts _) as [[|]|]; eauto 10.
    + destruct (robust_list_name_returns (String a l) w) as (name & j & Hj & Hn).
      unfold mbind, M_bind, bind, mret, M_ret, ret. rewrite Hn.
      destruct (segment_opts _) as [[|]|];
        (do 3 eexists; split; [reflexivity|]; split; [reflexivity|];
         right; exists (String a l), name, j; auto).
  - unfold mbind, M_bind, bind, mret, M_ret, ret.
    destruct (segment_opts _) as [[|]|]; eauto 10.
Qed.

(** One iteration of the loop: the audience lookup, the report fetch, the
    new row, then the checkpoint and the pause; a zero interval raises
    after the row was appended. *)
Lemma robust_process_campaign_runs (newsletters_path : option string)
    (output_file : string) (save_interval : Z) (i : nat)
    (campaign : Campaign) (st : LoopState) (w : World) :
  exists audience cache' report w1 w2,
    Robust.resolve_audience net campaign (list_cache st) w =
      (Ret (audience, cache'), w1) /\
    disk w1 = disk w /\
    ((cache' = list_cache st /\ w1 = w) \/
     (exists lid name j,
        j <= 2 /\
        list_cache st !! lid = None /\
        cache' = <[lid := name]> (list_cache st) /\
        log w1 = log w ++ EvEnter "get_list_name" lid ::
                          attempts_log (ReqList lid) (Some 15%Z) j)) /\
    Robust.get_campaign_report net (campaign_id_of campaign) w1 =
      (Ret report, w2) /\
    disk w2 = disk w1 /\
    (exists j, j <= 2 /\
       log w2 = log w1 ++
                attempts_log (ReqReport (campaign_id_of campaign)) (Some 15%Z) j) /\
    let rows :=
      csv_data st ++ [Robust.make_row newsletters_path campaign audience report] in
    Robust.process_campaign net newsletters_path output_file save_interval
      i campaign st w =
    if (save_interval =? 0)%Z then (Raise ZeroDivisionError, w2)
    else (Ret {| list_cache := cache'; csv_data := rows |},
          {| requests := requests w2;
             log := log w2 ++ pacing i;
             disk := checkpoint output_file save_interval i rows (disk w2) |}).
Proof.
  destruct (robust_resolve_audience_returns campaign (list_cache st) w)
    as (audience & cache' & w1 & Ha & Hd1 & Hcase).
  destruct (robust_report_returns (campaign_id_of campaign) w1)
    as (report & j & Hj & Hr).
  exists audience, cache', report, w1. eexists.
  split; [exact Ha|]. split; [exact Hd1|]. split; [exact Hcase|].
  split; [exact Hr|]. split; [reflexivity|].
  split; [exists j; split; [exact Hj | reflexivity]|]. cbv zeta.
  unfold Robust.process_campaign. unfold mbind at 1, M_bind at 1, bind at 1.
  rewrite Ha. unfold mbind at 1, M_bind at 1, bind at 1.
  unfold campaign_id_of in Hr. rewrite Hr.
  unfold py_mod, checkpoint, pacing, Robust.save_progress, write_csv, sleep, emit,
    csv_file_of.
  destruct (save_interval =? 0)%Z; [reflexivity|].
  unfold mbind, M_bind, bind, mret, M_ret, ret, raise. cbn.
  destruct (Z.of_nat i mod save_interval =? 0)%Z;
    destruct (Z.of_nat i mod 10 =? 0)%Z; cbn; rewrite ?app_nil_r; reflexivity.
Qed.

End RobustLoop.

Lemma for_enumerate_app {St} (body : nat -> Campaign -> St -> M St)
    (l1 l2 : list Campaign) :
  forall (i : nat) (st : St) (w : World),
  for_enumerate body i (l1 ++ l2) st w =
  match for_enumerate body i l1 st w with
  | (Ret st', w') => for_enumerate body (i + length l1) l2 st' w'
  | (Raise e, w') => (Raise e, w')
  end.
Proof.
  induction l1 as [|c l1 IH]; intros i st w.
  - cbn. now rewrite Nat.add_0_r.
  - cbn [app for_enumerate length]. unfold mbind, M_bind, bind.
    destruct (body i c st w) as [[st'|e] w']; [|reflexivity].
    specialize (IH (S i) st' w'). unfold mbind, M_bind, bind in IH.
    rewrite IH. now replace (S i + length l1) with (i + S (length l1)) by lia.
Qed.

Section RobustRun.

Context `{Platform} (net : Net).
Variable newsletters_path : option string.
Variable output_file : string.
Variable save_interval : Z.
Hypothesis interval_nonzero : save_interval <> 0%Z.

Let body := Robust.process_campaign net newsletters_path output_file save_interval.

Lemma row_campaign_id_make_row (campaign : Campaign) (audience : string)
    (report : option Report) :
  row_campaign_id (Robust.make_row newsletters_path campaign audience report) =
  Some (VStr (campaign_id_of campaign)).
Proof. reflexivity. Qed.

(** With a non-zero interval an iteration returns: it appends one row, the
    row of its campaign, and leaves the disk as [checkpoint] says. *)
Lemma robust_iteration (i : nat) (campaign : Campaign) (st : LoopState) (w : World) :
  exists row cache' w',
    body i campaign st w =
      (Ret {| list_cache := cache'; csv_data := csv_data st ++ [row] |}, w') /\
    row_campaign_id row = Some (VStr (campaign_id_of campaign)) /\
    disk w' = checkpoint output_file save_interval i (csv_data st ++ [row]) (disk w).
Proof.
  destruct (robust_process_campaign_runs net newsletters_path output_file
              save_interval i campaign st w)
    as (audience & cache' & report & w1 & w2 & Ha & Hd1 & _ & Hr & Hd2 & _ & Hrun).
  cbv zeta in Hrun. apply Z.eqb_neq in interval_nonzero.
  rewrite interval_nonzero in Hrun.
  do 3 eexists. split; [exact Hrun|].
  split; [apply row_campaign_id_make_row|]. cbn [disk]. now rewrite Hd2, Hd1.
Qed.

(** The loop over any list of campaigns returns, with one row per campaign,
    in order. *)
Lemma robust_loop_returns (campaigns : list Campaign) :
  forall (i : nat) (st : LoopState) (w : World),
  exists rows cache' w',
    for_enumerate body i campaigns st w =
      (Ret {| list_cache := cache'; csv_data := csv_data st ++ rows |}, w') /\
    length rows = length campaigns /\
    map row_campaign_id rows =
      map (fun c => Some (VStr (campaign_id_of c))) campaigns.
Proof.
  induction campaigns as [|c cs IH]; intros i st w.
  - exists [], (list_cache st), w. cbn. rewrite app_nil_r.
    destruct st; auto.
  - destruct (robust_iteration i c st w) as (row & cache1 & w1 & Hb & Hid & _).
    destruct (IH (S i) {| list_cache := cache1; csv_data := csv_data st ++ [row] |} w1)
      as (rows & cache' & w' & Hl & Hlen & Hids).
    exists (row :: rows), cache', w'.
    cbn [for_enumerate]. unfold mbind, M_bind, bind. rewrite Hb.
    cbn [csv_data] in Hl. rewrite <- app_assoc in Hl. cbn [app] in Hl.
    split; [exact Hl|]. split; [cbn; now rewrite Hlen|].
    cbn [map]. now rewrite Hid, Hids.
Qed.

(** The iteration whose number is a multiple of the interval leaves the
    rows so far in the output file. *)
Lemma robust_loop_checkpoint (campaigns : list Campaign) (last : Campaign)
    (i : nat) (st : LoopState) (w : World) :
  (Z.of_nat (i + length campaigns) mod save_interval = 0)%Z ->
  exists st' w',
    for_enumerate body i (campaigns ++ [last]) st w = (Ret st', w') /\
    disk w' !! output_file =
      Some (csv_file_of Robust.fieldnames (csv_data st')).
Proof.
  intros Hmod. rewrite for_enumerate_app.
  destruct (robust_loop_returns campaigns i st w) as (rows & cache1 & w1 & Hl & _).
  rewrite Hl. cbn [for_enumerate]. unfold mbind, M_bind, bind.
  destruct (robust_iteration (i + length campaigns) last
              {| list_cache := cache1; csv_data := csv_data st ++ rows |} w1)
    as (row & cache' & w' & Hb & _ & Hd).
  fold body. rewrite Hb. do 2 eexists. split; [reflexivity|].
  rewrite Hd. unfold checkpoint. apply Z.eqb_eq in Hmod. rewrite Hmod.
  cbn [csv_data]. apply lookup_insert_eq.
Qed.

End RobustRun.

(** ** Checkpoints of the robust generator *)

Section RobustGenerate.

Context `{Platform} (net : Net).

(** [generate_csv] once the listing fetch returned [campaigns]. *)
Lemma robust_generate_csv_after_listing (fuel : nat)
    (newsletters_dir output_file : string) (save_interval : Z)
    (campaigns : list Campaign) (w w0 : World) :
  Robust.get_all_campaigns net fuel w = (Ret (Some campaigns), w0) ->
  Robust.generate_csv net fuel newsletters_dir output_file save_interval w =
  match campaigns with
  | [] => (Ret (Some None), w0)
  | _ :: _ =>
      match for_enumerate
              (Robust.process_campaign net (newsletters_path_of newsletters_dir)
                 output_file save_interval) 1 campaigns initial_state w0 with
      | (Ret st, w') =>
          (Ret (Some (Some output_file)),
           {| requests := requests w';
              log := log w';
              disk := <[output_file := csv_file_of Robust.fieldnames (csv_data st)]>
                        (disk w') |})
      | (Raise e, w') => (Raise e, w')
      end
  end.
Proof.
  intros Hfetch. unfold Robust.generate_csv.
  unfold mbind at 1, M_bind at 1, bind at 1. rewrite Hfetch.
  destruct campaigns as [|c cs]; [reflexivity|].
  unfold mbind at 1, M_bind at 1, bind at 1.
  fold (newsletters_path_of newsletters_dir). fold initial_state.
  destruct (for_enumerate _ 1 (c :: cs) initial_state w0) as [[st|e] w'];
    reflexivity.
Qed.

End RobustGenerate.

Lemma firstn_snoc {A} (l : list A) (i : nat) :
  1 <= i <= length l ->
  exists init last, firstn i l = init ++ [last] /\ length init = i - 1.
Proof.
  intros Hi.
  assert (Hne : firstn i l <> []).
  { intros E. apply (f_equal (@length A)) in E.
    rewrite length_firstn in E. cbn in E. lia. }
  destruct (exists_last Hne) as (init & last & E).
  exists init, last. split; [exact E|].
  apply (f_equal (@length A)) in E.
  rewrite length_firstn, length_app in E. cbn in E. lia.
Qed.

(** C2. In the run loop of the robust generator with a checkpoint interval
    [N] other than 0 (where Python's [i % N] is defined), let the listing
    fetch have returned the campaigns [cs], at least one.  The loop returns
    with one row per campaign.  For every [i] in [1 .. len(cs)] with
    [i mod N = 0], at the end of the [i]-th iteration the output file holds
    exactly the header and the first [i] rows, whatever it held before; and
    after the last campaign [generate_csv] rewrites the file with the header
    and all the rows, whatever [N] is. *)
Theorem checkpoints_hold_the_first_rows `{Platform} (net : Net) (fuel : nat)
    (newsletters_dir output_file : string) (save_interval : Z)
    (campaigns : list Campaign) (w w0 : World) :
  save_interval <> 0%Z ->
  Robust.get_all_campaigns net fuel w = (Ret (Some campaigns), w0) ->
  campaigns <> [] ->
  let body :=
    Robust.process_campaign net (newsletters_path_of newsletters_dir)
      output_file save_interval in
  exists st_end w_end,
    for_enumerate body 1 campaigns initial_state w0 = (Ret st_end, w_end) /\
    length (csv_data st_end) = length campaigns /\
    (forall i, 1 <= i <= length campaigns ->
       (Z.of_nat i mod save_interval = 0)%Z ->
       exists st_i w_i,
         for_enumerate body 1 (firstn i campaigns) initial_state w0 =
           (Ret st_i, w_i) /\
         for_enumerate body (1 + i) (skipn i campaigns) st_i w_i =
           (Ret st_end, w_end) /\
         csv_data st_i = firstn i (csv_data st_end) /\
         length (csv_data st_i) = i /\
         disk w_i !! output_file =
           Some (csv_file_of Robust.fieldnames (firstn i (csv_data st_end)))) /\
    exists w_out,
      Robust.generate_csv net fuel newsletters_dir output_file save_interval w =
        (Ret (Some (Some output_file)), w_out) /\
      disk w_out !! output_file =
        Some (csv_file_of Robust.fieldnames (csv_data st_end)).
Proof.
  intros HN Hfetch Hne body.
  destruct (robust_loop_returns net (newsletters_path_of newsletters_dir)
              output_file save_interval HN campaigns 1 initial_state w0)
    as (rows & cache_end & w_end & Hrun & Hlen & _).
  fold body in Hrun. cbn [csv_data initial_state app] in Hrun.
  eexists _, w_end. split; [exact Hrun|]. cbn [csv_data].
  split; [exact Hlen|]. split.
  - intros i Hi Hmod.
    destruct (firstn_snoc campaigns i Hi) as (init & last & Hsplit & Hinit).
    destruct (robust_loop_checkpoint net (newsletters_path_of newsletters_dir)
                output_file save_interval HN init last 1 initial_state w0)
      as (st_i & w_i & Hpre & Hdisk).
    { now replace (1 + length init) with i by lia. }
    fold body in Hpre. rewrite <- Hsplit in Hpre.
    destruct (robust_loop_returns net (newsletters_path_of newsletters_dir)
                output_file save_interval HN (firstn i campaigns) 1 initial_state w0)
      as (rows_i & cache_i & w_i' & Hpre' & Hlen_i & _).
    fold body in Hpre'. rewrite Hpre in Hpre'. injection Hpre' as -> <-.
    cbn [csv_data initial_state app] in *.
    rewrite length_firstn in Hlen_i.
    pose proof (for_enumerate_app body (firstn i campaigns) (skipn i campaigns)
                  1 initial_state w0) as Happ.
    rewrite firstn_skipn, Hrun, Hpre, length_firstn in Happ.
    replace (1 + Nat.min i (length campaigns)) with (1 + i) in Happ by lia.
    destruct (robust_loop_returns net (newsletters_path_of newsletters_dir)
                output_file save_interval HN (skipn i campaigns) (1 + i)
                {| list_cache := cache_i; csv_data := rows_i |} w_i)
      as (rows_r & cache_r & w_r & Hrest & _ & _).
    fold body in Hrest. rewrite <- Happ in Hrest.
    injection Hrest as -> -> ->. cbn [csv_data].
    assert (Hfirst : firstn i (rows_i ++ rows_r) = rows_i).
    { rewrite firstn_app, firstn_all2 by lia.
      replace (i - length rows_i) with 0 by lia. cbn. apply app_nil_r. }
    exists {| list_cache := cache_i; csv_data := rows_i |}, w_i.
    cbn [csv_data]. rewrite Hfirst.
    repeat split; try assumption; try reflexivity; try lia. symmetry. exact Happ.
  - rewrite (robust_generate_csv_after_listing net fuel newsletters_dir
               output_file save_interval campaigns w w0 Hfetch).
    destruct campaigns as [|c cs]; [congruence|].
    fold body. rewrite Hrun. eexists. split; [reflexivity|].
    cbn [disk csv_data]. apply lookup_insert_eq.
Qed.

Lemma checkpoints_hold_the_first_rows_witness :
  exists st_end w_out,
    length (csv_data st_end) = 3 /\
    @Robust.generate_csv test_platform (static_net three_campaigns) 2
      "mailchimp_newsletters" "out.csv" 2 fresh_world =
      (Ret (Some (Some "out.csv")), w_out) /\
    disk w_out !! "out.csv" =
      Some (csv_file_of Robust.fieldnames (csv_data st_end)).
Proof.
  assert (HN : 2%Z <> 0%Z) by discriminate.
  assert (Hne : three_campaigns <> []) by discriminate.
  destruct (@checkpoints_hold_the_first_rows test_platform
              (static_net three_campaigns) 2 "mailchimp_newsletters" "out.csv" 2
              three_campaigns fresh_world
              (snd (Robust.get_all_campaigns (static_net three_campaigns) 2 fresh_world))
              HN eq_refl Hne)
    as (st_end & w_end & _ & Hlen & _ & w_out & Hgen & Hdisk).
  exists st_end, w_out. split; [exact Hlen|]. split; [exact Hgen | exact Hdisk].
Defined.

(** With the interval 0, which [main] accepts from the prompt, [i % 0]
    raises in the first iteration and nothing is written. *)
Example robust_generate_csv_zero_interval_raises :
  let run :=
    @Robust.generate_csv test_platform (static_net three_campaigns) 2
      "mailchimp_newsletters" "out.csv" 0 fresh_world in
  fst run = Raise ZeroDivisionError /\ disk (snd run) !! "out.csv" = None.
Proof. vm_compute. split; reflexivity. Qed.

(** ** A report that is not found *)

Lemma robust_report_not_found (net : Net) (campaign_id : string) (w : World) :
  (exists response,
     reports_endpoint net (requests w) campaign_id = Ret response /\
     status_code response = 404%Z) ->
  Robust.get_campaign_report net campaign_id w =
  (Ret None, after_get (ReqReport campaign_id) (Some 15%Z) w).
Proof.
  intros (response & Hres & Hs).
  unfold Robust.get_campaign_report. cbn [seq for_range].
  unfold mbind, M_bind, bind. rewrite report_attempt_step. cbv zeta.
  rewrite Hres. unfold report_of. rewrite Hs. reflexivity.
Qed.

Lemma make_row_without_report `{Platform} (newsletters_path : option string)
    (campaign : Campaign) (audience : string) :
  let row := Robust.make_row newsletters_path campaign audience None in
  row_get "Emails Sent" row = Some (VNum (PInt 0)) /\
  row_get "Unique Opens" row = Some (VNum (PInt 0)) /\
  row_get "Open Rate (%)" row = Some (VStr "0.00") /\
  row_get "Unique Clicks" row = Some (VNum (PInt 0)) /\
  row_get "Click Rate (%)" row = Some (VStr "0.00") /\
  row_get "Hard Bounces" row = Some (VNum (PInt 0)) /\
  row_get "Soft Bounces" row = Some (VNum (PInt 0)) /\
  row_get "Unsubscribes" row = Some (VNum (PInt 0)) /\
  metric_cells (writerow Robust.fieldnames row) = zero_metric_cells.
Proof.
  cbv zeta. unfold Robust.make_row, metric_cells, zero_metric_cells.
  cbn. rewrite format_2f_zero. repeat split; reflexivity.
Qed.

(** C4, as the code has it.  When the report request of a campaign is
    answered 404, [get_campaign_report] returns [None] after that single
    request (no retry, no exception), and the row exported for the campaign
    shows 0 in the six count fields (Emails Sent, Unique Opens, Unique
    Clicks, Hard Bounces, Soft Bounces, Unsubscribes) and the text 0.00 in
    the two rate fields (Open Rate (%), Click Rate (%)), which are always
    formatted with two decimals. *)
Theorem not_found_report_gives_zero_metrics `{Platform} (net : Net)
    (newsletters_path : option string) (output_file : string)
    (save_interval : Z) (i : nat) (campaign : Campaign) (st : LoopState)
    (w : World) :
  (forall n, exists response,
     reports_endpoint net n (campaign_id_of campaign) = Ret response /\
     status_code response = 404%Z) ->
  (forall w1,
     Robust.get_campaign_report net (campaign_id_of campaign) w1 =
     (Ret None, after_get (ReqReport (campaign_id_of campaign)) (Some 15%Z) w1)) /\
  (save_interval <> 0%Z ->
   exists row cache' w',
     Robust.process_campaign net newsletters_path output_file save_interval
       i campaign st w =
       (Ret {| list_cache := cache'; csv_data := csv_data st ++ [row] |}, w') /\
     row_campaign_id row = Some (VStr (campaign_id_of campaign)) /\
     row_get "Emails Sent" row = Some (VNum (PInt 0)) /\
     row_get "Unique Opens" row = Some (VNum (PInt 0)) /\
     row_get "Open Rate (%)" row = Some (VStr "0.00") /\
     row_get "Unique Clicks" row = Some (VNum (PInt 0)) /\
     row_get "Click Rate (%)" row = Some (VStr "0.00") /\
     row_get "Hard Bounces" row = Some (VNum (PInt 0)) /\
     row_get "Soft Bounces" row = Some (VNum (PInt 0)) /\
     row_get "Unsubscribes" row = Some (VNum (PInt 0)) /\
     metric_cells (writerow Robust.fieldnames row) = zero_metric_cells).
Proof.
  intros H404.
  assert (Hnone : forall w1,
    Robust.get_campaign_report net (campaign_id_of campaign) w1 =
    (Ret None, after_get (ReqReport (campaign_id_of campaign)) (Some 15%Z) w1)).
  { intros w1. apply robust_report_not_found, H404. }
  split; [exact Hnone|]. intros HN.
  destruct (robust_process_campaign_runs net newsletters_path output_file
              save_interval i campaign st w)
    as (audience & cache' & report & w1 & w2 & _ & _ & _ & Hr & _ & _ & Hrun).
  rewrite Hnone in Hr. injection Hr as <- <-.
  cbv zeta in Hrun. apply Z.eqb_neq in HN. rewrite HN in Hrun.
  do 3 eexists. split; [exact Hrun|].
  split; [reflexivity|]. apply make_row_without_report.
Qed.

Lemma not_found_report_gives_zero_metrics_witness :
  exists row cache' w',
    @Robust.process_campaign test_platform (static_net three_campaigns)
      (Some "mailchimp_newsletters") "out.csv" 50 1 (bare_campaign "c1")
      initial_state fresh_world =
      (Ret {| list_cache := cache'; csv_data := [row] |}, w') /\
    metric_cells (writerow Robust.fieldnames row) = zero_metric_cells.
Proof.
  assert (H404 : forall n : nat, exists response : Response Report,
            reports_endpoint (static_net three_campaigns) n
              (campaign_id_of (bare_campaign "c1")) = Ret response /\
            status_code response = 404%Z).
  { intros n. eexists. split; reflexivity. }
  assert (HN : 50%Z <> 0%Z) by discriminate.
  destruct (@not_found_report_gives_zero_metrics test_platform
              (static_net three_campaigns) (Some "mailchimp_newsletters")
              "out.csv" 50 1 (bare_campaign "c1") initial_state fresh_world H404)
    as [_ Hrow].
  destruct (Hrow HN) as (row & cache' & w' & Hrun & _ & _ & _ & _ & _ & _ & _ & _ & _ & Hcells).
  exists row, cache', w'. split; [exact Hrun | exact Hcells].
Defined.

(** C4 as stated fails on the two rate fields: for a campaign whose report
    is answered 404 the written record shows [0.00] there, not [0]. *)
Lemma not_found_report_rates_show_two_decimals :
  let run :=
    @Robust.generate_csv test_platform (static_net [bare_campaign "c1"]) 2
      "mailchimp_newsletters" "out.csv" 50 fresh_world in
  reports_endpoint (static_net [bare_campaign "c1"]) 1 "c1" =
    Ret {| status_code := 404; json := None |} /\
  disk (snd run) !! "out.csv" =
    Some {| header := Robust.fieldnames;
            records :=
              [[ VStr "c1"; VStr "No Subject"; VStr ""; VStr "Unknown";
                 VStr "Unknown"; VNum (PInt 0); VNum (PInt 0); VStr "0.00";
                 VNum (PInt 0); VStr "0.00"; VNum (PInt 0); VNum (PInt 0);
                 VNum (PInt 0); VStr "File not found" ]] |} /\
  VStr "0.00" <> VNum (PInt 0) /\
  VStr "0.00" <> VStr "0".
Proof.
  cbv zeta. split; [reflexivity|]. split; [vm_compute; reflexivity|].
  split; discriminate.
Qed.

(** ** Campaign ids of the exported rows *)

Lemma head_writerow_campaign_id (row : Row) :
  record_campaign_id (writerow Robust.fieldnames row) =
  Some (default (VStr "") (row_campaign_id row)).
Proof. reflexivity. Qed.

Lemma NoDup_map_injective {A B} (f : A -> B) (l : list A) :
  (forall x y, f x = f y -> x = y) ->
  NoDup (map f l) <-> NoDup l.
Proof.
  intros Hinj. change (map f l) with (f <$> l).
  apply NoDup_fmap. intros x y. apply Hinj.
Qed.

Lemma map_default_of_some {A B C} (g : A -> option B) (h : C -> B) (d : B)
    (rows : list A) : forall cs : list C,
  map g rows = map (fun c => Some (h c)) cs ->
  map (fun r => Some (default d (g r))) rows = map (fun c => Some (h c)) cs.
Proof.
  induction rows as [|r rows IH]; intros [|c cs] E; try discriminate.
  - reflexivity.
  - cbn in *. injection E as E1 E2. rewrite E1. cbn. f_equal. now apply IH.
Qed.

(** C9, as the code has it.  In a run of the robust [generate_csv] (with a
    non-zero interval) whose listing fetch returned the campaigns [cs], the
    Campaign ID column of the written file is, row by row, the id of the
    campaigns of [cs] (['N/A'] for a campaign without id): the rows are not
    deduplicated, and their ids are pairwise distinct exactly when the ids
    of the fetched campaigns are. *)
Theorem campaign_ids_follow_the_listing `{Platform} (net : Net) (fuel : nat)
    (newsletters_dir output_file : string) (save_interval : Z)
    (campaigns : list Campaign) (w w0 : World) :
  save_interval <> 0%Z ->
  Robust.get_all_campaigns net fuel w = (Ret (Some campaigns), w0) ->
  campaigns <> [] ->
  exists w_out file,
    Robust.generate_csv net fuel newsletters_dir output_file save_interval w =
      (Ret (Some (Some output_file)), w_out) /\
    disk w_out !! output_file = Some file /\
    header file = Robust.fieldnames /\
    campaign_id_column file =
      map (fun c => Some (VStr (campaign_id_of c))) campaigns /\
    (NoDup (campaign_id_column file) <-> NoDup (map campaign_id_of campaigns)).
Proof.
  intros HN Hfetch Hne.
  rewrite (robust_generate_csv_after_listing net fuel newsletters_dir
             output_file save_interval campaigns w w0 Hfetch).
  destruct campaigns as [|c cs]; [congruence|].
  destruct (robust_loop_returns net (newsletters_path_of newsletters_dir)
              output_file save_interval HN (c :: cs) 1 initial_state w0)
    as (rows & cache_end & w_end & Hrun & Hlen & Hids).
  rewrite Hrun. cbn [csv_data initial_state app].
  assert (Hcol : campaign_id_column (csv_file_of Robust.fieldnames rows) =
                 map (fun c => Some (VStr (campaign_id_of c))) (c :: cs)).
  { unfold campaign_id_column, csv_file_of. cbn [records].
    rewrite map_map.
    apply (map_default_of_some row_campaign_id
             (fun c => VStr (campaign_id_of c)) (VStr "")).
    exact Hids. }
  do 2 eexists. split; [reflexivity|]. cbn [disk].
  split; [apply lookup_insert_eq|]. split; [reflexivity|].
  split; [exact Hcol|]. rewrite Hcol.
  rewrite <- (map_map campaign_id_of (fun s => Some (VStr s))).
  apply NoDup_map_injective. intros x y E. congruence.
Qed.

Lemma campaign_ids_follow_the_listing_witness :
  exists w_out file,
    @Robust.generate_csv test_platform (static_net three_campaigns) 2
      "mailchimp_newsletters" "out.csv" 50 fresh_world =
      (Ret (Some (Some "out.csv")), w_out) /\
    disk w_out !! "out.csv" = Some file /\
    campaign_id_column file =
      [Some (VStr "c1"); Some (VStr "c2"); Some (VStr "c3")].
Proof.
  assert (HN : 50%Z <> 0%Z) by discriminate.
  assert (Hne : three_campaigns <> []) by discriminate.
  destruct (@campaign_ids_follow_the_listing test_platform
              (static_net three_campaigns) 2 "mailchimp_newsletters" "out.csv" 50
              three_campaigns fresh_world
              (snd (Robust.get_all_campaigns (static_net three_campaigns) 2 fresh_world))
              HN eq_refl Hne)
    as (w_out & file & Hgen & Hdisk & _ & Hcol & _).
  exists w_out, file. split; [exact Hgen|]. split; [exact Hdisk | exact Hcol].
Defined.

(** C9 as stated fails: the rows follow the pages as they come.  When a
    campaign is sent between two page requests, the campaign that closed
    the first page opens the second, and rows 1000 and 1001 of the file
    carry the same Campaign ID. *)
Lemma campaign_id_repeats_when_pages_overlap :
  let run :=
    @Robust.generate_csv test_platform drifting_net 3
      "mailchimp_newsletters" "out.csv" 50 fresh_world in
  exists file,
    disk (snd run) !! "out.csv" = Some file /\
    length (records file) = 1001 /\
    campaign_id_column file !! 999 = Some (Some (VStr "c999")) /\
    campaign_id_column file !! 1000 = Some (Some (VStr "c999")) /\
    ~ NoDup (campaign_id_column file).
Proof.
  cbv zeta.
  destruct (disk (snd (@Robust.generate_csv test_platform drifting_net 3
              "mailchimp_newsletters" "out.csv" 50 fresh_world)) !! "out.csv")
    as [file|] eqn:Hfile; [|vm_compute in Hfile; discriminate].
  exists file.
  assert (Hcol : campaign_id_column file !! 999 = Some (Some (VStr "c999")) /\
                 campaign_id_column file !! 1000 = Some (Some (VStr "c999")) /\
                 length (records file) = 1001).
  { assert (Hf : Some file = Some file) by reflexivity.
    rewrite <- Hfile in Hf at 1. clear Hfile.
    revert Hf. vm_compute. intros Hf. injection Hf as <-.
    vm_compute. repeat split; reflexivity. }
  destruct Hcol as (H999 & H1000 & Hlen).
  repeat split; try assumption.
  intros Hnd. rewrite NoDup_alt in Hnd.
  specialize (Hnd 999 1000 _ H999 H1000). discriminate.
Qed.

(** ** One audience lookup per list id *)

Lemma for_enumerate_invariant {St} (body : nat -> Campaign -> St -> M St)
    (I : St -> World -> Prop) (F : World -> Prop) :
  (forall i c st w, I st w ->
     match body i c st w with
     | (Ret st', w') => I st' w'
     | (Raise _, w') => F w'
     end) ->
  forall campaigns i st w, I st w ->
    match for_enumerate body i campaigns st w with
    | (Ret st', w') => I st' w'
    | (Raise _, w') => F w'
    end.
Proof.
  intros Hstep campaigns.
  induction campaigns as [|c cs IH]; intros i st w HI; [exact HI|].
  cbn [for_enumerate]. unfold mbind, M_bind, bind.
  specialize (Hstep i c st w HI).
  destruct (body i c st w) as [[st'|e] w']; [|exact Hstep].
  apply IH, Hstep.
Qed.

Lemma while_true_log_invariant {St R} (body : St -> M (ctl St R))
    (Q : World -> Prop) :
  (forall s w, Q w -> Q (snd (body s w))) ->
  forall fuel s w, Q w -> Q (snd (while_true fuel body s w)).
Proof.
  intros Hbody fuel. induction fuel as [|fuel IH]; intros s w HQ; [exact HQ|].
  cbn [while_true]. unfold mbind, M_bind, bind.
  specialize (Hbody s w HQ).
  destruct (body s w) as [[[s'|r]|e] w']; cbn in *; auto.
Qed.

Section Counting.

(** [p lid e]: the event [e] counts against the list id [lid]. *)
Variable p : string -> Event -> bool.
Hypothesis p_sleep : forall lid s, p lid (EvSleep s) = false.
Hypothesis p_page : forall lid o c t, p lid (EvGet (ReqCampaigns o c) t) = false.
Hypothesis p_report : forall lid cid t, p lid (EvGet (ReqReport cid) t) = false.
Hypothesis p_other_enter : forall lid lid',
  lid <> lid' -> p lid (EvEnter "get_list_name" lid') = false.
Hypothesis p_other_list : forall lid lid' t,
  lid <> lid' -> p lid (EvGet (ReqList lid') t) = false.

Lemma tally_app (q : Event -> bool) (l1 l2 : list Event) :
  tally q (l1 ++ l2) = tally q l1 + tally q l2.
Proof. unfold tally. now rewrite List.filter_app, length_app. Qed.

Lemma tally_report_attempts (lid cid : string) (t : option Z) (j : nat) :
  tally (p lid) (attempts_log (ReqReport cid) t j) = 0.
Proof.
  unfold attempts_log. rewrite tally_app.
  assert (Hlast : tally (p lid) [EvGet (ReqReport cid) t] = 0).
  { unfold tally. cbn. now rewrite p_report. }
  rewrite Hlast, Nat.add_0_r.
  induction j as [|j IH]; [reflexivity|].
  cbn [repeat concat]. rewrite tally_app, IH.
  unfold tally. cbn. now rewrite p_report, p_sleep.
Qed.

Lemma tally_other_list (lid lid' : string) (t : option Z) (j : nat) :
  lid <> lid' ->
  tally (p lid) (EvEnter "get_list_name" lid' :: attempts_log (ReqList lid') t j) = 0.
Proof.
  intros Hne.
  change (EvEnter "get_list_name" lid' :: attempts_log (ReqList lid') t j)
    with ([EvEnter "get_list_name" lid'] ++ attempts_log (ReqList lid') t j).
  unfold attempts_log. rewrite !tally_app.
  assert (H1 : tally (p lid) [EvEnter "get_list_name" lid'] = 0).
  { unfold tally. cbn. now rewrite p_other_enter. }
  assert (H2 : tally (p lid) [EvGet (ReqList lid') t] = 0).
  { unfold tally. cbn. now rewrite p_other_list. }
  rewrite H1, H2, Nat.add_0_r. cbn.
  induction j as [|j IH]; [reflexivity|].
  cbn [repeat concat]. rewrite tally_app, IH.
  unfold tally. cbn. now rewrite p_other_list, p_sleep.
Qed.

Lemma tally_pacing (lid : string) (i : nat) : tally (p lid) (pacing i) = 0.
Proof.
  unfold pacing. destruct (Z.of_nat i mod 10 =? 0)%Z; [|reflexivity].
  unfold tally. cbn. now rewrite p_sleep.
Qed.

Section RobustOnce.

Context `{Platform} (net : Net).
Variable k : nat.
Hypothesis k_bound : forall lid j, j <= 2 ->
  tally (p lid)
    (EvEnter "get_list_name" lid :: attempts_log (ReqList lid) (Some 15%Z) j) <= k.

Variable base : string -> nat.

Let I (st : LoopState) (w : World) : Prop :=
  forall lid, tally (p lid) (log w) <= base lid + cache_weight k (list_cache st) lid.

Let F (w : World) : Prop :=
  forall lid, tally (p lid) (log w) <= base lid + k.

Lemma cache_weight_le (cache : gmap string string) (lid : string) :
  cache_weight k cache lid <= k.
Proof. unfold cache_weight. destruct (cache !! lid); lia. Qed.

Lemma robust_step_invariant (newsletters_path : option string)
    (output_file : string) (save_interval : Z) (i : nat) (campaign : Campaign)
    (st : LoopState) (w : World) :
  I st w ->
  match Robust.process_campaign net newsletters_path output_file save_interval
          i campaign st w with
  | (Ret st', w') => I st' w'
  | (Raise _, w') => F w'
  end.
Proof.
  intros HI.
  destruct (robust_process_campaign_runs net newsletters_path output_file
              save_interval i campaign st w)
    as (audience & cache' & report & w1 & w2 & _ & _ & Hcase & _ & _ & Hlog2 & Hrun).
  cbv zeta in Hrun. destruct Hlog2 as (j2 & _ & Hlog2).
  assert (Hw2 : forall lid,
    tally (p lid) (log w2) <= base lid + cache_weight k cache' lid).
  { intros lid. rewrite Hlog2, tally_app, tally_report_attempts, Nat.add_0_r.
    destruct Hcase as [[-> ->] | (lid1 & name & j & Hj & Hmiss & -> & Hlog1)].
    - apply HI.
    - rewrite Hlog1, tally_app. specialize (HI lid).
      unfold cache_weight in *.
      destruct (decide (lid1 = lid)) as [->|Hne].
      + rewrite lookup_insert_eq. rewrite Hmiss in HI.
        specialize (k_bound lid j Hj). lia.
      + rewrite lookup_insert_ne by exact Hne.
        rewrite tally_other_list by congruence. lia. }
  rewrite Hrun. destruct (save_interval =? 0)%Z.
  - intros lid. specialize (Hw2 lid).
    pose proof (cache_weight_le cache' lid). lia.
  - intros lid. cbn [log list_cache].
    rewrite tally_app, tally_pacing, Nat.add_0_r. apply Hw2.
Qed.

End RobustOnce.

Lemma tally_snoc_zero (lid : string) (l : list Event) (e : Event) :
  p lid e = false -> tally (p lid) (l ++ [e]) = tally (p lid) l.
Proof.
  intros He. rewrite tally_app. unfold tally at 2. cbn. rewrite He. cbn. lia.
Qed.

Lemma robust_page_tally (net : Net) (lid : string) (count : nat)
    (s : list Campaign * nat) (w : World) :
  tally (p lid) (log (snd (Robust.page_body net count s w))) =
  tally (p lid) (log w).
Proof.
  destruct s as [acc offset].
  unfold Robust.page_body, try_except, mbind, M_bind, bind, http_get, response_json.
  destruct (campaigns_endpoint net (requests w) offset count) as [response|e].
  - destruct (negb (status_code response =? 200)%Z);
      [cbn -[tally Nat.ltb]; now rewrite tally_snoc_zero by apply p_page|].
    destruct (json response) as [data|];
      [|cbn -[tally Nat.ltb]; now rewrite tally_snoc_zero by apply p_page].
    cbn -[tally Nat.ltb]. destruct (default [] (campaigns_key data)) as [|c page];
      [cbn -[tally Nat.ltb]; now rewrite tally_snoc_zero by apply p_page|].
    destruct (length (c :: page) <? count)%nat;
      cbn -[tally Nat.ltb]; now rewrite tally_snoc_zero by apply p_page.
  - destruct e; cbn -[tally Nat.ltb];
      rewrite ?(tally_snoc_zero lid _ (EvSleep 2)) by apply p_sleep;
      now rewrite tally_snoc_zero by apply p_page.
Qed.

Lemma robust_generate_tally `{Platform} (net : Net) (k : nat) :
  (forall lid j, j <= 2 ->
     tally (p lid)
       (EvEnter "get_list_name" lid :: attempts_log (ReqList lid) (Some 15%Z) j)
     <= k) ->
  forall (fuel : nat) (newsletters_dir output_file : string)
         (save_interval : Z) (w : World) (lid : string),
  tally (p lid)
    (log (snd (Robust.generate_csv net fuel newsletters_dir output_file
                 save_interval w))) <=
  tally (p lid) (log w) + k.
Proof.
  intros Hk fuel newsletters_dir output_file save_interval w lid.
  unfold Robust.generate_csv. unfold mbind at 1, M_bind at 1, bind at 1.
  assert (Hfetch : forall lid0,
    tally (p lid0) (log (snd (Robust.get_all_campaigns net fuel w))) =
    tally (p lid0) (log w)).
  { intros lid0. unfold Robust.get_all_campaigns, Robust.get_all_campaigns_with.
    apply (while_true_log_invariant (Robust.page_body net 1000)
             (fun w' => tally (p lid0) (log w') = tally (p lid0) (log w)));
      [|reflexivity].
    intros s w' Hw'. now rewrite robust_page_tally. }
  destruct (Robust.get_all_campaigns net fuel w) as [[[campaigns|]|e] w0];
    cbn [snd] in Hfetch; try (cbn -[tally]; rewrite Hfetch; lia).
  destruct campaigns as [|c cs]; [cbn -[tally]; rewrite Hfetch; lia|].
  unfold mbind at 1, M_bind at 1, bind at 1.
  pose proof (for_enumerate_invariant _ _ _
    (fun i c st w => robust_step_invariant net k Hk
       (fun lid0 => tally (p lid0) (log w0))
       (if path_exists newsletters_dir then Some newsletters_dir else None)
       output_file save_interval i c st w)
    (c :: cs) 1 {| list_cache := ∅; csv_data := [] |} w0) as Hloop.
  cbv beta in Hloop.
  assert (Hinit : forall lid0, tally (p lid0) (log w0) <=
            tally (p lid0) (log w0) + cache_weight k ∅ lid0).
  { intros lid0. lia. }
  specialize (Hloop Hinit).
  destruct (for_enumerate _ 1 (c :: cs) _ w0) as [[st|e] w'].
  - unfold Robust.save_progress, write_csv, mbind, M_bind, bind, mret, M_ret, ret.
    cbn -[tally]. specialize (Hloop lid). rewrite Hfetch in Hloop.
    pose proof (cache_weight_le k (list_cache st) lid). lia.
  - cbn -[tally]. specialize (Hloop lid). rewrite Hfetch in Hloop. exact Hloop.
Qed.

Lemma basic_page_tally (net : Net) (lid : string) (count : nat)
    (s : list Campaign * nat) (w : World) :
  tally (p lid) (log (snd (Basic.page_body net count s w))) =
  tally (p lid) (log w).
Proof.
  destruct s as [acc offset].
  unfold Basic.page_body, mbind, M_bind, bind, http_get, response_json.
  destruct (campaigns_endpoint net (requests w) offset count) as [response|e];
    [|cbn -[tally Nat.ltb]; now rewrite tally_snoc_zero by apply p_page].
  destruct (negb (status_code response =? 200)%Z);
    [cbn -[tally Nat.ltb]; now rewrite tally_snoc_zero by apply p_page|].
  destruct (json response) as [data|];
    [|cbn -[tally Nat.ltb]; now rewrite tally_snoc_zero by apply p_page].
  cbn -[tally Nat.ltb]. destruct (default [] (campaigns_key data)) as [|c page];
    [cbn -[tally Nat.ltb]; now rewrite tally_snoc_zero by apply p_page|].
  destruct (length (c :: page) <? count)%nat;
    cbn -[tally Nat.ltb]; now rewrite tally_snoc_zero by apply p_page.
Qed.

Lemma basic_list_name_log (net : Net) (lid : string) (w : World) :
  log (snd (Basic.get_list_name net lid w)) =
  log w ++ [EvEnter "get_list_name" lid; EvGet (ReqList lid) None].
Proof.
  unfold Basic.get_list_name, emit, mbind, M_bind, bind, http_get, response_json.
  cbn.
  destruct (lists_endpoint net (requests w) lid) as [response|e];
    [|cbn; now rewrite <- app_assoc].
  destruct (status_code response =? 200)%Z; [|cbn; now rewrite <- app_assoc].
  destruct (json response); cbn; now rewrite <- app_assoc.
Qed.

Lemma basic_report_log (net : Net) (campaign_id : string) (w : World) :
  log (snd (Basic.get_campaign_report net campaign_id w)) =
  log w ++ [EvGet (ReqReport campaign_id) None].
Proof.
  unfold Basic.get_campaign_report, mbind, M_bind, bind, http_get, response_json.
  destruct (reports_endpoint net (requests w) campaign_id) as [response|e];
    [|reflexivity].
  destruct (status_code response =? 200)%Z; [|reflexivity].
  destruct (json response); reflexivity.
Qed.

Section BasicOnce.

Context `{Platform} (net : Net).
Variable k : nat.
Hypothesis k_bound : forall lid,
  tally (p lid) [EvEnter "get_list_name" lid; EvGet (ReqList lid) None] <= k.

Variable base : string -> nat.

Let I (st : LoopState) (w : World) : Prop :=
  forall lid, tally (p lid) (log w) <= base lid + cache_weight k (list_cache st) lid.

Let F (w : World) : Prop :=
  forall lid, tally (p lid) (log w) <= base lid + k.

Lemma tally_other_list_basic (lid lid' : string) :
  lid <> lid' ->
  tally (p lid) [EvEnter "get_list_name" lid'; EvGet (ReqList lid') None] = 0.
Proof.
  intros Hne. unfold tally. cbn.
  now rewrite p_other_enter, p_other_list.
Qed.

(** The report fetch and the rest of the iteration keep the tallies. *)
Lemma basic_rest_invariant (campaign_id : string) (cache : gmap string string)
    (kont : option Report -> M LoopState) (w : World) :
  (forall report w1,
     exists st', kont report w1 = (Ret st', w1) /\ list_cache st' = cache) ->
  (forall lid, tally (p lid) (log w) <= base lid + cache_weight k cache lid) ->
  match (Basic.get_campaign_report net campaign_id ≫= kont) w with
  | (Ret st', w') => I st' w'
  | (Raise _, w') => F w'
  end.
Proof.
  intros Hkont Hw. unfold mbind, M_bind, bind.
  pose proof (basic_report_log net campaign_id w) as Hlog.
  destruct (Basic.get_campaign_report net campaign_id w) as [[report|e] w1];
    cbn [snd] in Hlog.
  - destruct (Hkont report w1) as (st' & -> & Hcache).
    intros lid. rewrite Hcache, Hlog.
    rewrite tally_snoc_zero by apply p_report. apply Hw.
  - intros lid. rewrite Hlog.
    rewrite tally_snoc_zero by apply p_report. specialize (Hw lid).
    pose proof (cache_weight_le k cache lid). lia.
Qed.

Lemma basic_step_invariant (newsletters_path : option string) (i : nat)
    (campaign : Campaign) (st : LoopState) (w : World) :
  I st w ->
  match Basic.process_campaign net newsletters_path i campaign st w with
  | (Ret st', w') => I st' w'
  | (Raise _, w') => F w'
  end.
Proof.
  intros HI. unfold Basic.process_campaign.
  destruct (list_id (default no_recipients (c_recipients campaign)))
    as [[|a l]|] eqn:Hlid.
  - unfold mbind at 1, M_bind at 1, bind at 1. cbn [mret M_ret ret].
    apply (basic_rest_invariant _ (list_cache st));
      [intros; eexists; split; reflexivity | exact HI].
  - destruct (list_cache st !! String a l) as [name|] eqn:Hc.
    + unfold mbind at 1, M_bind at 1, bind at 1. cbn [mret M_ret ret].
      apply (basic_rest_invariant _ (list_cache st));
      [intros; eexists; split; reflexivity | exact HI].
    + unfold mbind at 1, M_bind at 1, bind at 1.
      unfold mbind at 1, M_bind at 1, bind at 1.
      pose proof (basic_list_name_log net (String a l) w) as Hlog.
      destruct (Basic.get_list_name net (String a l) w) as [[name|e] w1];
        cbn [snd] in Hlog.
      * cbn [mret M_ret ret].
        apply (basic_rest_invariant _ (<[String a l := name]> (list_cache st)));
          [intros; eexists; split; reflexivity|].
        intros lid. rewrite Hlog, tally_app. specialize (HI lid).
        unfold cache_weight in *.
        destruct (decide (String a l = lid)) as [<-|Hne].
        -- rewrite lookup_insert_eq. rewrite Hc in HI.
           specialize (k_bound (String a l)). lia.
        -- rewrite lookup_insert_ne by exact Hne.
           rewrite tally_other_list_basic by congruence. lia.
      * intros lid. rewrite Hlog, tally_app. specialize (HI lid).
        unfold cache_weight in HI.
        destruct (decide (String a l = lid)) as [<-|Hne].
        -- rewrite Hc in HI. specialize (k_bound (String a l)). lia.
        -- rewrite tally_other_list_basic by congruence.
           destruct (list_cache st !! lid); lia.
  - unfold mbind at 1, M_bind at 1, bind at 1. cbn [mret M_ret ret].
    apply (basic_rest_invariant _ (list_cache st));
      [intros; eexists; split; reflexivity | exact HI].
Qed.

End BasicOnce.

Lemma basic_generate_tally `{Platform} (net : Net) (k : nat) :
  (forall lid,
     tally (p lid) [EvEnter "get_list_name" lid; EvGet (ReqList lid) None] <= k) ->
  forall (fuel : nat) (newsletters_dir output_file : string) (w : World)
         (lid : string),
  tally (p lid)
    (log (snd (Basic.generate_csv net fuel newsletters_dir output_file w))) <=
  tally (p lid) (log w) + k.
Proof.
  intros Hk fuel newsletters_dir output_file w lid.
  unfold Basic.generate_csv. unfold mbind at 1, M_bind at 1, bind at 1.
  assert (Hfetch : forall lid0,
    tally (p lid0) (log (snd (Basic.get_all_campaigns net fuel w))) =
    tally (p lid0) (log w)).
  { intros lid0. unfold Basic.get_all_campaigns, Basic.get_all_campaigns_with.
    apply (while_true_log_invariant (Basic.page_body net 1000)
             (fun w' => tally (p lid0) (log w') = tally (p lid0) (log w)));
      [|reflexivity].
    intros s w' Hw'. now rewrite basic_page_tally. }
  destruct (Basic.get_all_campaigns net fuel w) as [[[campaigns|]|e] w0];
    cbn [snd] in Hfetch; try (cbn -[tally]; rewrite Hfetch; lia).
  destruct campaigns as [|c cs]; [cbn -[tally]; rewrite Hfetch; lia|].
  unfold mbind at 1, M_bind at 1, bind at 1.
  pose proof (for_enumerate_invariant _ _ _
    (fun i c st w => basic_step_invariant net k Hk
       (fun lid0 => tally (p lid0) (log w0))
       (if path_exists newsletters_dir then Some newsletters_dir else None)
       i c st w)
    (c :: cs) 1 {| list_cache := ∅; csv_data := [] |} w0) as Hloop.
  cbv beta in Hloop.
  assert (Hinit : forall lid0, tally (p lid0) (log w0) <=
            tally (p lid0) (log w0) + cache_weight k ∅ lid0).
  { intros lid0. lia. }
  specialize (Hloop Hinit).
  destruct (for_enumerate _ 1 (c :: cs) _ w0) as [[st|e] w'].
  - unfold write_csv, mbind, M_bind, bind, mret, M_ret, ret.
    cbn -[tally]. specialize (Hloop lid). rewrite Hfetch in Hloop.
    pose proof (cache_weight_le k (list_cache st) lid). lia.
  - cbn -[tally]. specialize (Hloop lid). rewrite Hfetch in Hloop. exact Hloop.
Qed.

End Counting.

Lemma tally_attempts_le (q : Event -> bool) (r : Request) (t : option Z) (j : nat) :
  q (EvSleep 2) = false ->
  tally q (attempts_log r t j) <= j + 1.
Proof.
  intros Hs. unfold attempts_log. rewrite tally_app.
  assert (Hlast : tally q [EvGet r t] <= 1).
  { unfold tally. cbn. destruct (q (EvGet r t)); cbn; lia. }
  assert (Hblocks : tally q (concat (repeat [EvGet r t; EvSleep 2] j)) <= j).
  { induction j as [|j IH]; [cbn; lia|].
    cbn [repeat concat]. rewrite tally_app.
    assert (tally q [EvGet r t; EvSleep 2] <= 1).
    { unfold tally. cbn. rewrite Hs. destruct (q (EvGet r t)); cbn; lia. }
    lia. }
  lia.
Qed.

Lemma tally_attempts_zero (q : Event -> bool) (r : Request) (t : option Z) (j : nat) :
  q (EvSleep 2) = false ->
  q (EvGet r t) = false ->
  tally q (attempts_log r t j) = 0.
Proof.
  intros Hs Hg. unfold attempts_log. rewrite tally_app.
  assert (Hlast : tally q [EvGet r t] = 0) by (unfold tally; cbn; now rewrite Hg).
  rewrite Hlast, Nat.add_0_r.
  induction j as [|j IH]; [reflexivity|].
  cbn [repeat concat]. rewrite tally_app, IH.
  unfold tally. cbn. now rewrite Hg, Hs.
Qed.

Lemma is_enter_other (lid lid' : string) :
  lid <> lid' -> is_enter "get_list_name" lid (EvEnter "get_list_name" lid') = false.
Proof.
  intros Hne. cbn. apply String.eqb_neq. congruence.
Qed.

Lemma is_list_request_other (lid lid' : string) (t : option Z) :
  lid <> lid' -> is_list_request lid (EvGet (ReqList lid') t) = false.
Proof.
  intros Hne. cbn. apply String.eqb_neq. congruence.
Qed.

Lemma is_enter_same (lid : string) :
  is_enter "get_list_name" lid (EvEnter "get_list_name" lid) = true.
Proof. cbn. apply String.eqb_refl. Qed.

(** C6. In one run of [generate_csv], of either generator and whatever the
    remote API answers, [get_list_name] is entered at most once for each
    list id, however many campaigns name that list: every later campaign is
    served from the cache (a failed lookup caches ['Unknown'] as well).
    Each entry is one [GET /lists/{id}] in the basic generator and at most
    three (the retries after a timeout) in the robust one. *)
Theorem list_name_looked_up_once_per_list `{Platform} (net : Net) (fuel : nat)
    (newsletters_dir output_file : string) (save_interval : Z) (w : World)
    (lid : string) :
  let robust :=
    Robust.generate_csv net fuel newsletters_dir output_file save_interval w in
  let basic := Basic.generate_csv net fuel newsletters_dir output_file w in
  count_enters "get_list_name" lid (log (snd robust)) <=
    count_enters "get_list_name" lid (log w) + 1 /\
  count_enters "get_list_name" lid (log (snd basic)) <=
    count_enters "get_list_name" lid (log w) + 1 /\
  (forall w1,
     count_enters "get_list_name" lid (log (snd (Robust.get_list_name net lid w1))) =
     count_enters "get_list_name" lid (log w1) + 1) /\
  (forall w1,
     count_enters "get_list_name" lid (log (snd (Basic.get_list_name net lid w1))) =
     count_enters "get_list_name" lid (log w1) + 1) /\
  tally (is_list_request lid) (log (snd basic)) <=
    tally (is_list_request lid) (log w) + 1 /\
  tally (is_list_request lid) (log (snd robust)) <=
    tally (is_list_request lid) (log w) + 3.
Proof.
  cbv zeta.
  change (count_enters "get_list_name") with
    (fun a l => tally (is_enter "get_list_name" a) l). cbv beta.
  split; [|split; [|split; [|split; [|split]]]].
  - apply (robust_generate_tally (is_enter "get_list_name")); try reflexivity.
    + intros ? ?. apply is_enter_other.
    + intros lid0 j Hj.
      change (EvEnter "get_list_name" lid0 :: attempts_log (ReqList lid0) (Some 15%Z) j)
        with ([EvEnter "get_list_name" lid0] ++ attempts_log (ReqList lid0) (Some 15%Z) j).
      rewrite tally_app, tally_attempts_zero by reflexivity.
      unfold tally. cbn [List.filter]. rewrite is_enter_same. cbn. lia.
  - apply (basic_generate_tally (is_enter "get_list_name")); try reflexivity.
    + intros ? ?. apply is_enter_other.
    + intros lid0. unfold tally. cbn [List.filter]. rewrite is_enter_same. cbn. lia.
  - intros w1.
    destruct (robust_list_name_returns net lid w1) as (name & j & _ & ->).
    cbn [snd log].
    change (EvEnter "get_list_name" lid :: attempts_log (ReqList lid) (Some 15%Z) j)
      with ([EvEnter "get_list_name" lid] ++ attempts_log (ReqList lid) (Some 15%Z) j).
    rewrite !tally_app, tally_attempts_zero by reflexivity.
    unfold tally at 2. cbn [List.filter]. rewrite is_enter_same. cbn. lia.
  - intros w1. rewrite basic_list_name_log, tally_app.
    unfold tally at 2. cbn [List.filter]. rewrite is_enter_same. cbn. lia.
  - apply (basic_generate_tally is_list_request); try reflexivity.
    + intros ? ? ?. apply is_list_request_other.
    + intros lid0. unfold tally. cbn. destruct (String.eqb lid0 lid0); cbn; lia.
  - apply (robust_generate_tally is_list_request); try reflexivity.
    + intros ? ? ?. apply is_list_request_other.
    + intros lid0 j Hj.
      change (EvEnter "get_list_name" lid0 :: attempts_log (ReqList lid0) (Some 15%Z) j)
        with ([EvEnter "get_list_name" lid0] ++ attempts_log (ReqList lid0) (Some 15%Z) j).
      rewrite tally_app.
      pose proof (tally_attempts_le (is_list_request lid0) (ReqList lid0)
                    (Some 15%Z) j eq_refl).
      unfold tally at 1. cbn. lia.
Qed.

(** ** The two generators on runs without failures *)

Section Agreement.

Context `{Platform} (net : Net).
Hypothesis net_ok : all_ok net.

Lemma basic_list_name_ok (lid : string) (w : World) :
  exists info,
    lists_endpoint net (requests w) lid = ok info /\
    Basic.get_list_name net lid w =
    (Ret (default "Unknown" (name_key info)),
     {| requests := S (requests w);
        log := log w ++ [EvEnter "get_list_name" lid; EvGet (ReqList lid) None];
        disk := disk w |}).
Proof.
  destruct net_ok as (_ & _ & Hlists).
  destruct (Hlists (requests w) lid) as [info Hinfo]. exists info.
  split; [exact Hinfo|].
  unfold Basic.get_list_name, emit, mbind, M_bind, bind, http_get, response_json.
  cbn. rewrite Hinfo. cbn. rewrite <- ?app_assoc. reflexivity.
Qed.

Lemma robust_list_name_ok (lid : string) (w : World) :
  exists info,
    lists_endpoint net (requests w) lid = ok info /\
    Robust.get_list_name net lid w =
    (Ret (default "Unknown" (name_key info)),
     {| requests := S (requests w);
        log := log w ++ [EvEnter "get_list_name" lid;
                         EvGet (ReqList lid) (Some 15%Z)];
        disk := disk w |}).
Proof.
  destruct net_ok as (_ & _ & Hlists).
  destruct (Hlists (requests w) lid) as [info Hinfo]. exists info.
  split; [exact Hinfo|].
  unfold Robust.get_list_name, emit. cbn [seq for_range].
  unfold mbind, M_bind, bind. rewrite list_attempt_step. cbv zeta.
  cbn [requests]. rewrite Hinfo. unfold after_get, mret, M_ret, ret. cbn.
  rewrite <- ?app_assoc. reflexivity.
Qed.

Lemma basic_report_ok (campaign_id : string) (w : World) :
  exists report,
    reports_endpoint net (requests w) campaign_id = ok report /\
    Basic.get_campaign_report net campaign_id w =
    (Ret (Some report),
     {| requests := S (requests w);
        log := log w ++ [EvGet (ReqReport campaign_id) None];
        disk := disk w |}).
Proof.
  destruct net_ok as (_ & Hreports & _).
  destruct (Hreports (requests w) campaign_id) as [report Hreport].
  exists report. split; [exact Hreport|].
  unfold Basic.get_campaign_report, mbind, M_bind, bind, http_get, response_json.
  rewrite Hreport. reflexivity.
Qed.

Lemma robust_report_ok (campaign_id : string) (w : World) :
  exists report,
    reports_endpoint net (requests w) campaign_id = ok report /\
    Robust.get_campaign_report net campaign_id w =
    (Ret (Some report),
     {| requests := S (requests w);
        log := log w ++ [EvGet (ReqReport campaign_id) (Some 15%Z)];
        disk := disk w |}).
Proof.
  destruct net_ok as (_ & Hreports & _).
  destruct (Hreports (requests w) campaign_id) as [report Hreport].
  exists report. split; [exact Hreport|].
  unfold Robust.get_campaign_report. cbn [seq for_range].
  unfold mbind, M_bind, bind. rewrite report_attempt_step. cbv zeta.
  rewrite Hreport. reflexivity.
Qed.

(** The listing fetch: same campaigns, same number of requests. *)
Lemma listing_agrees (count fuel : nat) :
  forall (s : list Campaign * nat) (w1 w2 : World),
  requests w1 = requests w2 ->
  exists r w1' w2',
    while_true fuel (Basic.page_body net count) s w1 = (Ret r, w1') /\
    while_true fuel (Robust.page_body net count) s w2 = (Ret r, w2') /\
    requests w1' = requests w2' /\
    disk w1' = disk w1 /\ disk w2' = disk w2.
Proof.
  induction fuel as [|fuel IH]; intros [acc offset] w1 w2 Hreq.
  - exists None, w1, w2. auto.
  - destruct net_ok as (Hpages & _ & _).
    destruct (Hpages (requests w1) offset count) as [data Hpage].
    cbn [while_true]. unfold mbind, M_bind, bind.
    rewrite (basic_page_answered count net acc offset data w1 Hpage).
    rewrite Hreq in Hpage.
    rewrite (robust_page_answered count net acc offset data w2 Hpage).
    destruct (decide_page count acc offset (default [] (campaigns_key data)))
      as [s'|r].
    + destruct (IH s' (after_get (ReqCampaigns offset count) None w1)
                  (after_get (ReqCampaigns offset count) (Some 30%Z) w2))
        as (r & w1' & w2' & H1 & H2 & Hr & Hd1 & Hd2); [cbn; congruence|].
      exists r, w1', w2'. auto.
    + do 3 eexists. repeat split; cbn; congruence.
Qed.

Lemma ok_injective {A} (a b : A) : ok a = ok b -> a = b.
Proof. unfold ok. congruence. Qed.

Variable newsletters_path : option string.
Variable output_file : string.
Variable save_interval : Z.
Hypothesis interval_nonzero : save_interval <> 0%Z.

Ltac step_list_name :=
  match goal with
  | |- context [Basic.get_list_name net ?lid ?w1] =>
      match goal with
      | |- context [Robust.get_list_name net lid ?w2] =>
          let info := fresh "info" in
          let info' := fresh "info" in
          let E1 := fresh "E" in
          let E2 := fresh "E" in
          destruct (basic_list_name_ok lid w1) as (info & E1 & ->);
          destruct (robust_list_name_ok lid w2) as (info' & E2 & ->);
          assert (info' = info) as ->
            by (apply ok_injective; rewrite <- E1, <- E2; cbn in *; congruence)
      end
  end.

Ltac step_report :=
  match goal with
  | |- context [Basic.get_campaign_report net ?cid ?w1] =>
      match goal with
      | |- context [Robust.get_campaign_report net cid ?w2] =>
          let r := fresh "report" in
          let r' := fresh "report" in
          let E1 := fresh "E" in
          let E2 := fresh "E" in
          destruct (basic_report_ok cid w1) as (r & E1 & ->);
          destruct (robust_report_ok cid w2) as (r' & E2 & ->);
          assert (r' = r) as ->
            by (apply ok_injective; rewrite <- E1, <- E2; cbn in *; congruence)
      end
  end.

Lemma agree_off_checkpoint (i : nat) (rows : list Row) (w1 w2 : World) (l1 l2 : list Event) :
  agree_off output_file w1 w2 ->
  agree_off output_file
    {| requests := S (requests w1); log := l1; disk := disk w1 |}
    {| requests := S (requests w2); log := l2;
       disk := checkpoint output_file save_interval i rows (disk w2) |}.
Proof.
  intros [Hr Hd]. split; cbn; [congruence|].
  unfold checkpoint. destruct (Z.of_nat i mod save_interval =? 0)%Z; [|exact Hd].
  now rewrite delete_insert_eq.
Qed.

Ltac finish_iteration i Hreq Hd :=
  unfold py_mod, Robust.save_progress, write_csv, sleep, emit;
  apply Z.eqb_neq in interval_nonzero; rewrite interval_nonzero;
  change (10 =? 0)%Z with false;
  unfold mbind, M_bind, bind, mret, M_ret, ret, raise;
  cbn -[Z.modulo Z.eqb Z.of_nat Robust.make_row];
  destruct (Z.of_nat i mod save_interval =? 0)%Z;
  cbn -[Z.modulo Z.eqb Z.of_nat Robust.make_row];
  destruct (Z.of_nat i mod 10 =? 0)%Z;
  cbn -[Z.modulo Z.eqb Z.of_nat Robust.make_row];
  (do 3 eexists; split; [reflexivity|]; split; [reflexivity|];
   split; cbn; [congruence|]; rewrite ?delete_insert_eq; exact Hd).

(** One iteration: the same new state, worlds that still agree. *)
Lemma iteration_agrees (i : nat) (campaign : Campaign) (st : LoopState)
    (w1 w2 : World) :
  agree_off output_file w1 w2 ->
  exists st' w1' w2',
    Basic.process_campaign net newsletters_path i campaign st w1 = (Ret st', w1') /\
    Robust.process_campaign net newsletters_path output_file save_interval
      i campaign st w2 = (Ret st', w2') /\
    agree_off output_file w1' w2'.
Proof.
  intros [Hreq Hd].
  unfold Basic.process_campaign, Robust.process_campaign, Robust.resolve_audience.
  destruct (list_id (default no_recipients (c_recipients campaign)))
    as [[|a l]|] eqn:Hlid.
  - unfold mbind at 1 2 3, M_bind at 1 2 3, bind at 1 2 3.
    cbn [mret M_ret ret].
    destruct (segment_opts (default no_recipients (c_recipients campaign)))
      as [[|o os]|]; unfold mbind at 1 2, M_bind at 1 2, bind at 1 2;
      cbn [mret M_ret ret]; step_report; finish_iteration i Hreq Hd.
  - destruct (list_cache st !! String a l) as [name|] eqn:Hc.
    + unfold mbind at 1 2 3, M_bind at 1 2 3, bind at 1 2 3.
      cbn [mret M_ret ret].
      destruct (segment_opts (default no_recipients (c_recipients campaign)))
        as [[|o os]|]; unfold mbind at 1 2, M_bind at 1 2, bind at 1 2;
        cbn [mret M_ret ret]; step_report; finish_iteration i Hreq Hd.
    + unfold mbind, M_bind, bind.
      step_list_name. cbn [mret M_ret ret].
      destruct (segment_opts (default no_recipients (c_recipients campaign)))
        as [[|o os]|]; cbn [mret M_ret ret]; step_report;
        finish_iteration i Hreq Hd.
  - unfold mbind at 1 2 3, M_bind at 1 2 3, bind at 1 2 3.
    cbn [mret M_ret ret].
    destruct (segment_opts (default no_recipients (c_recipients campaign)))
      as [[|o os]|]; unfold mbind at 1 2, M_bind at 1 2, bind at 1 2;
      cbn [mret M_ret ret]; step_report; finish_iteration i Hreq Hd.
Qed.

(** The whole loop: the same rows, worlds that still agree. *)
Lemma loop_agrees (campaigns : list Campaign) :
  forall (i : nat) (st : LoopState) (w1 w2 : World),
  agree_off output_file w1 w2 ->
  exists st' w1' w2',
    for_enumerate (Basic.process_campaign net newsletters_path) i campaigns st w1 =
      (Ret st', w1') /\
    for_enumerate
      (Robust.process_campaign net newsletters_path output_file save_interval)
      i campaigns st w2 = (Ret st', w2') /\
    agree_off output_file w1' w2'.
Proof.
  induction campaigns as [|c cs IH]; intros i st w1 w2 Hagree.
  - exists st, w1, w2. auto.
  - destruct (iteration_agrees i c st w1 w2 Hagree)
      as (st1 & w1a & w2a & Hb & Hr & Hagree1).
    destruct (IH (S i) st1 w1a w2a Hagree1)
      as (st' & w1' & w2' & Hb' & Hr' & Hagree').
    exists st', w1', w2'. cbn [for_enumerate]. unfold mbind, M_bind, bind.
    rewrite Hb, Hr. auto.
Qed.

End Agreement.



(** On two campaigns of one list the robust generator writes two rows and looks the list
    name up once. *)
Example generators_example_run :
  let run :=
    @Robust.generate_csv test_platform (complete_net two_listed_campaigns) 2
      "mailchimp_newsletters" "out.csv" 50 fresh_world in
  fst run = Ret (Some (Some "out.csv")) /\
  (records <$> disk (snd run) !! "out.csv") =
    Some [[ VStr "c1"; VStr "Hello"; VStr ""; VStr "Subscribers";
            VStr "2024-01-05T10:00:00+0000"; VNum (PInt 100); VNum (PInt 50);
            VStr "0.00"; VNum (PInt 0); VStr "0.00"; VNum (PInt 0);
            VNum (PInt 0); VNum (PInt 0); VStr "File not found" ];
          [ VStr "c2"; VStr "Hello"; VStr ""; VStr "Subscribers";
            VStr "2024-01-05T10:00:00+0000"; VNum (PInt 100); VNum (PInt 50);
            VStr "0.00"; VNum (PInt 0); VStr "0.00"; VNum (PInt 0);
            VNum (PInt 0); VNum (PInt 0); VStr "File not found" ]] /\
  count_enters "get_list_name" "L1" (log (snd run)) = 1.
Proof. vm_compute. repeat split; reflexivity. Qed.

(** * Further properties of the generators *)

(** ** What a run returns and what it writes *)

Lemma robust_page_returns (net : Net) (count : nat) (s : list Campaign * nat)
    (w : World) :
  exists c w',
    Robust.page_body net count s w = (Ret c, w') /\ disk w' = disk w.
Proof.
  destruct s as [acc offset].
  unfold Robust.page_body, try_except, mbind, M_bind, bind, http_get, response_json.
  destruct (campaigns_endpoint net (requests w) offset count) as [response|e].
  - destruct (negb (status_code response =? 200)%Z); [cbn; eauto|].
    destruct (json response) as [data|]; [|cbn; eauto].
    cbn -[Nat.ltb]. destruct (default [] (campaigns_key data)) as [|c page];
      [cbn; eauto|].
    destruct (length (c :: page) <? count)%nat; cbn; eauto.
  - destruct e; cbn; eauto.
Qed.

Lemma robust_listing_returns (net : Net) (count fuel : nat) :
  forall (s : list Campaign * nat) (w : World),
  exists r w',
    while_true fuel (Robust.page_body net count) s w = (Ret r, w') /\
    disk w' = disk w.
Proof.
  induction fuel as [|fuel IH]; intros s w; [cbn; eauto|].
  cbn [while_true]. unfold mbind, M_bind, bind.
  destruct (robust_page_returns net count s w) as ([s'|r] & w1 & -> & Hd).
  - destruct (IH s' w1) as (r & w' & -> & Hd'). exists r, w'.
    split; [reflexivity | congruence].
  - cbn. eauto.
Qed.

Lemma basic_page_disk (net : Net) (count : nat) (s : list Campaign * nat)
    (w : World) :
  disk (snd (Basic.page_body net count s w)) = disk w.
Proof.
  destruct s as [acc offset].
  unfold Basic.page_body, mbind, M_bind, bind, http_get, response_json.
  destruct (campaigns_endpoint net (requests w) offset count) as [response|e];
    [|reflexivity].
  destruct (negb (status_code response =? 200)%Z); [reflexivity|].
  destruct (json response) as [data|]; [|reflexivity].
  cbn -[Nat.ltb]. destruct (default [] (campaigns_key data)) as [|c page];
    [reflexivity|].
  destruct (length (c :: page) <? count)%nat; reflexivity.
Qed.

Lemma basic_listing_disk (net : Net) (fuel : nat) (w : World) :
  disk (snd (Basic.get_all_campaigns net fuel w)) = disk w.
Proof.
  unfold Basic.get_all_campaigns, Basic.get_all_campaigns_with.
  apply (while_true_log_invariant (Basic.page_body net 1000)
           (fun w' => disk w' = disk w)); [|reflexivity].
  intros s w' Hw'. now rewrite basic_page_disk.
Qed.

Lemma basic_list_name_world (net : Net) (lid : string) (w : World) :
  snd (Basic.get_list_name net lid w) =
  after_get (ReqList lid) None (after_enter "get_list_name" lid w).
Proof.
  unfold Basic.get_list_name, emit, mbind, M_bind, bind, http_get, response_json.
  cbn.
  destruct (lists_endpoint net (requests w) lid) as [response|e]; [|reflexivity].
  destruct (status_code response =? 200)%Z; [|reflexivity].
  destruct (json response); reflexivity.
Qed.

Lemma basic_report_world (net : Net) (campaign_id : string) (w : World) :
  snd (Basic.get_campaign_report net campaign_id w) =
  after_get (ReqReport campaign_id) None w.
Proof.
  unfold Basic.get_campaign_report, mbind, M_bind, bind, http_get, response_json.
  destruct (reports_endpoint net (requests w) campaign_id) as [response|e];
    [|reflexivity].
  destruct (status_code response =? 200)%Z; [|reflexivity].
  destruct (json response); reflexivity.
Qed.

Section BasicEffects.

Context `{Platform} (net : Net).

(** A property of the world that requests and the entry log keep. *)
Variable Q : World -> Prop.
Hypothesis Q_get : forall r t w, Q w -> Q (after_get r t w).
Hypothesis Q_enter : forall m a w, Q w -> Q (after_enter m a w).

Lemma basic_rest_keeps (campaign_id : string)
    (kont : option Report -> M LoopState) (w : World) :
  (forall report w1, exists st', kont report w1 = (Ret st', w1)) ->
  Q w ->
  Q (snd ((Basic.get_campaign_report net campaign_id ≫= kont) w)).
Proof.
  intros Hkont Hw. unfold mbind, M_bind, bind.
  pose proof (basic_report_world net campaign_id w) as Hworld.
  destruct (Basic.get_campaign_report net campaign_id w) as [[report|e] w1];
    cbn [snd] in Hworld; subst w1.
  - destruct (Hkont report (after_get (ReqReport campaign_id) None w))
      as (st' & ->). cbn. now apply Q_get.
  - cbn. now apply Q_get.
Qed.

(** The only effects of an iteration of the basic loop are requests and
    entries of [get_list_name]. *)
Lemma basic_process_campaign_keeps (newsletters_path : option string)
    (i : nat) (campaign : Campaign) (st : LoopState) (w : World) :
  Q w ->
  Q (snd (Basic.process_campaign net newsletters_path i campaign st w)).
Proof.
  intros Hw. unfold Basic.process_campaign.
  destruct (list_id (default no_recipients (c_recipients campaign)))
    as [[|a l]|] eqn:Hlid.
  - unfold mbind at 1, M_bind at 1, bind at 1. cbn [mret M_ret ret].
    apply basic_rest_keeps; [intros; eexists; reflexivity | exact Hw].
  - destruct (list_cache st !! String a l) as [name|] eqn:Hc.
    + unfold mbind at 1, M_bind at 1, bind at 1. cbn [mret M_ret ret].
      apply basic_rest_keeps; [intros; eexists; reflexivity | exact Hw].
    + unfold mbind at 1, M_bind at 1, bind at 1.
      unfold mbind at 1, M_bind at 1, bind at 1.
      pose proof (basic_list_name_world net (String a l) w) as Hworld.
      destruct (Basic.get_list_name net (String a l) w) as [[name|e] w1];
        cbn [snd] in Hworld; subst w1.
      * cbn [mret M_ret ret].
        apply basic_rest_keeps; [intros; eexists; reflexivity|].
        now apply Q_get, Q_enter.
      * cbn. now apply Q_get, Q_enter.
  - unfold mbind at 1, M_bind at 1, bind at 1. cbn [mret M_ret ret].
    apply basic_rest_keeps; [intros; eexists; reflexivity | exact Hw].
Qed.

Lemma basic_loop_keeps (newsletters_path : option string)
    (campaigns : list Campaign) :
  forall (i : nat) (st : LoopState) (w : World),
  Q w ->
  Q (snd (for_enumerate (Basic.process_campaign net newsletters_path)
            i campaigns st w)).
Proof.
  induction campaigns as [|c cs IH]; intros i st w Hw; [exact Hw|].
  cbn [for_enumerate]. unfold mbind, M_bind, bind.
  pose proof (basic_process_campaign_keeps newsletters_path i c st w Hw) as Hstep.
  destruct (Basic.process_campaign net newsletters_path i c st w)
    as [[st'|e] w']; cbn [snd] in Hstep; [|exact Hstep].
  apply IH, Hstep.
Qed.

End BasicEffects.

(** X1. No exception of a request leaves the robust [generate_csv]:
    whatever the remote API answers and whatever the interval, the run does
    not end with the timeout or the connection error of a [get] call, nor
    with the decoding error of a body; the listing loop and the two
    per-item fetches catch them all.  What does leave it is the
    [ZeroDivisionError] of [i % save_interval]: only at the interval 0,
    which [main] accepts, and then on every account with a campaign, in the
    first iteration and before anything is written. *)
Theorem request_failures_never_leave_robust_generate_csv `{Platform}
    (net : Net) (fuel : nat) (newsletters_dir output_file : string)
    (save_interval : Z) (w : World) :
  let run :=
    Robust.generate_csv net fuel newsletters_dir output_file save_interval w in
  (fst run <> Raise Timeout /\
   fst run <> Raise ConnectionError /\
   fst run <> Raise JSONDecodeError) /\
  (fst run = Raise ZeroDivisionError ->
     save_interval = 0%Z /\ disk (snd run) = disk w) /\
  (forall campaigns w0,
     Robust.get_all_campaigns net fuel w = (Ret (Some campaigns), w0) ->
     campaigns <> [] ->
     save_interval = 0%Z ->
     fst run = Raise ZeroDivisionError /\ disk (snd run) = disk w).
Proof.
  cbv zeta.
  assert (Hmain :
    (forall e,
        fst (Robust.generate_csv net fuel newsletters_dir output_file
               save_interval w) = Raise e ->
        e = ZeroDivisionError /\ save_interval = 0%Z /\
        disk (snd (Robust.generate_csv net fuel newsletters_dir output_file
                     save_interval w)) = disk w) /\
    (forall campaigns w0,
        Robust.get_all_campaigns net fuel w = (Ret (Some campaigns), w0) ->
        campaigns <> [] ->
        save_interval = 0%Z ->
        fst (Robust.generate_csv net fuel newsletters_dir output_file
               save_interval w) = Raise ZeroDivisionError /\
        disk (snd (Robust.generate_csv net fuel newsletters_dir output_file
                     save_interval w)) = disk w)).
  { unfold Robust.generate_csv.
    unfold Robust.get_all_campaigns, Robust.get_all_campaigns_with.
    destruct (robust_listing_returns net 1000 fuel ([], 0) w)
      as (fetched & w0 & Hfetch & Hd0).
    unfold mbind, M_bind, bind. rewrite Hfetch.
    destruct fetched as [[|c cs]|].
    - cbn. split; [discriminate|]. intros campaigns w1 [= <- _] Hne.
      contradiction.
    - destruct (Z.eq_dec save_interval 0%Z) as [->|HN].
      + cbn [for_enumerate]. unfold mbind, M_bind, bind.
        destruct (robust_process_campaign_runs net
                    (if path_exists newsletters_dir then Some newsletters_dir else None)
                    output_file 0%Z 1 c {| list_cache := ∅; csv_data := [] |} w0)
          as (audience & cache' & report & w1 & w2 & _ & Hd1 & _ & _ & Hd2 & _ & Hrun).
        cbv zeta in Hrun. cbn [Z.eqb] in Hrun. rewrite Hrun. cbn.
        split.
        * intros e [= <-]. repeat split; congruence.
        * intros campaigns w3 _ _ _. split; [reflexivity | congruence].
      + destruct (robust_loop_returns net
                    (if path_exists newsletters_dir then Some newsletters_dir else None)
                    output_file save_interval HN (c :: cs) 1
                    {| list_cache := ∅; csv_data := [] |} w0)
          as (rows & cache' & w' & Hloop & _).
        unfold mbind, M_bind, bind. rewrite Hloop. cbn.
        split; [discriminate|]. intros campaigns w1 _ _ HN'. contradiction.
    - cbn. split; [discriminate|]. intros campaigns w1 [=]. }
  destruct Hmain as [Honly Hzero].
  split; [|split; [|exact Hzero]].
  - repeat split; intros Hrun; destruct (Honly _ Hrun) as [He _];
      discriminate He.
  - intros Hrun. destruct (Honly _ Hrun) as (_ & HN & Hd). split; assumption.
Qed.

Lemma request_failures_never_leave_robust_generate_csv_witness :
  let run :=
    @Robust.generate_csv test_platform (static_net three_campaigns) 2
      "mailchimp_newsletters" "out.csv" 0 fresh_world in
  fst run = Raise ZeroDivisionError /\ disk (snd run) = disk fresh_world.
Proof.
  refine (proj2 (proj2 (@request_failures_never_leave_robust_generate_csv
                          test_platform (static_net three_campaigns) 2
                          "mailchimp_newsletters" "out.csv" 0 fresh_world))
            three_campaigns _ _ _ eq_refl).
  - vm_compute. reflexivity.
  - discriminate.
Defined.

(** X2. When the listing fetch returns no campaign, [generate_csv] (either
    generator) returns [None] and writes nothing: no header-only file is
    created and a file already at the output path stays as it was.  In the
    robust generator this is also what a failed first page request gives. *)
Theorem generate_csv_without_campaigns_writes_nothing `{Platform}
    (net : Net) (fuel : nat) (newsletters_dir output_file : string)
    (save_interval : Z) (w : World) :
  (forall w0,
     Robust.get_all_campaigns net fuel w = (Ret (Some []), w0) ->
     Robust.generate_csv net fuel newsletters_dir output_file save_interval w =
       (Ret (Some None), w0) /\ disk w0 = disk w) /\
  (forall w0,
     Basic.get_all_campaigns net fuel w = (Ret (Some []), w0) ->
     Basic.generate_csv net fuel newsletters_dir output_file w =
       (Ret (Some None), w0) /\ disk w0 = disk w) /\
  (0 < fuel ->
   bad_status (campaigns_endpoint net (requests w) 0 1000) \/
   other_exception (campaigns_endpoint net (requests w) 0 1000) ->
   Robust.generate_csv net fuel newsletters_dir output_file save_interval w =
     (Ret (Some None), after_get (ReqCampaigns 0 1000) (Some 30%Z) w)).
Proof.
  split; [|split].
  - intros w0 Hfetch.
    split; [now rewrite (robust_generate_csv_after_listing net fuel
                           newsletters_dir output_file save_interval [] w w0 Hfetch)|].
    unfold Robust.get_all_campaigns, Robust.get_all_campaigns_with in Hfetch.
    destruct (robust_listing_returns net 1000 fuel ([], 0) w) as (r & w' & Hr & Hd).
    rewrite Hfetch in Hr. now injection Hr as <- <-.
  - intros w0 Hfetch. split.
    + unfold Basic.generate_csv. unfold mbind, M_bind, bind. now rewrite Hfetch.
    + pose proof (basic_listing_disk net fuel w) as Hd. now rewrite Hfetch in Hd.
  - intros Hfuel Hfail. destruct fuel as [|fuel]; [lia|].
    apply (robust_generate_csv_after_listing net (S fuel) newsletters_dir
             output_file save_interval [] w).
    unfold Robust.get_all_campaigns, Robust.get_all_campaigns_with.
    cbn [while_true]. unfold mbind, M_bind, bind.
    now rewrite (robust_page_failed net 1000 [] 0 w Hfail).
Qed.

Lemma generate_csv_without_campaigns_writes_nothing_witness :
  @Robust.generate_csv test_platform (static_net []) 1 "mailchimp_newsletters"
    "out.csv" 50 fresh_world =
  (Ret (Some None), after_get (ReqCampaigns 0 1000) (Some 30%Z) fresh_world).
Proof.
  destruct (@generate_csv_without_campaigns_writes_nothing test_platform
              (static_net []) 1 "mailchimp_newsletters" "out.csv" 50 fresh_world)
    as (Hrobust & _ & _).
  exact (proj1 (Hrobust (after_get (ReqCampaigns 0 1000) (Some 30%Z) fresh_world)
                  eq_refl)).
Defined.

Lemma robust_step_other_files `{Platform} (net : Net) (base : gmap string CsvFile)
    (path : string) (newsletters_path : option string) (output_file : string)
    (save_interval : Z) (i : nat) (campaign : Campaign) (st : LoopState)
    (w : World) :
  path <> output_file ->
  disk w !! path = base !! path ->
  match Robust.process_campaign net newsletters_path output_file save_interval
          i campaign st w with
  | (Ret _, w') => disk w' !! path = base !! path
  | (Raise _, w') => disk w' !! path = base !! path
  end.
Proof.
  intros Hne Hw.
  destruct (robust_process_campaign_runs net newsletters_path output_file
              save_interval i campaign st w)
    as (audience & cache' & report & w1 & w2 & _ & Hd1 & _ & _ & Hd2 & _ & Hrun).
  cbv zeta in Hrun. rewrite Hrun.
  destruct (save_interval =? 0)%Z; [congruence|].
  cbn [disk]. unfold checkpoint.
  destruct (Z.of_nat i mod save_interval =? 0)%Z; [|congruence].
  rewrite lookup_insert_ne by congruence. congruence.
Qed.

(** X3. A run of [generate_csv] (either generator, any API behaviour, any
    outcome) touches no file but its output file. *)
Theorem generate_csv_touches_only_output_file `{Platform} (net : Net)
    (fuel : nat) (newsletters_dir output_file : string) (save_interval : Z)
    (w : World) (path : string) :
  path <> output_file ->
  disk (snd (Robust.generate_csv net fuel newsletters_dir output_file
               save_interval w)) !! path = disk w !! path /\
  disk (snd (Basic.generate_csv net fuel newsletters_dir output_file w)) !! path =
    disk w !! path.
Proof.
  intros Hne. split.
  - unfold Robust.generate_csv.
    unfold Robust.get_all_campaigns, Robust.get_all_campaigns_with.
    destruct (robust_listing_returns net 1000 fuel ([], 0) w)
      as (fetched & w0 & Hfetch & Hd0).
    unfold mbind at 1, M_bind at 1, bind at 1. rewrite Hfetch.
    destruct fetched as [[|c cs]|]; try (cbn; congruence).
    unfold mbind at 1, M_bind at 1, bind at 1.
    pose proof (for_enumerate_invariant _
      (fun _ w' => disk w' !! path = disk w !! path)
      (fun w' => disk w' !! path = disk w !! path)
      (fun i c st w' => robust_step_other_files net (disk w) path
         (if path_exists newsletters_dir then Some newsletters_dir else None)
         output_file save_interval i c st w' Hne)
      (c :: cs) 1 {| list_cache := ∅; csv_data := [] |} w0) as Hloop.
    cbv beta in Hloop. specialize (Hloop ltac:(congruence)).
    destruct (for_enumerate _ 1 (c :: cs) _ w0) as [[st|e] w']; [|exact Hloop].
    unfold Robust.save_progress, write_csv, mbind, M_bind, bind, mret, M_ret, ret.
    cbn. rewrite lookup_insert_ne by congruence. exact Hloop.
  - unfold Basic.generate_csv.
    pose proof (basic_listing_disk net fuel w) as Hd0.
    unfold mbind at 1, M_bind at 1, bind at 1.
    destruct (Basic.get_all_campaigns net fuel w) as [[[[|c cs]|]|e] w0];
      cbn [snd] in Hd0; try (cbn; congruence).
    unfold mbind at 1, M_bind at 1, bind at 1.
    pose proof (basic_loop_keeps net (fun w' => disk w' = disk w)
                  ltac:(intros; assumption) ltac:(intros; assumption)
                  (if path_exists newsletters_dir then Some newsletters_dir else None)
                  (c :: cs) 1 {| list_cache := ∅; csv_data := [] |} w0 Hd0) as Hloop.
    destruct (for_enumerate _ 1 (c :: cs) _ w0) as [[st|e] w'];
      cbn [snd] in Hloop; [|cbn; congruence].
    unfold write_csv, mbind, M_bind, bind, mret, M_ret, ret.
    cbn. rewrite lookup_insert_ne by congruence. congruence.
Qed.

Lemma generate_csv_touches_only_output_file_witness :
  disk (snd (@Robust.generate_csv test_platform (static_net three_campaigns) 2
               "mailchimp_newsletters" "out.csv" 2 fresh_world)) !! "other.csv" =
  disk fresh_world !! "other.csv".
Proof.
  assert (Hne : "other.csv" <> "out.csv") by discriminate.
  exact (proj1 (@generate_csv_touches_only_output_file test_platform
                  (static_net three_campaigns) 2 "mailchimp_newsletters"
                  "out.csv" 2 fresh_world "other.csv" Hne)).
Defined.



(** ** The file between two checkpoints *)

Lemma checkpoint_test_nat (i N : nat) :
  (Z.of_nat i mod Z.of_nat N =? 0)%Z = (i mod N =? 0)%nat.
Proof.
  rewrite <- Nat2Z.inj_mod.
  destruct (i mod N =? 0)%nat eqn:E.
  - apply Nat.eqb_eq in E. rewrite E. reflexivity.
  - apply Nat.eqb_neq in E. apply Z.eqb_neq. lia.
Qed.

Lemma div_succ_inexact (n N : nat) :
  0 < N -> S n mod N <> 0 -> S n / N = n / N.
Proof.
  intros HN Hr.
  pose proof (Nat.div_mod_eq n N) as Hn.
  pose proof (Nat.mod_upper_bound n N ltac:(lia)) as Hlt.
  pose proof (Nat.div_mod_eq (S n) N) as Hs.
  pose proof (Nat.mod_upper_bound (S n) N ltac:(lia)) as Hlt'.
  assert (Hcases : n mod N + 1 < N \/ n mod N + 1 = N) by lia.
  destruct Hcases as [Hsmall | Hfull].
  - symmetry. apply (Nat.div_unique (S n) N (n / N) (n mod N + 1)); lia.
  - exfalso. apply Hr.
    symmetry. apply (Nat.mod_unique (S n) N (n / N + 1) 0); nia.
Qed.

Lemma div_succ_exact (n N : nat) :
  0 < N -> S n mod N = 0 -> N * (S n / N) = S n /\ N <= S n.
Proof.
  intros HN Hr.
  pose proof (Nat.div_mod_eq (S n) N) as Hs. rewrite Hr in Hs.
  split; [lia|].
  destruct (S n / N) as [|q] eqn:Hq; [lia | nia].
Qed.

(** X5. In the loop of the robust generator with a positive interval [N],
    once the first [n] campaigns have been processed the output file holds
    exactly the rows of the last checkpoint, that is the first
    [N * floor(n / N)] rows, and is still what it was before the run while
    [n < N]; so a run that is interrupted after [n] campaigns has lost fewer
    than [N] rows. *)
Theorem robust_file_holds_last_checkpoint `{Platform} (net : Net)
    (newsletters_path : option string) (output_file : string) (N : nat)
    (w0 : World) (campaigns : list Campaign) :
  0 < N ->
  let body :=
    Robust.process_campaign net newsletters_path output_file (Z.of_nat N) in
  let n := length campaigns in
  exists st w,
    for_enumerate body 1 campaigns initial_state w0 = (Ret st, w) /\
    (forall rest,
       for_enumerate body 1 (campaigns ++ rest) initial_state w0 =
       for_enumerate body (1 + n) rest st w) /\
    length (csv_data st) = n /\
    disk w !! output_file =
      (if (n <? N)%nat then disk w0 !! output_file
       else Some (csv_file_of Robust.fieldnames
                    (firstn (N * (n / N)) (csv_data st)))) /\
    n - N * (n / N) < N.
Proof.
  intros HN body n. subst n.
  assert (HZ : Z.of_nat N <> 0%Z) by lia.
  induction campaigns as [|c cs IH] using rev_ind.
  - exists initial_state, w0. cbn [length for_enumerate app].
    assert (Hlt : (0 <? N)%nat = true) by now apply Nat.ltb_lt.
    rewrite Hlt. repeat split; try reflexivity. cbn. lia.
  - destruct IH as (st' & w' & Hrun' & _ & Hlen' & Hdisk' & _).
    destruct (robust_iteration net newsletters_path output_file (Z.of_nat N) HZ
                (1 + length cs) c st' w')
      as (row & cache' & w'' & Hstep & _ & Hd).
    fold body in Hstep.
    assert (Hrun : for_enumerate body 1 (cs ++ [c]) initial_state w0 =
                   (Ret {| list_cache := cache'; csv_data := csv_data st' ++ [row] |},
                    w'')).
    { rewrite for_enumerate_app, Hrun'. cbn [for_enumerate].
      unfold mbind, M_bind, bind. now rewrite Hstep. }
    exists {| list_cache := cache'; csv_data := csv_data st' ++ [row] |}, w''.
    split; [exact Hrun|]. split.
    { intros rest. now rewrite for_enumerate_app, Hrun. }
    cbn [csv_data]. rewrite !length_app. cbn [length].
    replace (length cs + 1) with (S (length cs)) by lia.
    replace (length (csv_data st') + 1) with (S (length (csv_data st'))) by lia.
    split; [lia|].
    pose proof (Nat.div_mod_eq (S (length cs)) N) as Hdm.
    pose proof (Nat.mod_upper_bound (S (length cs)) N ltac:(lia)) as Hlt.
    split; [|lia].
    rewrite Hd. unfold checkpoint. rewrite checkpoint_test_nat.
    cbn [Nat.add].
    destruct (S (length cs) mod N =? 0)%nat eqn:Hmod.
    + apply Nat.eqb_eq in Hmod.
      destruct (div_succ_exact (length cs) N HN Hmod) as [Hexact Hge].
      assert (Hnlt : (S (length cs) <? N)%nat = false) by (apply Nat.ltb_ge; lia).
      rewrite Hnlt, Hexact, lookup_insert_eq.
      rewrite firstn_all2 by (rewrite length_app; cbn; lia). reflexivity.
    + apply Nat.eqb_neq in Hmod. rewrite Hdisk'.
      rewrite (div_succ_inexact (length cs) N HN Hmod).
      destruct (length cs <? N)%nat eqn:Hsmall.
      * apply Nat.ltb_lt in Hsmall.
        assert (Hs : (S (length cs) <? N)%nat = true).
        { apply Nat.ltb_lt.
          destruct (Nat.eq_dec (S (length cs)) N) as [E|E]; [|lia].
          exfalso. apply Hmod. rewrite E. apply Nat.Div0.mod_same. }
        now rewrite Hs.
      * apply Nat.ltb_ge in Hsmall.
        assert (Hs : (S (length cs) <? N)%nat = false) by (apply Nat.ltb_ge; lia).
        rewrite Hs. do 2 f_equal.
        pose proof (Nat.div_mod_eq (length cs) N) as Hdm'.
        rewrite firstn_app.
        replace (N * (length cs / N) - length (csv_data st')) with 0 by lia.
        cbn [firstn]. now rewrite app_nil_r.
Qed.

Lemma robust_file_holds_last_checkpoint_witness :
  exists st w,
    for_enumerate
      (@Robust.process_campaign test_platform (static_net three_campaigns)
         (Some "mailchimp_newsletters") "out.csv" (Z.of_nat 2))
      1 three_campaigns initial_state fresh_world = (Ret st, w) /\
    disk w !! "out.csv" =
      Some (csv_file_of Robust.fieldnames (firstn 2 (csv_data st))).
Proof.
  assert (HN : 0 < 2) by lia.
  destruct (@robust_file_holds_last_checkpoint test_platform
              (static_net three_campaigns) (Some "mailchimp_newsletters")
              "out.csv" 2 fresh_world three_campaigns HN)
    as (st & w & Hrun & _ & _ & Hdisk & _).
  exists st, w. split; [exact Hrun | exact Hdisk].
Defined.

(** ** The rows *)

Lemma bind_ret_inv {A B} (m : M A) (k : A -> M B) (w : World) (b : B) (w' : World) :
  (m ≫= k) w = (Ret b, w') ->
  exists a w1, m w = (Ret a, w1) /\ k a w1 = (Ret b, w').
Proof.
  unfold mbind, M_bind, bind. destruct (m w) as [[a|e] w1]; [eauto | discriminate].
Qed.

Section BasicRows.

Context `{Platform} (net : Net).

(** An iteration of the basic loop that returns has appended the row of its
    campaign, built from the report it fetched last. *)
Lemma basic_process_campaign_returned (newsletters_path : option string)
    (i : nat) (campaign : Campaign) (st st' : LoopState) (w w' : World) :
  Basic.process_campaign net newsletters_path i campaign st w = (Ret st', w') ->
  exists audience report w1,
    Basic.get_campaign_report net (campaign_id_of campaign) w1 = (Ret report, w') /\
    csv_data st' =
      csv_data st ++ [Robust.make_row newsletters_path campaign audience report].
Proof.
  unfold Basic.process_campaign. intros Hrun.
  apply bind_ret_inv in Hrun as ([audience cache] & w1 & _ & Hrest).
  apply bind_ret_inv in Hrest as (report & w2 & Hreport & Hret).
  unfold mret, M_ret, ret in Hret. injection Hret as <- <-.
  exists (match segment_opts (default no_recipients (c_recipients campaign)) with
          | Some (_ :: _) => audience +:+ " (Segmented)"
          | _ => audience
          end), report, w1.
  split; [exact Hreport | reflexivity].
Qed.

End BasicRows.

Section RobustRows.

Context `{Platform} (net : Net).
Variable newsletters_path : option string.
Variable output_file : string.
Variable save_interval : Z.
Hypothesis interval_nonzero : save_interval <> 0%Z.

(** The rows of the robust loop are the rows of its campaigns, one by one. *)
Lemma robust_loop_rows (campaigns : list Campaign) :
  forall (i : nat) (st : LoopState) (w : World),
  exists rows cache' w',
    for_enumerate
      (Robust.process_campaign net newsletters_path output_file save_interval)
      i campaigns st w =
      (Ret {| list_cache := cache'; csv_data := csv_data st ++ rows |}, w') /\
    Forall2 (fun c row => exists audience report,
               row = Robust.make_row newsletters_path c audience report)
      campaigns rows.
Proof.
  induction campaigns as [|c cs IH]; intros i st w.
  - exists [], (list_cache st), w. cbn. rewrite app_nil_r.
    destruct st; split; [reflexivity | constructor].
  - destruct (robust_process_campaign_runs net newsletters_path output_file
                save_interval i c st w)
      as (audience & cache1 & report & w1 & w2 & _ & _ & _ & _ & _ & _ & Hrun).
    cbv zeta in Hrun. apply Z.eqb_neq in interval_nonzero.
    rewrite interval_nonzero in Hrun.
    match type of Hrun with _ = (Ret ?st1, ?w3) =>
      destruct (IH (S i) st1 w3) as (rows & cache' & w' & Hl & Hrows)
    end.
    exists (Robust.make_row newsletters_path c audience report :: rows), cache', w'.
    cbn [for_enumerate]. unfold mbind, M_bind, bind. rewrite Hrun.
    cbn [csv_data] in Hl. rewrite <- app_assoc in Hl. cbn [app] in Hl.
    split; [exact Hl|]. constructor; [eauto | exact Hrows].
Qed.

End RobustRows.

Lemma make_row_keys `{Platform} (newsletters_path : option string)
    (campaign : Campaign) (audience : string) (report : option Report) :
  row_keys (Robust.make_row newsletters_path campaign audience report) =
  Robust.fieldnames.
Proof. reflexivity. Qed.

Lemma writerow_length (fieldnames : list string) (row : Row) :
  length (writerow fieldnames row) = length fieldnames.
Proof. unfold writerow. apply length_map. Qed.

(** X6. Every row dictionary the generators build has exactly the fourteen
    keys of [fieldnames], in header order and without repetition, so
    [DictWriter] finds a value under every column name and meets no key it
    does not know.  In the file the robust generator leaves (interval other
    than 0) there is one such row per fetched campaign, and every record is
    as wide as the header. *)
Theorem rows_have_exactly_the_header_fields `{Platform} (net : Net)
    (fuel : nat) (newsletters_dir output_file : string) (save_interval : Z)
    (campaigns : list Campaign) (w w0 : World) :
  save_interval <> 0%Z ->
  Robust.get_all_campaigns net fuel w = (Ret (Some campaigns), w0) ->
  campaigns <> [] ->
  length Robust.fieldnames = 14 /\
  NoDup Robust.fieldnames /\
  Basic.fieldnames = Robust.fieldnames /\
  (exists w_out rows,
     Robust.generate_csv net fuel newsletters_dir output_file save_interval w =
       (Ret (Some (Some output_file)), w_out) /\
     disk w_out !! output_file = Some (csv_file_of Robust.fieldnames rows) /\
     length rows = length campaigns /\
     Forall (fun row => row_keys row = Robust.fieldnames) rows /\
     Forall (fun row => forall key, In key Robust.fieldnames ->
                         exists v, row_get key row = Some v) rows /\
     Forall (fun record => length record = 14)
       (records (csv_file_of Robust.fieldnames rows))) /\
  (forall i campaign st st' w1 w1',
     Basic.process_campaign net (newsletters_path_of newsletters_dir) i campaign
       st w1 = (Ret st', w1') ->
     exists row,
       csv_data st' = csv_data st ++ [row] /\ row_keys row = Basic.fieldnames).
Proof.
  intros HN Hfetch Hne.
  split; [reflexivity|]. split.
  { unfold Robust.fieldnames. repeat (apply NoDup_cons; split;
      [rewrite !list_elem_of_In; cbn; intuition discriminate|]).
    apply NoDup_nil. trivial. }
  split; [reflexivity|]. split.
  - rewrite (robust_generate_csv_after_listing net fuel newsletters_dir
               output_file save_interval campaigns w w0 Hfetch).
    destruct campaigns as [|c cs]; [congruence|].
    destruct (robust_loop_rows net (newsletters_path_of newsletters_dir)
                output_file save_interval HN (c :: cs) 1 initial_state w0)
      as (rows & cache' & w' & Hrun & Hrows).
    rewrite Hrun. cbn [csv_data initial_state app].
    do 2 eexists. split; [reflexivity|]. cbn [disk].
    split; [apply lookup_insert_eq|].
    split; [symmetry; exact (Forall2_length _ _ _ Hrows)|].
    assert (Hmade : Forall (fun row => exists c0 audience report,
              row = Robust.make_row (newsletters_path_of newsletters_dir)
                      c0 audience report) rows).
    { clear -Hrows. induction Hrows as [|c0 row cs0 rows0 (a & r & ->) _ IH];
        constructor; eauto. }
    split; [|split].
    + eapply Forall_impl; [exact Hmade|].
      intros row (c0 & a & r & ->). apply make_row_keys.
    + eapply Forall_impl; [exact Hmade|].
      intros row (c0 & a & r & ->) key Hkey.
      cbn in Hkey.
      repeat (destruct Hkey as [<-|Hkey]; [eexists; reflexivity|]).
      contradiction.
    + unfold csv_file_of. cbn [records]. apply Forall_forall.
      intros record Hin. apply list_elem_of_In, in_map_iff in Hin as (row & <- & _).
      apply writerow_length.
  - intros i campaign st st' w1 w1' Hrun.
    destruct (basic_process_campaign_returned net _ _ _ _ _ _ _ Hrun)
      as (audience & report & w2 & _ & Hrows).
    eexists. split; [exact Hrows | reflexivity].
Qed.

Lemma rows_have_exactly_the_header_fields_witness :
  exists w_out rows,
    @Robust.generate_csv test_platform (static_net three_campaigns) 2
      "mailchimp_newsletters" "out.csv" 50 fresh_world =
      (Ret (Some (Some "out.csv")), w_out) /\
    disk w_out !! "out.csv" = Some (csv_file_of Robust.fieldnames rows) /\
    length rows = 3 /\
    Forall (fun row => row_keys row = Robust.fieldnames) rows.
Proof.
  assert (HN : 50%Z <> 0%Z) by discriminate.
  assert (Hne : three_campaigns <> []) by discriminate.
  destruct (@rows_have_exactly_the_header_fields test_platform
              (static_net three_campaigns) 2 "mailchimp_newsletters" "out.csv" 50
              three_campaigns fresh_world
              (snd (Robust.get_all_campaigns (static_net three_campaigns) 2 fresh_world))
              HN eq_refl Hne)
    as (_ & _ & _ & (w_out & rows & Hgen & Hdisk & Hlen & Hkeys & _) & _).
  exists w_out, rows. repeat split; assumption.
Defined.

(** ** A report that could not be fetched *)

Lemma robust_report_none (net : Net) (campaign_id : string) (w : World) :
  (forall n, report_of (reports_endpoint net n campaign_id) = None) ->
  fst (Robust.get_campaign_report net campaign_id w) = Ret None.
Proof.
  intros Hnone.
  destruct (robust_report_retries net campaign_id w)
    as (j & _ & _ & _ & Hv & _).
  rewrite Hv. now rewrite Hnone.
Qed.

(** X7. The robust generator does not tell a report that failed from one
    that is not there: when every answer to the report request of a campaign
    is a failure of any kind (a timeout, another exception, a status other
    than 200, a body that does not decode), the row of the campaign carries
    the same metric cells as after a 404, and so does the row built from a
    report object that has none of the metric keys. *)
Theorem failed_report_gives_the_not_found_row `{Platform} (net : Net)
    (newsletters_path : option string) (output_file : string)
    (save_interval : Z) (i : nat) (campaign : Campaign) (st : LoopState)
    (w : World) :
  save_interval <> 0%Z ->
  (forall n, report_of (reports_endpoint net n (campaign_id_of campaign)) = None) ->
  (exists audience cache' w',
     Robust.process_campaign net newsletters_path output_file save_interval
       i campaign st w =
       (Ret {| list_cache := cache';
               csv_data := csv_data st ++
                 [Robust.make_row newsletters_path campaign audience None] |}, w') /\
     metric_cells
       (writerow Robust.fieldnames
          (Robust.make_row newsletters_path campaign audience None)) =
     zero_metric_cells) /\
  (forall audience,
     Robust.make_row newsletters_path campaign audience (Some empty_report) =
     Robust.make_row newsletters_path campaign audience None).
Proof.
  intros HN Hnone. split.
  - destruct (robust_process_campaign_runs net newsletters_path output_file
                save_interval i campaign st w)
      as (audience & cache' & report & w1 & w2 & _ & _ & _ & Hr & _ & _ & Hrun).
    pose proof (robust_report_none net (campaign_id_of campaign) w1 Hnone) as Hfst.
    rewrite Hr in Hfst. cbn in Hfst. injection Hfst as ->.
    cbv zeta in Hrun. apply Z.eqb_neq in HN. rewrite HN in Hrun.
    exists audience, cache'. eexists. split; [exact Hrun|].
    apply make_row_without_report.
  - intros audience. reflexivity.
Qed.

Lemma failed_report_gives_the_not_found_row_witness :
  exists audience cache' w',
    @Robust.process_campaign test_platform (static_net three_campaigns)
      (Some "mailchimp_newsletters") "out.csv" 50 1 (bare_campaign "c1")
      initial_state fresh_world =
      (Ret {| list_cache := cache';
              csv_data := [@Robust.make_row test_platform
                             (Some "mailchimp_newsletters")
                             (bare_campaign "c1") audience None] |}, w').
Proof.
  assert (HN : 50%Z <> 0%Z) by discriminate.
  assert (Hnone : forall n : nat,
            report_of (reports_endpoint (static_net three_campaigns) n
                         (campaign_id_of (bare_campaign "c1"))) = None)
    by (intros n; reflexivity).
  destruct (@failed_report_gives_the_not_found_row test_platform
              (static_net three_campaigns) (Some "mailchimp_newsletters")
              "out.csv" 50 1 (bare_campaign "c1") initial_state fresh_world
              HN Hnone) as [(audience & cache' & w' & Hrun & _) _].
  exists audience, cache', w'. exact Hrun.
Defined.

(** ** Sanitized names *)

Lemma list_ascii_of_string_inj (s1 s2 : string) :
  list_ascii_of_string s1 = list_ascii_of_string s2 -> s1 = s2.
Proof.
  intros E. rewrite <- (string_of_list_ascii_of_string s1),
    <- (string_of_list_ascii_of_string s2). now rewrite E.
Qed.

Lemma filter_legal_id (l : list ascii) :
  (forall c, In c l -> is_illegal c = false) ->
  List.filter (fun c => negb (is_illegal c)) l = l.
Proof.
  induction l as [|c l IH]; intros Hl; [reflexivity|].
  cbn [List.filter]. rewrite (Hl c (or_introl eq_refl)). cbn [negb]. f_equal.
  apply IH. intros c' Hc'. apply Hl. now right.
Qed.

Lemma map_underscore_id (l : list ascii) :
  (forall c, In c l -> c <> " "%char) ->
  map underscore_for_space l = l.
Proof.
  induction l as [|c l IH]; intros Hl; [reflexivity|].
  cbn [map]. f_equal.
  - unfold underscore_for_space.
    destruct (Ascii.eqb c " ") eqn:E; [|reflexivity].
    apply Ascii.eqb_eq in E. exfalso. now apply (Hl c (or_introl eq_refl)).
  - apply IH. intros c' Hc'. apply Hl. now right.
Qed.

Lemma sanitize_filename_is_safe (s : string) :
  safe_filename (Robust.sanitize_filename s).
Proof.
  rewrite sanitize_filename_cut. split.
  - intros c Hin. apply py_prefix_chars in Hin.
    rewrite cleaned_chars in Hin.
    apply in_map_iff in Hin as (c0 & <- & Hin0).
    apply filter_In in Hin0 as [_ Hlegal].
    apply negb_true_iff in Hlegal.
    now apply underscore_for_space_legal.
  - apply py_len_prefix.
Qed.

Lemma sanitize_filename_fixes_safe (s : string) :
  safe_filename s -> Robust.sanitize_filename s = s.
Proof.
  intros [Hchars Hlen].
  assert (Hclean : replace_space (re_sub_illegal s) = s).
  { apply list_ascii_of_string_inj. rewrite cleaned_chars.
    rewrite filter_legal_id by (intros c Hc; apply (Hchars c Hc)).
    apply map_underscore_id. intros c Hc. apply (Hchars c Hc). }
  rewrite sanitize_filename_cut, Hclean. now apply py_prefix_all.
Qed.

(** X8. [sanitize_filename] is idempotent, and the names it leaves unchanged
    are exactly the safe ones: no character of the pattern, no space, at
    most 200 code points (the length Python measures).  So a name that went
    through it once is stable, and every other name is changed by it. *)
Theorem sanitize_filename_idempotent (filename : string) :
  Robust.sanitize_filename (Robust.sanitize_filename filename) =
    Robust.sanitize_filename filename /\
  Downloader.sanitize_filename (Downloader.sanitize_filename filename) =
    Downloader.sanitize_filename filename /\
  (Robust.sanitize_filename filename = filename <-> safe_filename filename).
Proof.
  assert (Hidem : Robust.sanitize_filename (Robust.sanitize_filename filename) =
                  Robust.sanitize_filename filename).
  { apply sanitize_filename_fixes_safe, sanitize_filename_is_safe. }
  split; [exact Hidem|]. split; [exact Hidem|]. split.
  - intros E. rewrite <- E. apply sanitize_filename_is_safe.
  - apply sanitize_filename_fixes_safe.
Qed.

(** ** The API key *)

Lemma split_on_nonempty (sep : ascii) (s : string) : split_on sep s <> [].
Proof.
  destruct s as [|c r]; cbn; [discriminate|].
  destruct (Ascii.eqb c sep); [discriminate|].
  destruct (split_on sep r); discriminate.
Qed.

Lemma join_with_cons (sep piece : string) (rest : list string) :
  rest <> [] ->
  join_with sep (piece :: rest) = piece +:+ sep +:+ join_with sep rest.
Proof. destruct rest; [congruence | reflexivity]. Qed.

Lemma join_split (sep : ascii) (s : string) :
  join_with (String sep EmptyString) (split_on sep s) = s.
Proof.
  induction s as [|c r IH]; [reflexivity|].
  cbn [split_on]. destruct (Ascii.eqb c sep) eqn:E.
  - apply Ascii.eqb_eq in E. subst c.
    rewrite join_with_cons by apply split_on_nonempty. cbn. now rewrite IH.
  - pose proof (split_on_nonempty sep r) as Hne.
    destruct (split_on sep r) as [|piece pieces]; [congruence|].
    destruct pieces as [|p ps].
    + cbn in *. now rewrite IH.
    + rewrite join_with_cons by discriminate.
      rewrite join_with_cons in IH by discriminate.
      rewrite <- IH. reflexivity.
Qed.

Lemma split_on_pieces_clean (sep : ascii) (s : string) :
  Forall (fun piece => contains_char sep piece = false) (split_on sep s).
Proof.
  induction s as [|c r IH]; [repeat constructor|].
  cbn [split_on]. destruct (Ascii.eqb c sep) eqn:E.
  - constructor; [reflexivity | exact IH].
  - destruct (split_on sep r) as [|piece pieces]; [repeat constructor; cbn|].
    + unfold contains_char. cbn. rewrite Ascii.eqb_sym, E. reflexivity.
    + inversion IH as [|? ? Hpiece Hrest]; subst.
      constructor; [|exact Hrest].
      unfold contains_char in *. cbn. now rewrite Ascii.eqb_sym, E.
Qed.

Lemma last_split_no_sep (sep : ascii) (s : string) :
  contains_char sep s = false -> split_on sep s = [s].
Proof.
  induction s as [|c r IH]; [reflexivity|].
  unfold contains_char. cbn. intros Hc.
  apply orb_false_iff in Hc as [Hc Hr].
  rewrite Ascii.eqb_sym, Hc. rewrite (IH Hr). reflexivity.
Qed.

Lemma last_cons_nonempty {A} (x : A) (l : list A) (d : A) :
  l <> [] -> List.last (x :: l) d = List.last l d.
Proof. destruct l; [congruence | reflexivity]. Qed.

Lemma split_on_head_kept (sep c : ascii) (r : string) :
  Ascii.eqb c sep = false ->
  List.last (split_on sep (String c r)) EmptyString =
  match split_on sep r with
  | [piece] => String c piece
  | _ => List.last (split_on sep r) EmptyString
  end.
Proof.
  intros E. cbn [split_on]. rewrite E.
  pose proof (split_on_nonempty sep r) as Hne.
  destruct (split_on sep r) as [|p [|p' ps]]; [congruence | reflexivity |].
  now rewrite last_cons_nonempty by discriminate.
Qed.

Lemma split_on_last_suffix (sep : ascii) (s : string) :
  contains_char sep s = true ->
  exists front,
    s = front +:+ String sep (List.last (split_on sep s) EmptyString).
Proof.
  induction s as [|c r IH]; [discriminate|].
  intros Hc. destruct (Ascii.eqb c sep) eqn:E.
  - assert (Hlast : List.last (split_on sep (String c r)) EmptyString =
                    List.last (split_on sep r) EmptyString).
    { cbn [split_on]. rewrite E.
      apply last_cons_nonempty, split_on_nonempty. }
    rewrite Hlast. apply Ascii.eqb_eq in E. subst c.
    destruct (contains_char sep r) eqn:Hr.
    + destruct (IH eq_refl) as [front Hfront].
      exists (String sep front).
      change (String sep r =
              String sep (front +:+ String sep (List.last (split_on sep r) EmptyString))).
      now f_equal.
    + exists EmptyString. rewrite (last_split_no_sep sep r Hr). reflexivity.
  - assert (Hr : contains_char sep r = true).
    { unfold contains_char in *. cbn in Hc.
      now rewrite Ascii.eqb_sym, E in Hc. }
    destruct (IH Hr) as [front Hfront].
    rewrite (split_on_head_kept sep c r E).
    destruct (split_on sep r) as [|p [|p' ps]] eqn:Hs.
    + exists (String c front).
      change (String c r = String c (front +:+ String sep (List.last [] EmptyString))).
      now f_equal.
    + exfalso. pose proof (join_split sep r) as Hj. rewrite Hs in Hj. cbn in Hj.
      pose proof (split_on_pieces_clean sep r) as Hclean. rewrite Hs in Hclean.
      inversion Hclean; subst. congruence.
    + exists (String c front).
      change (String c r =
              String c (front +:+ String sep (List.last (p :: p' :: ps) EmptyString))).
      now f_equal.
Qed.

Lemma split_on_single (sep : ascii) (s piece : string) :
  split_on sep s = [piece] -> contains_char sep s = false.
Proof.
  intros Hs. pose proof (join_split sep s) as Hj. rewrite Hs in Hj. cbn in Hj.
  pose proof (split_on_pieces_clean sep s) as Hclean. rewrite Hs in Hclean.
  inversion Hclean; subst. assumption.
Qed.

Lemma contains_char_app (sep : ascii) (front rest : string) :
  contains_char sep (front +:+ String sep rest) = true.
Proof.
  induction front as [|c f IH]; unfold contains_char in *.
  - change (EmptyString +:+ String sep rest) with (String sep rest).
    cbn -[Ascii.eqb]. now rewrite Ascii.eqb_refl.
  - change (String c f +:+ String sep rest) with (String c (f +:+ String sep rest)).
    cbn -[Ascii.eqb]. rewrite IH. apply orb_true_r.
Qed.

Lemma last_split_app (sep : ascii) (front rest : string) :
  List.last (split_on sep (front +:+ String sep rest)) EmptyString =
  List.last (split_on sep rest) EmptyString.
Proof.
  induction front as [|c f IH].
  - change (EmptyString +:+ String sep rest) with (String sep rest).
    cbn [split_on]. rewrite Ascii.eqb_refl.
    apply last_cons_nonempty, split_on_nonempty.
  - change (String c f +:+ String sep rest) with (String c (f +:+ String sep rest)).
    destruct (Ascii.eqb c sep) eqn:E.
    + cbn [split_on]. rewrite E.
      rewrite last_cons_nonempty by apply split_on_nonempty. exact IH.
    + rewrite (split_on_head_kept sep c _ E).
      destruct (split_on sep (f +:+ String sep rest)) as [|p [|p' ps]] eqn:Hs.
      * exact IH.
      * apply split_on_single in Hs. rewrite contains_char_app in Hs. discriminate.
      * exact IH.
Qed.

(** X9. [__init__] takes as server prefix exactly the text after the last
    hyphen of the API key: it holds no hyphen, the key is some front, a
    hyphen and the prefix, and for a key without hyphen it is the whole key.
    Joining the pieces of [split('-')] with hyphens gives the key back.
    The check of [main] lets through every key that ends in a hyphen, whose
    prefix is then empty and whose base URL has an empty host label. *)
Theorem init_takes_the_text_after_the_last_hyphen (key : string) :
  let client := init key in
  api_key client = key /\
  base_url client = "https://" +:+ server_prefix client +:+ ".api.mailchimp.com/3.0" /\
  contains_char "-" (server_prefix client) = false /\
  join_with "-" (split_on "-" key) = key /\
  (contains_char "-" key = false -> server_prefix client = key) /\
  (forall front rest,
     key = front +:+ String "-" rest ->
     contains_char "-" rest = false ->
     server_prefix client = rest) /\
  (key_rejected key = false ->
   exists front, key = front +:+ String "-" (server_prefix client)) /\
  (forall front,
     key = front +:+ "-" ->
     key_rejected key = false /\
     server_prefix client = "" /\
     base_url client = "https://.api.mailchimp.com/3.0").
Proof.
  cbv zeta. unfold init. cbn [api_key base_url server_prefix].
  assert (Hafter : forall front rest,
            key = front +:+ String "-" rest ->
            contains_char "-" rest = false ->
            List.last (split_on "-" key) EmptyString = rest).
  { intros front rest -> Hrest.
    rewrite last_split_app, (last_split_no_sep "-" rest Hrest). reflexivity. }
  split; [reflexivity|]. split; [reflexivity|]. split.
  { pose proof (split_on_pieces_clean "-" key) as Hclean.
    pose proof (split_on_nonempty "-" key) as Hne.
    destruct (exists_last Hne) as (init' & piece & Hs). rewrite Hs in *.
    rewrite last_last.
    apply Forall_app in Hclean as [_ Hlast]. now inversion Hlast. }
  split; [apply (join_split "-")|].
  split.
  { intros Hno. now rewrite (last_split_no_sep "-" key Hno). }
  split; [exact Hafter|]. split.
  - unfold key_rejected. intros Hok.
    apply orb_false_iff in Hok as [_ Hhas]. apply negb_false_iff in Hhas.
    apply (split_on_last_suffix "-" key Hhas).
  - intros front Hkey.
    assert (Hprefix : List.last (split_on "-" key) EmptyString = EmptyString)
      by (apply (Hafter front EmptyString Hkey); reflexivity).
    rewrite Hprefix. repeat split.
    unfold key_rejected. rewrite Hkey.
    rewrite (contains_char_app "-" front EmptyString).
    destruct front; reflexivity.
Qed.

Lemma init_takes_the_text_after_the_last_hyphen_witness :
  server_prefix (init "0123456789abcdef-us19") = "us19" /\
  base_url (init "0123456789abcdef-us19") = "https://us19.api.mailchimp.com/3.0".
Proof.
  destruct (init_takes_the_text_after_the_last_hyphen "0123456789abcdef-us19")
    as (_ & Hurl & _ & _ & _ & Hafter & _).
  assert (Hprefix : server_prefix (init "0123456789abcdef-us19") = "us19").
  { apply (Hafter "0123456789abcdef" "us19"); reflexivity. }
  split; [exact Hprefix|]. rewrite Hurl, Hprefix. reflexivity.
Defined.

(** ** The two generators when no request raises *)

Section AgreementWithoutExceptions.

Context `{Platform} (net : Net).
Hypothesis net_quiet : never_raises net.

Lemma basic_list_name_answered (lid : string) (w : World) :
  Basic.get_list_name net lid w =
  (Ret (list_name_of (lists_endpoint net (requests w) lid)),
   after_get (ReqList lid) None (after_enter "get_list_name" lid w)).
Proof.
  destruct net_quiet as (_ & _ & Hlists).
  destruct (Hlists (requests w) lid) as (response & Hres & _ & Hjson).
  unfold Basic.get_list_name, emit, mbind, M_bind, bind, http_get, response_json.
  cbn. rewrite Hres. unfold list_name_of.
  destruct (status_code response =? 200)%Z eqn:E; [|reflexivity].
  apply Z.eqb_eq in E. specialize (Hjson E).
  destruct (json response); [reflexivity | congruence].
Qed.

Lemma robust_list_name_answered (lid : string) (w : World) :
  Robust.get_list_name net lid w =
  (Ret (list_name_of (lists_endpoint net (requests w) lid)),
   after_get (ReqList lid) (Some 15%Z) (after_enter "get_list_name" lid w)).
Proof.
  destruct net_quiet as (_ & _ & Hlists).
  destruct (Hlists (requests w) lid) as (response & Hres & _ & _).
  unfold Robust.get_list_name, emit. cbn [seq for_range].
  unfold mbind, M_bind, bind. rewrite list_attempt_step. cbv zeta.
  cbn [requests]. rewrite Hres. reflexivity.
Qed.

Lemma basic_report_answered (campaign_id : string) (w : World) :
  Basic.get_campaign_report net campaign_id w =
  (Ret (report_of (reports_endpoint net (requests w) campaign_id)),
   after_get (ReqReport campaign_id) None w).
Proof.
  destruct net_quiet as (_ & Hreports & _).
  destruct (Hreports (requests w) campaign_id) as (response & Hres & _ & Hjson).
  unfold Basic.get_campaign_report, mbind, M_bind, bind, http_get, response_json.
  rewrite Hres. unfold report_of.
  destruct (status_code response =? 200)%Z eqn:E; [|reflexivity].
  apply Z.eqb_eq in E. specialize (Hjson E).
  destruct (json response); [reflexivity | congruence].
Qed.

Lemma robust_report_answered (campaign_id : string) (w : World) :
  Robust.get_campaign_report net campaign_id w =
  (Ret (report_of (reports_endpoint net (requests w) campaign_id)),
   after_get (ReqReport campaign_id) (Some 15%Z) w).
Proof.
  destruct net_quiet as (_ & Hreports & _).
  destruct (Hreports (requests w) campaign_id) as (response & Hres & _ & _).
  unfold Robust.get_campaign_report. cbn [seq for_range].
  unfold mbind, M_bind, bind. rewrite report_attempt_step. cbv zeta.
  rewrite Hres. reflexivity.
Qed.

(** What an iteration of the listing loop does with a response. *)
Lemma page_bodies_answered (count : nat) (acc : list Campaign) (offset : nat)
    (w1 w2 : World) :
  requests w1 = requests w2 ->
  exists c,
    Basic.page_body net count (acc, offset) w1 =
      (Ret c, after_get (ReqCampaigns offset count) None w1) /\
    Robust.page_body net count (acc, offset) w2 =
      (Ret c, after_get (ReqCampaigns offset count) (Some 30%Z) w2).
Proof.
  intros Hreq. destruct net_quiet as (Hpages & _ & _).
  destruct (Hpages (requests w1) offset count) as (response & Hres & _ & Hjson).
  assert (Hres2 : campaigns_endpoint net (requests w2) offset count = Ret response)
    by (rewrite <- Hreq; exact Hres).
  unfold Basic.page_body, Robust.page_body, try_except, mbind, M_bind, bind,
    http_get, response_json.
  rewrite Hres, Hres2.
  destruct (status_code response =? 200)%Z eqn:E; cbn [negb];
    [|eexists; split; reflexivity].
  apply Z.eqb_eq in E. specialize (Hjson E).
  destruct (json response) as [data|]; [|congruence].
  cbn -[Nat.ltb]. destruct (default [] (campaigns_key data)) as [|c page];
    [eexists; split; reflexivity|].
  destruct (length (c :: page) <? count)%nat; eexists; split; reflexivity.
Qed.

Lemma listing_agrees_quiet (count fuel : nat) :
  forall (s : list Campaign * nat) (w1 w2 : World),
  requests w1 = requests w2 ->
  exists r w1' w2',
    while_true fuel (Basic.page_body net count) s w1 = (Ret r, w1') /\
    while_true fuel (Robust.page_body net count) s w2 = (Ret r, w2') /\
    requests w1' = requests w2' /\
    disk w1' = disk w1 /\ disk w2' = disk w2.
Proof.
  induction fuel as [|fuel IH]; intros [acc offset] w1 w2 Hreq.
  - exists None, w1, w2. auto.
  - destruct (page_bodies_answered count acc offset w1 w2 Hreq)
      as (c & Hb & Hr).
    cbn [while_true]. unfold mbind, M_bind, bind. rewrite Hb, Hr.
    destruct c as [s'|r].
    + destruct (IH s' (after_get (ReqCampaigns offset count) None w1)
                  (after_get (ReqCampaigns offset count) (Some 30%Z) w2))
        as (r & w1' & w2' & H1 & H2 & Hr' & Hd1 & Hd2); [cbn; congruence|].
      exists r, w1', w2'. auto.
    + do 3 eexists. repeat split; cbn; congruence.
Qed.

Variable newsletters_path : option string.
Variable output_file : string.
Variable save_interval : Z.
Hypothesis interval_nonzero : save_interval <> 0%Z.

Ltac finish_quiet i Hreq Hd :=
  rewrite basic_report_answered, robust_report_answered;
  unfold py_mod, Robust.save_progress, write_csv, sleep, emit;
  apply Z.eqb_neq in interval_nonzero; rewrite interval_nonzero;
  change (10 =? 0)%Z with false;
  unfold mbind, M_bind, bind, mret, M_ret, ret, raise;
  cbn -[Z.modulo Z.eqb Z.of_nat Robust.make_row report_of list_name_of];
  rewrite <- ?Hreq;
  destruct (Z.of_nat i mod save_interval =? 0)%Z;
  cbn -[Z.modulo Z.eqb Z.of_nat Robust.make_row report_of list_name_of];
  destruct (Z.of_nat i mod 10 =? 0)%Z;
  cbn -[Z.modulo Z.eqb Z.of_nat Robust.make_row report_of list_name_of];
  (do 3 eexists; split; [reflexivity|]; split; [reflexivity|];
   split; cbn; [congruence|]; rewrite ?delete_insert_eq; exact Hd).

Lemma iteration_agrees_quiet (i : nat) (campaign : Campaign) (st : LoopState)
    (w1 w2 : World) :
  agree_off output_file w1 w2 ->
  exists st' w1' w2',
    Basic.process_campaign net newsletters_path i campaign st w1 = (Ret st', w1') /\
    Robust.process_campaign net newsletters_path output_file save_interval
      i campaign st w2 = (Ret st', w2') /\
    agree_off output_file w1' w2'.
Proof.
  intros [Hreq Hd].
  unfold Basic.process_campaign, Robust.process_campaign, Robust.resolve_audience.
  destruct (list_id (default no_recipients (c_recipients campaign)))
    as [[|a l]|] eqn:Hlid.
  - unfold mbind, M_bind, bind. cbn [mret M_ret ret].
    destruct (segment_opts (default no_recipients (c_recipients campaign)))
      as [[|o os]|]; cbn [mret M_ret ret]; finish_quiet i Hreq Hd.
  - destruct (list_cache st !! String a l) as [name|] eqn:Hc.
    + unfold mbind, M_bind, bind. cbn [mret M_ret ret].
      destruct (segment_opts (default no_recipients (c_recipients campaign)))
        as [[|o os]|]; cbn [mret M_ret ret]; finish_quiet i Hreq Hd.
    + unfold mbind, M_bind, bind.
      rewrite basic_list_name_answered, robust_list_name_answered.
      rewrite <- Hreq. cbn [mret M_ret ret].
      destruct (segment_opts (default no_recipients (c_recipients campaign)))
        as [[|o os]|]; cbn [mret M_ret ret]; finish_quiet i Hreq Hd.
  - unfold mbind, M_bind, bind. cbn [mret M_ret ret].
    destruct (segment_opts (default no_recipients (c_recipients campaign)))
      as [[|o os]|]; cbn [mret M_ret ret]; finish_quiet i Hreq Hd.
Qed.

Lemma loop_agrees_quiet (campaigns : list Campaign) :
  forall (i : nat) (st : LoopState) (w1 w2 : World),
  agree_off output_file w1 w2 ->
  exists st' w1' w2',
    for_enumerate (Basic.process_campaign net newsletters_path) i campaigns st w1 =
      (Ret st', w1') /\
    for_enumerate
      (Robust.process_campaign net newsletters_path output_file save_interval)
      i campaigns st w2 = (Ret st', w2') /\
    agree_off output_file w1' w2'.
Proof.
  induction campaigns as [|c cs IH]; intros i st w1 w2 Hagree.
  - exists st, w1, w2. auto.
  - destruct (iteration_agrees_quiet i c st w1 w2 Hagree)
      as (st1 & w1a & w2a & Hb & Hr & Hagree1).
    destruct (IH (S i) st1 w1a w2a Hagree1)
      as (st' & w1' & w2' & Hb' & Hr' & Hagree').
    exists st', w1', w2'. cbn [for_enumerate]. unfold mbind, M_bind, bind.
    rewrite Hb, Hr. auto.
Qed.

End AgreementWithoutExceptions.



(** ** The audience cells of a run *)

Section Audience.

Context `{Platform} (net : Net).

Lemma robust_resolve_audience_label (campaign : Campaign)
    (cache : gmap string string) (w : World) :
  exists name cache' w',
    Robust.resolve_audience net campaign cache w =
      (Ret (audience_label name campaign, cache'), w') /\
    (forall lid n, cache !! lid = Some n -> cache' !! lid = Some n) /\
    cached_name cache' campaign name.
Proof.
  unfold Robust.resolve_audience, cached_name, campaign_list_id, audience_label,
    segmented.
  destruct (list_id (default no_recipients (c_recipients campaign)))
    as [[|a l]|] eqn:Hlid.
  - unfold mbind, M_bind, bind, mret, M_ret, ret.
    exists "Unknown", cache, w.
    destruct (segment_opts _) as [[|]|]; auto.
  - destruct (cache !! String a l) as [name|] eqn:Hc.
    + unfold mbind, M_bind, bind, mret, M_ret, ret.
      exists name, cache, w.
      destruct (segment_opts _) as [[|]|]; auto.
    + destruct (robust_list_name_returns net (String a l) w)
        as (name & j & _ & Hn).
      unfold mbind, M_bind, bind, mret, M_ret, ret. rewrite Hn.
      exists name, (<[String a l := name]> cache). eexists.
      split; [destruct (segment_opts _) as [[|]|]; reflexivity|].
      split; [|apply lookup_insert_eq].
      intros lid n Hl. rewrite lookup_insert_ne; [exact Hl | congruence].
  - unfold mbind, M_bind, bind, mret, M_ret, ret.
    exists "Unknown", cache, w.
    destruct (segment_opts _) as [[|]|]; auto.
Qed.

Variable newsletters_path : option string.
Variable output_file : string.
Variable save_interval : Z.
Hypothesis interval_nonzero : save_interval <> 0%Z.

Lemma cached_name_mono (cache cache' : gmap string string)
    (campaign : Campaign) (name : string) :
  (forall lid n, cache !! lid = Some n -> cache' !! lid = Some n) ->
  cached_name cache campaign name -> cached_name cache' campaign name.
Proof.
  unfold cached_name. intros Hsub.
  destruct (campaign_list_id campaign); [apply Hsub | trivial].
Qed.

Lemma robust_loop_audiences (campaigns : list Campaign) :
  forall (i : nat) (st : LoopState) (w : World),
  exists rows cache' w',
    for_enumerate
      (Robust.process_campaign net newsletters_path output_file save_interval)
      i campaigns st w =
      (Ret {| list_cache := cache'; csv_data := csv_data st ++ rows |}, w') /\
    (forall lid n, list_cache st !! lid = Some n -> cache' !! lid = Some n) /\
    Forall2 (fun c row => exists name,
               cached_name cache' c name /\
               row_audience row = Some (VStr (audience_label name c)))
      campaigns rows.
Proof.
  induction campaigns as [|c cs IH]; intros i st w.
  - exists [], (list_cache st), w. cbn. rewrite app_nil_r.
    destruct st; repeat split; [auto | constructor].
  - destruct (robust_process_campaign_runs net newsletters_path output_file
                save_interval i c st w)
      as (audience & cache1 & report & w1 & w2 & Ha & _ & _ & _ & _ & _ & Hrun).
    destruct (robust_resolve_audience_label c (list_cache st) w)
      as (name & cache1' & w1' & Ha' & Hsub1 & Hname).
    rewrite Ha in Ha'. injection Ha' as -> <- <-.
    cbv zeta in Hrun. apply Z.eqb_neq in interval_nonzero.
    rewrite interval_nonzero in Hrun.
    match type of Hrun with _ = (Ret ?st1, ?w3) =>
      destruct (IH (S i) st1 w3) as (rows & cache' & w' & Hl & Hsub & Hrows)
    end.
    cbn [list_cache csv_data] in *.
    exists (Robust.make_row newsletters_path c (audience_label name c) report :: rows),
      cache', w'.
    cbn [for_enumerate]. unfold mbind, M_bind, bind. rewrite Hrun.
    rewrite <- app_assoc in Hl. cbn [app] in Hl.
    split; [exact Hl|]. split; [auto|].
    constructor; [|exact Hrows].
    exists name. split; [|reflexivity].
    now apply (cached_name_mono cache1 cache').
Qed.

End Audience.

(** X11. Within one run of the robust loop (interval other than 0) the
    audience cells are consistent with one table of list names, the cache at
    the end of the run: every row shows the name this table gives to the
    list of its campaign (['Unknown'] for a campaign without list id), with
    the suffix [ (Segmented)] when the campaign has segment options.  So two
    campaigns of the same list always show the same list name, even when the
    remote API would name the list differently from one request to the
    next. *)
Theorem audience_cells_follow_one_cache `{Platform} (net : Net)
    (newsletters_path : option string) (output_file : string)
    (save_interval : Z) (campaigns : list Campaign) (w : World) :
  save_interval <> 0%Z ->
  exists rows names w',
    for_enumerate
      (Robust.process_campaign net newsletters_path output_file save_interval)
      1 campaigns initial_state w =
      (Ret {| list_cache := names; csv_data := rows |}, w') /\
    Forall2 (fun c row => exists name,
               cached_name names c name /\
               row_audience row = Some (VStr (audience_label name c)))
      campaigns rows /\
    (forall j k c1 c2 row1 row2 lid,
       campaigns !! j = Some c1 -> campaigns !! k = Some c2 ->
       rows !! j = Some row1 -> rows !! k = Some row2 ->
       campaign_list_id c1 = Some lid -> campaign_list_id c2 = Some lid ->
       exists name,
         row_audience row1 = Some (VStr (audience_label name c1)) /\
         row_audience row2 = Some (VStr (audience_label name c2))).
Proof.
  intros HN.
  destruct (robust_loop_audiences net newsletters_path output_file save_interval
              HN campaigns 1 initial_state w)
    as (rows & names & w' & Hrun & _ & Hrows).
  cbn [csv_data initial_state app] in Hrun.
  exists rows, names, w'. split; [exact Hrun|]. split; [exact Hrows|].
  intros j k c1 c2 row1 row2 lid Hc1 Hc2 Hr1 Hr2 Hl1 Hl2.
  destruct (Forall2_lookup_lr _ _ _ _ _ _ Hrows Hc1 Hr1) as (name1 & Hn1 & Hcell1).
  destruct (Forall2_lookup_lr _ _ _ _ _ _ Hrows Hc2 Hr2) as (name2 & Hn2 & Hcell2).
  unfold cached_name in Hn1, Hn2. rewrite Hl1 in Hn1. rewrite Hl2 in Hn2.
  assert (name2 = name1) as -> by congruence.
  exists name1. split; assumption.
Qed.

Lemma audience_cells_follow_one_cache_witness :
  exists rows names w',
    for_enumerate
      (@Robust.process_campaign test_platform (renaming_net two_listed_campaigns)
         (Some "mailchimp_newsletters") "out.csv" 50)
      1 two_listed_campaigns initial_state fresh_world =
      (Ret {| list_cache := names; csv_data := rows |}, w') /\
    Forall2 (fun c row => exists name,
               cached_name names c name /\
               row_audience row = Some (VStr (audience_label name c)))
      two_listed_campaigns rows.
Proof.
  assert (HN : 50%Z <> 0%Z) by discriminate.
  destruct (@audience_cells_follow_one_cache test_platform
              (renaming_net two_listed_campaigns) (Some "mailchimp_newsletters")
              "out.csv" 50 two_listed_campaigns fresh_world HN)
    as (rows & names & w' & Hrun & Hrows & _).
  exists rows, names, w'. split; [exact Hrun | exact Hrows].
Defined.

(** ** Requests and pauses of the robust loop *)

Section Traffic.

Context `{Platform} (net : Net).
Variable newsletters_path : option string.
Variable output_file : string.
Variable save_interval : Z.
Hypothesis interval_nonzero : save_interval <> 0%Z.

Let body := Robust.process_campaign net newsletters_path output_file save_interval.

Lemma robust_resolve_audience_requests (campaign : Campaign)
    (cache : gmap string string) (w : World) :
  exists out w',
    Robust.resolve_audience net campaign cache w = (Ret out, w') /\
    requests w <= requests w' <= requests w + 3.
Proof.
  unfold Robust.resolve_audience.
  destruct (list_id (default no_recipients (c_recipients campaign)))
    as [[|a l]|] eqn:Hlid.
  - unfold mbind, M_bind, bind, mret, M_ret, ret.
    destruct (segment_opts _) as [[|]|]; do 2 eexists; (split; [reflexivity | lia]).
  - destruct (cache !! String a l) as [name|] eqn:Hc.
    + unfold mbind, M_bind, bind, mret, M_ret, ret.
      destruct (segment_opts _) as [[|]|]; do 2 eexists; (split; [reflexivity | lia]).
    + destruct (robust_list_name_returns net (String a l) w)
        as (name & j & Hj & Hn).
      unfold mbind, M_bind, bind, mret, M_ret, ret. rewrite Hn.
      destruct (segment_opts _) as [[|]|]; do 2 eexists;
        (split; [reflexivity | cbn; lia]).
  - unfold mbind, M_bind, bind, mret, M_ret, ret.
    destruct (segment_opts _) as [[|]|]; do 2 eexists; (split; [reflexivity | lia]).
Qed.

(** One iteration: between one and six requests, and the pause of the
    tenth campaigns as the only sleep of half a second. *)
Lemma robust_iteration_traffic (i : nat) (campaign : Campaign) (st : LoopState)
    (w : World) :
  exists st' w',
    body i campaign st w = (Ret st', w') /\
    requests w + 1 <= requests w' <= requests w + 6 /\
    tally is_pacing (log w') =
      tally is_pacing (log w) + (if (i mod 10 =? 0)%nat then 1 else 0).
Proof.
  destruct (robust_process_campaign_runs net newsletters_path output_file
              save_interval i campaign st w)
    as (audience & cache' & report & w1 & w2 & Ha & _ & Hcase & Hr & _ & Hlog2 & Hrun).
  destruct (robust_resolve_audience_requests campaign (list_cache st) w)
    as (out & w1' & Ha' & Hreq1).
  rewrite Ha in Ha'. injection Ha' as _ <-.
  destruct (robust_report_returns net (campaign_id_of campaign) w1)
    as (report' & j & Hj & Hr').
  rewrite Hr in Hr'. injection Hr' as _ ->.
  cbv zeta in Hrun. apply Z.eqb_neq in interval_nonzero.
  rewrite interval_nonzero in Hrun. fold body in Hrun.
  do 2 eexists. split; [exact Hrun|]. cbn [requests log].
  split; [lia|].
  rewrite !tally_app.
  rewrite (tally_attempts_zero is_pacing) by reflexivity.
  assert (Hlog1 : tally is_pacing (log w1) = tally is_pacing (log w)).
  { destruct Hcase as [[_ ->] | (lid & name & j1 & _ & _ & _ & ->)]; [reflexivity|].
    change (EvEnter "get_list_name" lid :: attempts_log (ReqList lid) (Some 15%Z) j1)
      with ([EvEnter "get_list_name" lid] ++ attempts_log (ReqList lid) (Some 15%Z) j1).
    rewrite !tally_app, (tally_attempts_zero is_pacing) by reflexivity.
    cbn. lia. }
  rewrite Hlog1. unfold pacing.
  change 10%Z with (Z.of_nat 10). rewrite checkpoint_test_nat.
  destruct (i mod 10 =? 0)%nat; cbn;
    change (Qeq_bool (1 # 2) (1 # 2)) with true; cbn; lia.
Qed.

Lemma div_succ_ten (n : nat) :
  S n / 10 = n / 10 + (if (S n mod 10 =? 0)%nat then 1 else 0).
Proof.
  destruct (S n mod 10 =? 0)%nat eqn:E.
  - apply Nat.eqb_eq in E.
    destruct (div_succ_exact n 10 ltac:(lia) E) as [Hexact _].
    pose proof (Nat.div_mod_eq n 10) as Hn.
    pose proof (Nat.mod_upper_bound n 10 ltac:(lia)) as Hlt.
    lia.
  - apply Nat.eqb_neq in E. rewrite (div_succ_inexact n 10) by (lia || exact E). lia.
Qed.

Lemma robust_loop_traffic (campaigns : list Campaign) (w : World) :
  exists st' w',
    for_enumerate body 1 campaigns initial_state w = (Ret st', w') /\
    requests w + length campaigns <= requests w' <=
      requests w + 6 * length campaigns /\
    tally is_pacing (log w') = tally is_pacing (log w) + length campaigns / 10.
Proof.
  induction campaigns as [|c cs IH] using rev_ind.
  - exists initial_state, w. cbn. split; [reflexivity|]. lia.
  - destruct IH as (st1 & w1 & Hrun1 & Hreq1 & Hpace1).
    destruct (robust_iteration_traffic (1 + length cs) c st1 w1)
      as (st' & w' & Hstep & Hreq & Hpace).
    exists st', w'. split.
    { rewrite for_enumerate_app, Hrun1. cbn [for_enumerate].
      unfold mbind, M_bind, bind. now rewrite Hstep. }
    rewrite length_app. cbn [length].
    replace (length cs + 1) with (S (length cs)) by lia.
    split; [lia|]. rewrite Hpace, Hpace1.
    cbn [Nat.add]. rewrite (div_succ_ten (length cs)). lia.
Qed.

End Traffic.

(** X12. The robust loop (interval other than 0) pauses for half a second
    exactly after every tenth campaign: over [n] campaigns it logs
    [floor(n / 10)] such sleeps, whatever the remote API answers and however
    many retries (which sleep 2) it takes. *)
Theorem robust_loop_pauses_every_tenth_campaign `{Platform} (net : Net)
    (newsletters_path : option string) (output_file : string)
    (save_interval : Z) (campaigns : list Campaign) (w : World) :
  save_interval <> 0%Z ->
  exists st' w',
    for_enumerate
      (Robust.process_campaign net newsletters_path output_file save_interval)
      1 campaigns initial_state w = (Ret st', w') /\
    tally is_pacing (log w') =
      tally is_pacing (log w) + length campaigns / 10.
Proof.
  intros HN.
  destruct (robust_loop_traffic net newsletters_path output_file save_interval
              HN campaigns w) as (st' & w' & Hrun & _ & Hpace).
  exists st', w'. split; assumption.
Qed.

Lemma robust_loop_pauses_every_tenth_campaign_witness :
  exists st' w',
    for_enumerate
      (@Robust.process_campaign test_platform (static_net three_campaigns)
         (Some "mailchimp_newsletters") "out.csv" 50)
      1 (three_campaigns ++ three_campaigns ++ three_campaigns ++ three_campaigns)
      initial_state fresh_world = (Ret st', w') /\
    tally is_pacing (log w') = 1.
Proof.
  assert (HN : 50%Z <> 0%Z) by discriminate.
  destruct (@robust_loop_pauses_every_tenth_campaign test_platform
              (static_net three_campaigns) (Some "mailchimp_newsletters")
              "out.csv" 50
              (three_campaigns ++ three_campaigns ++ three_campaigns ++ three_campaigns)
              fresh_world HN) as (st' & w' & Hrun & Hpace).
  exists st', w'. split; [exact Hrun | exact Hpace].
Defined.

(** X13. Each campaign costs the robust loop (interval other than 0) at
    least one and at most six requests, three for the list name and three
    for the report, whatever the remote API answers: over [n] campaigns the
    loop issues between [n] and [6 n] requests. *)
Theorem robust_loop_issues_at_most_six_requests_per_campaign `{Platform}
    (net : Net) (newsletters_path : option string) (output_file : string)
    (save_interval : Z) (campaigns : list Campaign) (w : World) :
  save_interval <> 0%Z ->
  exists st' w',
    for_enumerate
      (Robust.process_campaign net newsletters_path output_file save_interval)
      1 campaigns initial_state w = (Ret st', w') /\
    requests w + length campaigns <= requests w' /\
    requests w' <= requests w + 6 * length campaigns.
Proof.
  intros HN.
  destruct (robust_loop_traffic net newsletters_path output_file save_interval
              HN campaigns w) as (st' & w' & Hrun & [Hlo Hhi] & _).
  exists st', w'. repeat split; assumption.
Qed.

Lemma robust_loop_issues_at_most_six_requests_per_campaign_witness :
  exists st' w',
    for_enumerate
      (@Robust.process_campaign test_platform (static_net three_campaigns)
         (Some "mailchimp_newsletters") "out.csv" 50)
      1 three_campaigns initial_state fresh_world = (Ret st', w') /\
    requests fresh_world + length three_campaigns <= requests w' /\
    requests w' <= requests fresh_world + 6 * length three_campaigns.
Proof.
  assert (HN : 50%Z <> 0%Z) by discriminate.
  exact (@robust_loop_issues_at_most_six_requests_per_campaign test_platform
           (static_net three_campaigns) (Some "mailchimp_newsletters")
           "out.csv" 50 three_campaigns fresh_world HN).
Defined.

(** ** The downloader: what a run writes, and where the generators look *)

Section DownloaderRun.
Context `{P : Platform} `{R : Downloader.Runtime} (api : Downloader.Api).

Lemma find_local_file_probe (w : Downloader.Store) (dir : string)
    (campaign : Campaign) :
  is_Some (Downloader.files w !! path_join dir (markdown_name campaign)) ->
  found_after w dir campaign.
Proof.
  intros Hfile. exists (path_join dir (markdown_name campaign)).
  split; [exact Hfile|].
  assert (Hex : @path_exists (browsing P w)
                  (path_join dir (markdown_name campaign)) = true).
  { cbn. rewrite bool_decide_eq_true_2 by exact Hfile. reflexivity. }
  split.
  - unfold Robust.find_local_file.
    change (@path_join (browsing P w)) with (@path_join P).
    change (@path_absolute (browsing P w)) with (@path_absolute P).
    change (path_join dir _) with (path_join dir (markdown_name campaign)) at 1.
    rewrite Hex. reflexivity.
  - unfold Basic.find_local_file.
    change (@path_join (browsing P w)) with (@path_join P).
    change (@path_absolute (browsing P w)) with (@path_absolute P).
    change (path_join dir _) with (path_join dir (markdown_name campaign)) at 1.
    rewrite Hex. reflexivity.
Qed.

Lemma create_markdown_file_run (campaign : Downloader.Newsletter)
    (content : option Downloader.Content)
    (report : option Downloader.ReportBody) (dir : string)
    (w : Downloader.Store) :
  exists text,
    Downloader.create_markdown_file campaign content report dir w =
      let path :=
        path_join dir (markdown_name (Downloader.as_campaign campaign)) in
      if Downloader.open_succeeds (Downloader.requests_made w) path
      then (Downloader.Done path,
            {| Downloader.requests_made := Downloader.requests_made w;
               Downloader.calls := Downloader.calls w;
               Downloader.directories := Downloader.directories w;
               Downloader.files := <[path := text]> (Downloader.files w) |})
      else (Downloader.Fail Downloader.OSError, w).
Proof.
  unfold Downloader.create_markdown_file, markdown_name.
  destruct (truthy_str (default "" (c_send_time (Downloader.as_campaign campaign)))).
  - destruct (strptime (default "" (c_send_time (Downloader.as_campaign campaign)))).
    + eexists. unfold mbind, Downloader.D_bind, Downloader.and_then,
        Downloader.now_date, Downloader.write_file. cbn.
      destruct (Downloader.open_succeeds _ _); reflexivity.
    + eexists. unfold mbind, Downloader.D_bind, Downloader.and_then,
        Downloader.now_date, Downloader.write_file. cbn.
      destruct (Downloader.open_succeeds _ _); reflexivity.
  - eexists. unfold mbind, Downloader.D_bind, Downloader.and_then,
      Downloader.now_date, Downloader.write_file. cbn.
    destruct (Downloader.open_succeeds _ _); reflexivity.
Qed.

Lemma saved_under_refl (dir : string) (cs : list Downloader.Newsletter)
    (w w' : Downloader.Store) :
  Downloader.directories w' = Downloader.directories w ->
  Downloader.files w' = Downloader.files w ->
  saved_under dir cs w w'.
Proof.
  intros Hd Hf. unfold saved_under. rewrite Hd, Hf.
  split; [reflexivity|]. split; [auto|]. intros p Hp. congruence.
Qed.

Lemma saved_under_trans (dir : string) (c : Downloader.Newsletter)
    (cs : list Downloader.Newsletter) (w w1 w2 : Downloader.Store) :
  saved_under dir [c] w w1 -> saved_under dir cs w1 w2 ->
  saved_under dir (c :: cs) w w2.
Proof.
  intros (Hd1 & Hk1 & Hc1) (Hd2 & Hk2 & Hc2).
  split; [congruence|]. split; [auto|].
  intros p Hp.
  destruct (decide (Downloader.files w1 !! p = Downloader.files w !! p))
    as [Heq|Hne].
  - destruct (Hc2 p) as (c' & Hin & Hpath); [congruence|].
    exists c'. split; [right; exact Hin | exact Hpath].
  - destruct (Hc1 p Hne) as (c' & [Hin|[]] & Hpath).
    exists c'. split; [left; exact Hin | exact Hpath].
Qed.

Lemma get_campaign_content_run (campaign_id : option string)
    (w : Downloader.Store) :
  exists res,
    Downloader.get_campaign_content api campaign_id w =
      (res, called w (Downloader.GetContent (Downloader.id_text campaign_id)))
    /\ forall e, res = Downloader.Fail e ->
                 exists e', e = Downloader.RequestFailure e'.
Proof.
  unfold Downloader.get_campaign_content, mbind, Downloader.D_bind,
    Downloader.and_then, Downloader.http_get.
  fold (called w (Downloader.GetContent (Downloader.id_text campaign_id))).
  destruct (Downloader.campaign_content api _ _) as [r|e].
  - destruct (status_code r =? 200)%Z.
    + unfold Downloader.response_json. destruct (json r).
      * eexists. split; [reflexivity|]. discriminate.
      * eexists. split; [reflexivity|]. intros e [= <-]. eauto.
    + eexists. split; [reflexivity|]. discriminate.
  - eexists. split; [reflexivity|]. intros e0 [= <-]. eauto.
Qed.

Lemma get_campaign_report_run (campaign_id : option string)
    (w : Downloader.Store) :
  exists res,
    Downloader.get_campaign_report api campaign_id w =
      (res, called w (Downloader.GetReport (Downloader.id_text campaign_id)))
    /\ forall e, res = Downloader.Fail e ->
                 exists e', e = Downloader.RequestFailure e'.
Proof.
  unfold Downloader.get_campaign_report, mbind, Downloader.D_bind,
    Downloader.and_then, Downloader.http_get.
  fold (called w (Downloader.GetReport (Downloader.id_text campaign_id))).
  destruct (Downloader.campaign_report api _ _) as [r|e].
  - destruct (status_code r =? 200)%Z.
    + unfold Downloader.response_json. destruct (json r).
      * eexists. split; [reflexivity|]. discriminate.
      * eexists. split; [reflexivity|]. intros e [= <-]. eauto.
    + eexists. split; [reflexivity|]. discriminate.
  - eexists. split; [reflexivity|]. intros e0 [= <-]. eauto.
Qed.

(** One campaign: two requests; it is counted once, as saved (its file is
    then there) or as failed (nothing is written); only a request makes
    the iteration raise. *)
Lemma download_campaign_cases (dir : string) (c : Downloader.Newsletter)
    (s f : nat) (w : Downloader.Store) :
  match Downloader.download_campaign api dir c (s, f) w with
  | (Downloader.Done (s', f'), w') =>
      Downloader.requests_made w' = Downloader.requests_made w + 2 /\
      saved_under dir [c] w w' /\
      ((s' = s + 1 /\ f' = f /\
        is_Some (Downloader.files w' !! saved_path dir c)) \/
       (s' = s /\ f' = f + 1 /\ Downloader.files w' = Downloader.files w))
  | (Downloader.Fail e, w') =>
      (exists e', e = Downloader.RequestFailure e') /\
      saved_under dir [c] w w'
  end.
Proof.
  unfold Downloader.download_campaign.
  destruct (get_campaign_content_run (c_id (Downloader.as_campaign c)) w)
    as (res1 & Hrun1 & Hfail1).
  set (w1 := called w _) in *.
  destruct (get_campaign_report_run (c_id (Downloader.as_campaign c)) w1)
    as (res2 & Hrun2 & Hfail2).
  set (w2 := called w1 _) in *.
  unfold mbind, Downloader.D_bind, Downloader.and_then at 1.
  rewrite Hrun1.
  destruct res1 as [content|e1].
  2:{ split; [eauto|]. apply saved_under_refl; reflexivity. }
  unfold Downloader.and_then at 1. rewrite Hrun2.
  destruct res2 as [report|e2].
  2:{ split; [eauto|]. apply saved_under_refl; reflexivity. }
  destruct (Downloader.truthy_content content).
  2:{ cbn. split; [lia|]. split; [apply saved_under_refl; reflexivity|].
      right. auto. }
  unfold Downloader.try_except, Downloader.and_then.
  destruct (create_markdown_file_run c content report dir w2) as (text & ->).
  cbn zeta. unfold saved_path.
  set (p0 := path_join dir (markdown_name (Downloader.as_campaign c))).
  destruct (Downloader.open_succeeds _ _).
  - cbn -[p0]. split; [lia|]. split.
    + split; [reflexivity|]. split.
      * intros p Hp. cbn [Downloader.files].
        destruct (decide (p0 = p)) as [<-|Hne].
        -- rewrite lookup_insert_eq. eauto.
        -- rewrite lookup_insert_ne by exact Hne. exact Hp.
      * intros p Hp. exists c. split; [left; reflexivity|].
        cbn [Downloader.files] in Hp.
        destruct (decide (p0 = p)) as [<-|Hne]; [reflexivity|].
        rewrite lookup_insert_ne in Hp by exact Hne. contradiction.
    + left. split; [reflexivity|]. split; [reflexivity|].
      cbn [Downloader.files]. rewrite lookup_insert_eq. eauto.
  - cbn. split; [lia|]. split; [apply saved_under_refl; reflexivity|].
    right. auto.
Qed.

Lemma download_loop_cases (dir : string) (cs : list Downloader.Newsletter) :
  forall (s f : nat) (w : Downloader.Store),
  match Downloader.for_each (Downloader.download_campaign api dir) cs (s, f) w
  with
  | (Downloader.Done (s', f'), w') =>
      s' + f' = s + f + length cs /\ f <= f' /\
      Downloader.requests_made w' = Downloader.requests_made w + 2 * length cs
      /\ saved_under dir cs w w' /\
      (f' = f -> forall c, In c cs ->
                 is_Some (Downloader.files w' !! saved_path dir c))
  | (Downloader.Fail e, w') =>
      (exists e', e = Downloader.RequestFailure e') /\
      saved_under dir cs w w'
  end.
Proof.
  induction cs as [|c cs IH]; intros s f w.
  - cbn. split; [lia|]. split; [lia|]. split; [lia|].
    split; [apply saved_under_refl; reflexivity|]. intros _ c [].
  - cbn [Downloader.for_each].
    unfold mbind, Downloader.D_bind, Downloader.and_then.
    pose proof (download_campaign_cases dir c s f w) as Hstep.
    destruct (Downloader.download_campaign api dir c (s, f) w)
      as [[[s1 f1]|e] w1].
    2:{ destruct Hstep as [He Hs]. split; [exact He|].
        eapply saved_under_trans; [exact Hs|].
        apply saved_under_refl; reflexivity. }
    destruct Hstep as (Hreq & Hs & Hcount).
    specialize (IH s1 f1 w1).
    destruct (Downloader.for_each _ cs (s1, f1) w1) as [[[s2 f2]|e] w2].
    2:{ destruct IH as [He Hs']. split; [exact He|].
        eapply saved_under_trans; eassumption. }
    destruct IH as (Hsum & Hle & Hreq' & Hs' & Hall).
    cbn [length].
    split; [destruct Hcount as [(-> & -> & _)|(-> & -> & _)]; lia|].
    split; [destruct Hcount as [(-> & -> & _)|(-> & -> & _)]; lia|].
    split; [lia|]. split; [eapply saved_under_trans; eassumption|].
    intros -> c' [<-|Hin].
    + destruct Hcount as [(_ & _ & Hfile)|(_ & -> & _)]; [|lia].
      destruct Hs' as (_ & Hkeep & _). apply Hkeep, Hfile.
    + destruct Hcount as [(_ & -> & _)|(_ & -> & _)]; [|lia].
      apply Hall; [reflexivity | exact Hin].
Qed.

Lemma page_body_store (count : nat) (s : list Downloader.Newsletter * nat)
    (w : Downloader.Store) :
  let w' := snd (Downloader.page_body api count s w) in
  Downloader.files w' = Downloader.files w /\
  Downloader.directories w' = Downloader.directories w /\
  forall e, fst (Downloader.page_body api count s w) = Downloader.Fail e ->
            exists e', e = Downloader.RequestFailure e'.
Proof.
  destruct s as [campaigns offset].
  unfold Downloader.page_body, mbind, Downloader.D_bind, Downloader.and_then,
    Downloader.http_get.
  destruct (Downloader.list_campaigns api _ _ _) as [r|e].
  - destruct (status_code r =? 200)%Z; cbn [negb].
    + unfold Downloader.response_json. destruct (json r) as [data|].
      * cbn -[Nat.ltb]. destruct (default [] (Downloader.listed data)).
        -- cbn. repeat split. discriminate.
        -- destruct (Nat.ltb _ _); cbn; repeat split; discriminate.
      * cbn. repeat split. intros e [= <-]. eauto.
    + cbn. repeat split. discriminate.
  - cbn. repeat split. intros e0 [= <-]. eauto.
Qed.

Lemma listing_store (count fuel : nat) :
  forall (s : list Downloader.Newsletter * nat) (w : Downloader.Store),
  let run := Downloader.while_true fuel (Downloader.page_body api count) s w in
  Downloader.files (snd run) = Downloader.files w /\
  Downloader.directories (snd run) = Downloader.directories w /\
  forall e, fst run = Downloader.Fail e ->
            exists e', e = Downloader.RequestFailure e'.
Proof.
  induction fuel as [|fuel IH]; intros s w.
  - cbn. repeat split. discriminate.
  - cbn [Downloader.while_true].
    unfold mbind, Downloader.D_bind, Downloader.and_then.
    pose proof (page_body_store count s w) as Hpage. cbn zeta in Hpage.
    destruct (Downloader.page_body api count s w) as [[[s'|r]|e] w1];
      cbn [fst snd] in Hpage; destruct Hpage as (Hf & Hd & He).
    + specialize (IH s' w1). cbn zeta in IH.
      destruct IH as (Hf' & Hd' & He').
      cbn zeta. split; [congruence|]. split; [congruence|]. exact He'.
    + cbn. split; [exact Hf|]. split; [exact Hd|]. discriminate.
    + cbn. split; [exact Hf|]. split; [exact Hd|].
      intros e0 [= <-]. apply (He e eq_refl).
Qed.

Lemma string_append_assoc (a b c : string) :
  (a +:+ b) +:+ c = a +:+ (b +:+ c).
Proof.
  induction a as [|x a IH]; [reflexivity|].
  change (String x ((a +:+ b) +:+ c) = String x (a +:+ (b +:+ c))).
  f_equal. exact IH.
Qed.

Lemma saved_path_parts (dir : string) (c : Downloader.Newsletter) :
  exists date subject,
    saved_path dir c =
    path_join dir
      (date +:+ "_" +:+ Downloader.sanitize_filename subject +:+ ".md").
Proof.
  unfold saved_path, markdown_name. cbv zeta.
  eexists. eexists. reflexivity.
Qed.

(** The name of a campaign whose send time does not parse. *)
Lemma markdown_name_unparsed (campaign : Campaign) (send_time : string) :
  c_send_time campaign = Some send_time ->
  strptime send_time = None ->
  10 <= py_len send_time ->
  markdown_name campaign =
    py_prefix 10 send_time +:+ "_"
    +:+ Downloader.sanitize_filename
          (default "No Subject"
             (subject_line (default no_settings (c_settings campaign))))
    +:+ ".md".
Proof.
  intros Hsend Hparse Hlen. unfold markdown_name. rewrite Hsend.
  change (default "" (Some send_time)) with send_time. rewrite Hparse.
  assert (Htruthy : truthy_str send_time = true).
  { destruct send_time; [cbn in Hlen; lia | reflexivity]. }
  rewrite Htruthy. apply Nat.leb_le in Hlen. rewrite Hlen. reflexivity.
Qed.

(** What [download_all_newsletters] does after a listing that returned
    [cs]. *)
Lemma download_all_newsletters_run (fuel : nat) (dir : string)
    (w w1 : Downloader.Store) (cs : list Downloader.Newsletter) :
  Downloader.mkdir_succeeds dir = true ->
  Downloader.get_all_campaigns api fuel (made w dir) =
    (Downloader.Done (Some cs), w1) ->
  Downloader.download_all_newsletters api fuel dir w =
    match cs with
    | [] => (Downloader.Done (Some None), w1)
    | _ :: _ =>
        match Downloader.for_each (Downloader.download_campaign api dir) cs
                (0, 0) w1 with
        | (Downloader.Done counts, w') =>
            (Downloader.Done (Some (Some counts)), w')
        | (Downloader.Fail e, w') => (Downloader.Fail e, w')
        end
    end.
Proof.
  intros Hmk Hlist.
  unfold Downloader.download_all_newsletters, mbind, Downloader.D_bind,
    Downloader.and_then, Downloader.mkdir.
  rewrite Hmk. fold (made w dir). rewrite Hlist.
  destruct cs; reflexivity.
Qed.

End DownloaderRun.



(** X15. When [download_all_newsletters] ends with no failure, the
    generators, started on the directory it leaves, find a file for every
    campaign it listed: the output directory exists, and for each campaign
    [find_local_file] of either generator returns the absolute path of a
    file the run has written. *)
Theorem saved_newsletters_are_found_by_the_generators `{P : Platform}
    `{R : Downloader.Runtime} (api : Downloader.Api) (fuel : nat)
    (dir : string) (w w1 w' : Downloader.Store)
    (cs : list Downloader.Newsletter) (successful : nat) :
  Downloader.get_all_campaigns api fuel (made w dir) =
    (Downloader.Done (Some cs), w1) ->
  Downloader.download_all_newsletters api fuel dir w =
    (Downloader.Done (Some (Some (successful, 0))), w') ->
  @path_exists (browsing P w') dir = true /\
  forall campaign,
    In campaign cs -> found_after w' dir (Downloader.as_campaign campaign).
Proof.
  intros Hlist Hrun.
  destruct (Downloader.mkdir_succeeds dir) eqn:Hmk.
  2:{ unfold Downloader.download_all_newsletters, mbind, Downloader.D_bind,
        Downloader.and_then, Downloader.mkdir in Hrun.
      rewrite Hmk in Hrun. discriminate. }
  rewrite (download_all_newsletters_run api fuel dir w w1 cs Hmk Hlist) in Hrun.
  destruct cs as [|c cs]; [discriminate|].
  pose proof (download_loop_cases api dir (c :: cs) 0 0 w1) as Hloop.
  destruct (Downloader.for_each _ (c :: cs) (0, 0) w1) as [[[s f]|e] w2];
    [|discriminate].
  injection Hrun as -> -> ->.
  destruct Hloop as (_ & _ & _ & (Hdirs & _ & _) & Hall).
  pose proof (listing_store api 1000 fuel ([], 0) (made w dir)) as Hstore.
  cbn zeta in Hstore. fold (Downloader.get_all_campaigns api fuel) in Hstore.
  rewrite Hlist in Hstore. cbn [fst snd] in Hstore.
  destruct Hstore as (_ & Hd1 & _).
  split.
  - cbn. rewrite Hdirs, Hd1. cbn [Downloader.directories made].
    rewrite (bool_decide_eq_true_2 (dir ∈ _)); [apply orb_true_r|].
    apply elem_of_app. right. apply list_elem_of_singleton. reflexivity.
  - intros campaign Hin. apply find_local_file_probe.
    apply (Hall eq_refl campaign Hin).
Qed.

Lemma saved_newsletters_are_found_by_the_generators_witness :
  exists w',
    @path_exists (browsing test_platform w') "mailchimp_newsletters" = true /\
    forall campaign,
      In campaign two_issues ->
      @found_after test_platform w' "mailchimp_newsletters"
        (Downloader.as_campaign campaign).
Proof.
  eexists.
  refine (@saved_newsletters_are_found_by_the_generators test_platform
            test_runtime (archive_api two_issues) 5 "mailchimp_newsletters"
            empty_store _ _ two_issues 2 _ _).
  - vm_compute. reflexivity.
  - vm_compute. reflexivity.
Defined.

(** X16. Whatever the remote API and the file system do, and however the
    run ends, [download_all_newsletters] removes no file, and every file
    it creates or changes is at a path of the form
    [output_dir / (date + "_" + sanitize_filename(subject) + ".md")].
    Only the subject is sanitized: when the send time of a campaign does
    not parse, [create_markdown_file] takes its first ten characters as the
    date part as they are, so the file need not lie in the output directory
    (the witness has it under [../escape]). *)
Theorem download_writes_only_newsletter_paths
    `{P : Platform} `{R : Downloader.Runtime} (api : Downloader.Api)
    (fuel : nat) (dir : string) (w : Downloader.Store) :
  let w' := snd (Downloader.download_all_newsletters api fuel dir w) in
  (forall path, is_Some (Downloader.files w !! path) ->
                is_Some (Downloader.files w' !! path)) /\
  (forall path, Downloader.files w' !! path <> Downloader.files w !! path ->
                exists date subject,
                  path =
                  path_join dir
                    (date +:+ "_" +:+ Downloader.sanitize_filename subject
                     +:+ ".md")) /\
  (forall campaign content report w0 send_time,
      c_send_time (Downloader.as_campaign campaign) = Some send_time ->
      strptime send_time = None ->
      10 <= py_len send_time ->
      let path :=
        path_join dir
          (py_prefix 10 send_time +:+ "_"
           +:+ Downloader.sanitize_filename
                 (default "No Subject"
                    (subject_line
                       (default no_settings
                          (c_settings (Downloader.as_campaign campaign)))))
           +:+ ".md") in
      Downloader.open_succeeds (Downloader.requests_made w0) path = true ->
      let saved :=
        Downloader.create_markdown_file campaign content report dir w0 in
      fst saved = Downloader.Done path /\
      is_Some (Downloader.files (snd saved) !! path)).
Proof.
  cbv zeta.
  assert (Hgoal : forall w0 w',
            Downloader.files w0 = Downloader.files w ->
            (exists cs, saved_under dir cs w0 w') ->
            (forall path, is_Some (Downloader.files w !! path) ->
                          is_Some (Downloader.files w' !! path)) /\
            (forall path,
                Downloader.files w' !! path <> Downloader.files w !! path ->
                exists date subject,
                  path =
                  path_join dir
                    (date +:+ "_" +:+ Downloader.sanitize_filename subject
                     +:+ ".md"))).
  { intros w0 w' Hsame (cs & _ & Hkeep & Hchanged). rewrite <- Hsame.
    split; [exact Hkeep|].
    intros path Hpath. destruct (Hchanged path Hpath) as (c & _ & ->).
    apply saved_path_parts. }
  assert (Hrun :
    (forall path, is_Some (Downloader.files w !! path) ->
       is_Some (Downloader.files
                  (snd (Downloader.download_all_newsletters api fuel dir w))
                !! path)) /\
    (forall path,
       Downloader.files
         (snd (Downloader.download_all_newsletters api fuel dir w)) !! path
       <> Downloader.files w !! path ->
       exists date subject,
         path =
         path_join dir
           (date +:+ "_" +:+ Downloader.sanitize_filename subject +:+ ".md"))).
  { unfold Downloader.download_all_newsletters, mbind, Downloader.D_bind,
      Downloader.and_then, Downloader.mkdir.
    destruct (Downloader.mkdir_succeeds dir).
    2:{ apply (Hgoal w w eq_refl). exists [].
        apply saved_under_refl; reflexivity. }
    fold (made w dir).
    pose proof (listing_store api 1000 fuel ([], 0) (made w dir)) as Hstore.
    cbn zeta in Hstore. fold (Downloader.get_all_campaigns api fuel) in Hstore.
    destruct (Downloader.get_all_campaigns api fuel (made w dir))
      as [[fetched|e] w1]; cbn [fst snd] in Hstore;
      destruct Hstore as (Hf1 & _ & _); cbn [Downloader.files made] in Hf1.
    2:{ apply (Hgoal w1 w1 Hf1). exists [].
        apply saved_under_refl; reflexivity. }
    destruct fetched as [[|c cs]|].
    - apply (Hgoal w1 w1 Hf1). exists []. apply saved_under_refl; reflexivity.
    - pose proof (download_loop_cases api dir (c :: cs) 0 0 w1) as Hloop.
      destruct (Downloader.for_each _ (c :: cs) (0, 0) w1) as [[[s f]|e] w'].
      + cbn [snd]. apply (Hgoal w1 w' Hf1). exists (c :: cs).
        destruct Hloop as (_ & _ & _ & Hs & _). exact Hs.
      + cbn [snd]. apply (Hgoal w1 w' Hf1). exists (c :: cs).
        destruct Hloop as (_ & Hs). exact Hs.
    - apply (Hgoal w1 w1 Hf1). exists []. apply saved_under_refl; reflexivity. }
  destruct Hrun as [Hkeep Hchanged].
  split; [exact Hkeep|]. split; [exact Hchanged|].
  intros campaign content report w0 send_time Hsend Hparse Hlen Hopen.
  destruct (create_markdown_file_run campaign content report dir w0)
    as (text & ->).
  cbv zeta.
  rewrite (markdown_name_unparsed _ send_time Hsend Hparse Hlen).
  rewrite Hopen. cbn [fst snd Downloader.files].
  split; [reflexivity|]. rewrite lookup_insert_eq. eauto.
Qed.

Lemma download_writes_only_newsletter_paths_witness :
  let saved :=
    @Downloader.create_markdown_file test_platform test_runtime odd_issue
      None None "mailchimp_newsletters" empty_store in
  fst saved =
    Downloader.Done "mailchimp_newsletters/../escape/_Spring_news.md" /\
  is_Some (Downloader.files (snd saved)
           !! "mailchimp_newsletters/../escape/_Spring_news.md").
Proof.
  refine (proj2 (proj2 (@download_writes_only_newsletter_paths test_platform
                          test_runtime (archive_api two_issues) 5
                          "mailchimp_newsletters" empty_store))
            odd_issue None None empty_store "../escape/" eq_refl eq_refl _
            eq_refl).
  vm_compute. lia.
Defined.

(** ** Newsletters that share their date and subject *)

Lemma size_union_bound (X Y : gset string) : size (X ∪ Y) <= size X + size Y.
Proof.
  rewrite size_union_alt.
  assert (size (Y ∖ X) <= size Y).
  { apply subseteq_size. intros p Hp. apply elem_of_difference in Hp.
    apply Hp. }
  lia.
Qed.

Lemma size_list_to_set_le (l : list string) :
  size (list_to_set (C := gset string) l) <= length l.
Proof.
  induction l as [|x l IH]; cbn [list_to_set length].
  - rewrite size_empty. lia.
  - pose proof (size_union_bound {[x]} (list_to_set l)) as Hb.
    rewrite size_singleton in Hb. lia.
Qed.

Lemma size_list_to_set_repeated (l : list string) :
  forall (i j : nat) (x : string),
    i < j -> l !! i = Some x -> l !! j = Some x ->
    size (list_to_set (C := gset string) l) < length l.
Proof.
  induction l as [|y l IH]; intros i j x Hij Hi Hj; [destruct i; discriminate|].
  destruct j as [|j]; [lia|]. cbn in Hj.
  cbn [list_to_set length].
  destruct i as [|i].
  - cbn in Hi. injection Hi as ->.
    assert (Hin : x ∈ l) by (eapply list_elem_of_lookup_2; exact Hj).
    assert (Hsub : size ({[x]} ∪ list_to_set (C := gset string) l)
                   <= size (list_to_set (C := gset string) l)).
    { apply subseteq_size. intros p Hp.
      apply elem_of_union in Hp as [Hp|Hp]; [|exact Hp].
      apply elem_of_singleton in Hp. subst p.
      apply elem_of_list_to_set. exact Hin. }
    pose proof (size_list_to_set_le l). lia.
  - cbn in Hi.
    assert (Hlt : size (list_to_set (C := gset string) l) < length l).
    { apply (IH i j x); [lia | exact Hi | exact Hj]. }
    pose proof (size_union_bound {[y]} (list_to_set l)) as Hb.
    rewrite size_singleton in Hb. lia.
Qed.

Lemma saved_under_size `{Platform} (dir : string)
    (cs : list Downloader.Newsletter) (w w' : Downloader.Store) :
  saved_under dir cs w w' ->
  size (Downloader.files w') <=
    size (Downloader.files w)
    + size (list_to_set (C := gset string) (map (saved_path dir) cs)).
Proof.
  intros (_ & _ & Hchanged).
  rewrite <- !(size_dom (D := gset string)).
  etrans; [|apply size_union_bound].
  apply subseteq_size. intros p Hp.
  apply elem_of_dom in Hp.
  destruct (Downloader.files w !! p) as [t|] eqn:Hw.
  - apply elem_of_union_l, elem_of_dom. rewrite Hw. eauto.
  - apply elem_of_union_r, elem_of_list_to_set.
    destruct (Hchanged p) as (c & Hin & ->).
    + rewrite Hw. destruct Hp as [t Ht]. rewrite Ht. discriminate.
    + apply list_elem_of_In, in_map, Hin.
Qed.

(** X17. The counter of successes can exceed the number of files: when
    two of the listed campaigns have the same send time and the same
    subject line, a run of [download_all_newsletters] that saves every
    campaign leaves fewer new files than campaigns, the later newsletter
    having replaced the earlier one. *)
Theorem resent_newsletter_replaces_the_earlier_file `{P : Platform}
    `{R : Downloader.Runtime} (api : Downloader.Api) (fuel : nat)
    (dir : string) (w w1 w' : Downloader.Store)
    (cs : list Downloader.Newsletter) (i j : nat)
    (c1 c2 : Downloader.Newsletter) :
  Downloader.get_all_campaigns api fuel (made w dir) =
    (Downloader.Done (Some cs), w1) ->
  Downloader.download_all_newsletters api fuel dir w =
    (Downloader.Done (Some (Some (length cs, 0))), w') ->
  i < j -> cs !! i = Some c1 -> cs !! j = Some c2 ->
  c_send_time (Downloader.as_campaign c1)
    = c_send_time (Downloader.as_campaign c2) ->
  subject_line (default no_settings (c_settings (Downloader.as_campaign c1)))
    = subject_line
        (default no_settings (c_settings (Downloader.as_campaign c2))) ->
  size (Downloader.files w') < size (Downloader.files w) + length cs.
Proof.
  intros Hlist Hrun Hij Hi Hj Htime Hsubject.
  destruct (Downloader.mkdir_succeeds dir) eqn:Hmk.
  2:{ unfold Downloader.download_all_newsletters, mbind, Downloader.D_bind,
        Downloader.and_then, Downloader.mkdir in Hrun.
      rewrite Hmk in Hrun. discriminate. }
  rewrite (download_all_newsletters_run api fuel dir w w1 cs Hmk Hlist) in Hrun.
  pose proof (listing_store api 1000 fuel ([], 0) (made w dir)) as Hstore.
  cbn zeta in Hstore. fold (Downloader.get_all_campaigns api fuel) in Hstore.
  rewrite Hlist in Hstore. cbn [fst snd] in Hstore.
  destruct Hstore as (Hf1 & _ & _). cbn [Downloader.files made] in Hf1.
  destruct cs as [|c cs]; [discriminate|].
  pose proof (download_loop_cases api dir (c :: cs) 0 0 w1) as Hloop.
  destruct (Downloader.for_each _ (c :: cs) (0, 0) w1) as [[[s f]|e] w2];
    [|discriminate].
  injection Hrun as _ _ ->.
  destruct Hloop as (_ & _ & _ & Hsaved & _).
  apply saved_under_size in Hsaved. rewrite Hf1 in Hsaved.
  assert (Hpath : saved_path dir c1 = saved_path dir c2).
  { unfold saved_path, markdown_name. rewrite Htime, Hsubject. reflexivity. }
  assert (Hrep : size (list_to_set (C := gset string)
                         (map (saved_path dir) (c :: cs)))
                 < length (map (saved_path dir) (c :: cs))).
  { apply (size_list_to_set_repeated _ i j (saved_path dir c1) Hij).
    - change (map (saved_path dir) (c :: cs))
        with (saved_path dir <$> (c :: cs)).
      rewrite list_lookup_fmap, Hi. reflexivity.
    - change (map (saved_path dir) (c :: cs))
        with (saved_path dir <$> (c :: cs)).
      rewrite list_lookup_fmap, Hj, Hpath. reflexivity. }
  rewrite length_map in Hrep. lia.
Qed.

Lemma resent_newsletter_replaces_the_earlier_file_witness :
  exists w',
    @Downloader.download_all_newsletters test_platform test_runtime
      (archive_api resent_issue) 5 "mailchimp_newsletters" empty_store
      = (Downloader.Done (Some (Some (2, 0))), w') /\
    size (Downloader.files w') < size (Downloader.files empty_store) + 2.
Proof.
  eexists. split.
  - vm_compute. reflexivity.
  - refine (@resent_newsletter_replaces_the_earlier_file test_platform
              test_runtime (archive_api resent_issue) 5
              "mailchimp_newsletters" empty_store _ _ resent_issue 0 1
              (issue "c1" "Weekly update") (issue "c2" "Weekly update")
              _ _ _ _ _ _ _).
    + vm_compute. reflexivity.
    + vm_compute. reflexivity.
    + lia.
    + reflexivity.
    + reflexivity.
    + reflexivity.
    + reflexivity.
Defined.

(** ** The downloader lists campaigns as the basic generator does *)

Section SameListing.
Context (net : Net) (api : Downloader.Api).
Hypothesis Hsame : same_catalogue net api.

Lemma page_bodies_alike (count : nat) (acc : list Downloader.Newsletter)
    (offset : nat) (w : World) (dw : Downloader.Store) :
  requests w = Downloader.requests_made dw ->
  let b := Basic.page_body net count (map Downloader.as_campaign acc, offset) w in
  let d := Downloader.page_body api count (acc, offset) dw in
  snd b = after_get (ReqCampaigns offset count) None w /\
  snd d = called dw (Downloader.GetCampaigns offset count) /\
  match fst b, fst d with
  | Ret c, Downloader.Done c' => c = ctl_view c'
  | Raise e, Downloader.Fail e' => e' = Downloader.RequestFailure e
  | _, _ => False
  end.
Proof.
  intros Hreq. cbv zeta.
  unfold Basic.page_body, Downloader.page_body, mbind, M_bind, bind,
    Downloader.D_bind, Downloader.and_then, http_get, Downloader.http_get.
  fold (called dw (Downloader.GetCampaigns offset count)).
  change {| requests := S (requests w);
            log := log w ++ [EvGet (ReqCampaigns offset count) None];
            disk := disk w |}
    with (after_get (ReqCampaigns offset count) None w).
  rewrite Hsame, Hreq.
  destruct (Downloader.list_campaigns api _ offset count) as [r|e];
    cbn [answer_view]; [|repeat split].
  cbn [response_view status_code].
  destruct (status_code r =? 200)%Z; cbn [negb]; [|repeat split].
  unfold response_json, Downloader.response_json. cbn [json response_view].
  destruct (json r) as [data|]; cbn [option_map]; [|repeat split].
  cbn -[Nat.ltb after_get called].
  destruct (Downloader.listed data) as [[|c page]|];
    cbn -[Nat.ltb after_get called]; [repeat split| |repeat split].
  rewrite length_map.
  destruct (S (length page) <? count)%nat; cbn -[after_get called];
    repeat split; rewrite map_app; reflexivity.
Qed.

Lemma listings_alike (count fuel : nat) :
  forall (acc : list Downloader.Newsletter) (offset : nat) (w : World)
         (dw : Downloader.Store),
  requests w = Downloader.requests_made dw ->
  let b := while_true fuel (Basic.page_body net count)
             (map Downloader.as_campaign acc, offset) w in
  let d := Downloader.while_true fuel (Downloader.page_body api count)
             (acc, offset) dw in
  same_listing (fst b) (fst d) /\
  requests (snd b) = Downloader.requests_made (snd d) /\
  exists pages,
    log (snd b) = log w ++ generator_requests pages /\
    Downloader.calls (snd d) = Downloader.calls dw ++ downloader_requests pages.
Proof.
  induction fuel as [|fuel IH]; intros acc offset w dw Hreq.
  - cbn. split; [reflexivity|]. split; [exact Hreq|].
    exists []. cbn. now rewrite !app_nil_r.
  - cbn [while_true Downloader.while_true].
    unfold mbind, M_bind, bind, Downloader.D_bind, Downloader.and_then.
    pose proof (page_bodies_alike count acc offset w dw Hreq) as Hpage.
    cbv zeta in Hpage.
    destruct (Basic.page_body net count _ w) as [[c|e] w1];
      destruct (Downloader.page_body api count _ dw) as [[c'|e'] dw1];
      cbn [fst snd] in Hpage; destruct Hpage as (-> & -> & Hc);
      try contradiction.
    + subst c. destruct c' as [[acc' offset']|r]; cbn [ctl_view].
      * destruct (IH acc' offset'
                    (after_get (ReqCampaigns offset count) None w)
                    (called dw (Downloader.GetCampaigns offset count)))
          as (Hres & Hreq' & pages & Hlog & Hcalls).
        { cbn. now rewrite Hreq. }
        split; [exact Hres|]. split; [exact Hreq'|].
        exists ((offset, count) :: pages).
        rewrite Hlog, Hcalls. cbn. now rewrite <- !app_assoc.
      * cbn. split; [reflexivity|]. split; [now rewrite Hreq|].
        exists [(offset, count)]. split; reflexivity.
    + cbn. split; [exact Hc|]. split; [now rewrite Hreq|].
      exists [(offset, count)]. split; reflexivity.
Qed.

End SameListing.

(** X18. The downloader lists an account exactly as the basic generator
    does: when the two are answered alike and start after the same number
    of requests, their [get_all_campaigns] end with the same campaigns (or
    with the same exception, or both cut off), after the same requests
    for the same pages. *)
Theorem downloader_lists_what_the_basic_generator_lists (net : Net)
    (api : Downloader.Api) (fuel : nat) (w : World) (dw : Downloader.Store) :
  same_catalogue net api ->
  requests w = Downloader.requests_made dw ->
  let b := Basic.get_all_campaigns net fuel w in
  let d := Downloader.get_all_campaigns api fuel dw in
  same_listing (fst b) (fst d) /\
  requests (snd b) = Downloader.requests_made (snd d) /\
  exists pages,
    log (snd b) = log w ++ generator_requests pages /\
    Downloader.calls (snd d) = Downloader.calls dw ++ downloader_requests pages.
Proof.
  intros Hsame Hreq.
  exact (listings_alike net api Hsame 1000 fuel [] 0 w dw Hreq).
Qed.

Lemma downloader_lists_what_the_basic_generator_lists_witness :
  let api := archive_api two_issues in
  let b := Basic.get_all_campaigns (generator_view api) 5 fresh_world in
  let d := Downloader.get_all_campaigns api 5 empty_store in
  same_listing (fst b) (fst d) /\
  requests (snd b) = Downloader.requests_made (snd d) /\
  exists pages,
    log (snd b) = log fresh_world ++ generator_requests pages /\
    Downloader.calls (snd d)
      = Downloader.calls empty_store ++ downloader_requests pages.
Proof.
  refine (downloader_lists_what_the_basic_generator_lists
            (generator_view (archive_api two_issues))
            (archive_api two_issues) 5 fresh_world empty_store _ _).
  - intros n offset count. reflexivity.
  - reflexivity.
Defined.
